(** * The approval-gated artifact pipeline of pedal2

    A shallow embedding of the Airflow plugins and of the DAG of the
    repository:

    - [plugins/hooks/supabase_hook.py]       -> module [SupabaseHook]
    - [plugins/utils/node_executor.py]       -> module [NodeExecutor]
    - [plugins/operators/approval_operator.py]
                                             -> [ApprovalOperator], [ManualApprovalOperator]
    - [plugins/operators/prd_processor.py], [api_generator.py],
      [typespec_generator.py], [schema_generator.py]
                                             -> one module per operator
    - [dags/swe_artifact_pipeline.py]        -> module [Dag]

    The Python code is effectful: every hook call is a query against the
    database, and an exception leaves behind the rows written before it was
    raised.  The embedding threads the outside world (the three tables, the
    processor scripts) through a state-and-exception monad [M].

    Names used by the specification and names used by the code:
    ROOT_SPEC = 'PRD', DOMAIN_MODEL = 'DDD_MODEL', INTERFACE_SPEC = 'TYPESPEC',
    VALIDATION_SCHEMA = 'ZOD_SCHEMA', STORAGE_SCHEMA = 'DB_SCHEMA';
    the artifact status the specification calls AWAITING_APPROVAL is the
    string 'PENDING_APPROVAL' in the code. *)

From Stdlib Require Import List ZArith String Bool Lia.
Import ListNotations.

Set Warnings "-register-all".

Local Open Scope string_scope.
Local Open Scope list_scope.
Local Open Scope Z_scope.

(** ** Values *)

(** The result of [json.loads]: artifact contents and processor outputs. *)
Inductive json : Type :=
| JNull
| JBool (b : bool)
| JNum (n : Z)
| JStr (s : string)
| JArr (items : list json)
| JObj (fields : list (string * json)).

(** Python truthiness of a JSON value ([if not prd_content]). *)
Definition truthy (j : json) : bool :=
  match j with
  | JNull => false
  | JBool b => b
  | JNum n => negb (n =? 0)
  | JStr s => negb (s =? "")%string
  | JArr items => match items with [] => false | _ => true end
  | JObj fields => match fields with [] => false | _ => true end
  end.

Fixpoint assoc (key : string) (fields : list (string * json)) : option json :=
  match fields with
  | [] => None
  | (k, v) :: rest => if (k =? key)%string then Some v else assoc key rest
  end.

(** ** Exceptions *)

(** The texts of the [ValueError]s raised by the operators. *)
Inductive message : Type :=
| ArtifactNotFound (artifact_id : Z)
    (* f"Artifact with ID {artifact_id} not found" *)
| NotOfType (artifact_id : Z) (expected : string)
    (* f"Artifact with ID {artifact_id} is not a PRD" and the like *)
| NoPipelineStage (artifact_type : string)
    (* f"No pipeline stage found for artifact type {artifact['type']}" *)
| PRDContentRequired.
    (* 'PRD content is required' *)

Inductive exn : Type :=
| ValueError (msg : message)
| KeyError (key : string)          (* subscript of a dict without the key *)
| TypeError                        (* subscript of None or of a non-dict *)
| JSONDecodeError                  (* json.loads on the text "undefined" *)
| FileNotFoundError (processor_name : string)
| ProcessorException (stderr : string).
    (* Exception(f"Processor execution failed: {error_message}") *)

Inductive result (A : Type) : Type :=
| Ok (value : A)
| Raise (e : exn).
Arguments Ok {A} value.
Arguments Raise {A} e.

(** Subscript [d[key]] on a parsed JSON value. *)
Definition subscript (j : json) (key : string) : result json :=
  match j with
  | JObj fields =>
      match assoc key fields with
      | Some v => Ok v
      | None => Raise (KeyError key)
      end
  | _ => Raise TypeError
  end.

(** ** Rows of the three tables

    The table definitions ([shared/schema]) are not part of the Python
    sources; the rows carry the columns the Python code reads and writes. *)

Record Artifact : Type := mkArtifact {
  a_id : Z;
  a_name : string;
  a_type : string;
  a_content : json;
  a_createdBy : string;
  a_parentId : option Z;
  a_status : string;
  a_updatedAt : option nat
}.

Record Approval : Type := mkApproval {
  ap_id : Z;
  ap_artifactId : Z;
  ap_stakeholderId : Z;
  ap_status : string;
  ap_comment : option string;
  ap_updatedAt : option nat
}.

Record PipelineStage : Type := mkStage {
  st_orderIndex : Z;
  st_artifactType : string;
  st_requiredApprovals : Z
}.

(** The dictionaries handed to [create_artifact] / [create_approval]: a row
    without the columns the database fills in. *)
Record ArtifactData : Type := mkArtifactData {
  d_name : string;
  d_type : string;
  d_content : json;
  d_createdBy : string;
  d_parentId : option Z;
  d_status : string
}.

Record ApprovalData : Type := mkApprovalData {
  d_artifactId : Z;
  d_stakeholderId : Z;
  d_approval_status : string
}.

(** The dictionary handed to [update_approval]: ['status'] always, and
    ['comment'] when the operator got a non-empty one. *)
Record ApprovalUpdate : Type := mkApprovalUpdate {
  u_status : string;
  u_comment : option string
}.

(** ** The world outside the Python process *)

Record World : Type := mkWorld {
  artifacts : list Artifact;
  approvals : list Approval;
  pipelineStages : list PipelineStage;
  next_artifact_id : Z;            (* serial of [artifacts.id] *)
  next_approval_id : Z;            (* serial of [approvals.id] *)
  clock : nat;                     (* logical time: what [new Date()] reads,
                                      advanced by every writing statement *)
  scripts : string -> option (json -> result json);
                                   (* scripts/processors/<name>.js *)
  invocations : list (string * json)
                                   (* processor runs so far, oldest first *)
}.

Definition with_artifacts (w : World) (rows : list Artifact) (next : Z) : World :=
  mkWorld rows (approvals w) (pipelineStages w) next (next_approval_id w)
          (S (clock w)) (scripts w) (invocations w).

Definition with_approvals (w : World) (rows : list Approval) (next : Z) : World :=
  mkWorld (artifacts w) rows (pipelineStages w) (next_artifact_id w) next
          (S (clock w)) (scripts w) (invocations w).

Definition with_invocation (w : World) (call : string * json) : World :=
  mkWorld (artifacts w) (approvals w) (pipelineStages w) (next_artifact_id w)
          (next_approval_id w) (clock w) (scripts w) (invocations w ++ [call]).

(** ** The monad of the operators: state, and exceptions that keep the state *)

Definition M (A : Type) : Type := World -> result A * World.

Definition ret {A : Type} (a : A) : M A := fun w => (Ok a, w).

Definition raise {A : Type} (e : exn) : M A := fun w => (Raise e, w).

Definition bind {A B : Type} (m : M A) (k : A -> M B) : M B :=
  fun w =>
    match m w with
    | (Ok a, w') => k a w'
    | (Raise e, w') => (Raise e, w')
    end.

Definition lift {A : Type} (r : result A) : M A := fun w => (r, w).

Declare Scope py_scope.
Delimit Scope py_scope with py.
Notation "x <- m ;; k" := (bind m (fun x => k))
  (at level 61, m at next level, right associativity) : py_scope.
Notation "m ;;; k" := (bind m (fun _ => k))
  (at level 61, right associativity) : py_scope.
Local Open Scope py_scope.

(** ** plugins/hooks/supabase_hook.py

    Every method of the hook writes a Node.js script, runs it and parses
    what it prints.  The definitions below give the query of each script on
    the tables, for the runs in which the Node.js process ends with exit
    code 0.  The [Exception] that [_run_node_script] raises on another exit
    code (database unreachable, a query the database refuses) is not part
    of the embedding: the theorems describe what a call does when the
    database answers, and none of them lists the ways a call can fail. *)

Module SupabaseHook.

(** [select().from(artifacts).where(eq(artifacts.id, id))], first row or
    null. *)
Definition get_artifact (artifact_id : Z) : M (option Artifact) :=
  fun w => (Ok (find (fun a => a_id a =? artifact_id) (artifacts w)), w).

(** [insert(artifacts).values(data).returning()]. *)
Definition create_artifact (data : ArtifactData) : M Artifact :=
  fun w =>
    let row := mkArtifact (next_artifact_id w) (d_name data) (d_type data)
                          (d_content data) (d_createdBy data)
                          (d_parentId data) (d_status data) None in
    (Ok row, with_artifacts w (artifacts w ++ [row]) (next_artifact_id w + 1)).

Definition set_artifact_status (now : nat) (status : string) (a : Artifact)
  : Artifact :=
  mkArtifact (a_id a) (a_name a) (a_type a) (a_content a) (a_createdBy a)
             (a_parentId a) status (Some now).

(** What the update statement does to one row: [where(eq(artifacts.id, id))]. *)
Definition touch_artifact (now : nat) (artifact_id : Z) (status : string)
           (a : Artifact) : Artifact :=
  if a_id a =? artifact_id then set_artifact_status now status a else a.

(** [update(artifacts).set({...data, updatedAt: new Date()})
     .where(eq(artifacts.id, id)).returning()] with [data = {'status': s}],
    the only dictionary the operators pass.  When no row has the id the
    script prints [undefined] and [json.loads] raises. *)
Definition update_artifact (artifact_id : Z) (status : string) : M Artifact :=
  fun w =>
    let rows :=
      map (touch_artifact (clock w) artifact_id status) (artifacts w) in
    let w' := with_artifacts w rows (next_artifact_id w) in
    match find (fun a => a_id a =? artifact_id) rows with
    | Some row => (Ok row, w')
    | None => (Raise JSONDecodeError, w')
    end.

(** [insert(approvals).values(data).returning()]. *)
Definition create_approval (data : ApprovalData) : M Approval :=
  fun w =>
    let row := mkApproval (next_approval_id w) (d_artifactId data)
                          (d_stakeholderId data) (d_approval_status data)
                          None None in
    (Ok row, with_approvals w (approvals w ++ [row]) (next_approval_id w + 1)).

Definition apply_approval_update (now : nat) (data : ApprovalUpdate)
           (p : Approval) : Approval :=
  mkApproval (ap_id p) (ap_artifactId p) (ap_stakeholderId p) (u_status data)
             (match u_comment data with
              | Some c => Some c
              | None => ap_comment p
              end)
             (Some now).

(** What the update statement does to one row: [where(eq(approvals.id, id))],
    the id being the only condition. *)
Definition touch_approval (now : nat) (approval_id : Z) (data : ApprovalUpdate)
           (p : Approval) : Approval :=
  if ap_id p =? approval_id then apply_approval_update now data p else p.

(** [update(approvals).set({...data, updatedAt: new Date()})
     .where(eq(approvals.id, id)).returning()]; [undefined], hence an
    exception of [json.loads], when no row has the id. *)
Definition update_approval (approval_id : Z) (data : ApprovalUpdate)
  : M Approval :=
  fun w =>
    let rows :=
      map (touch_approval (clock w) approval_id data) (approvals w) in
    let w' := with_approvals w rows (next_approval_id w) in
    match find (fun p => ap_id p =? approval_id) rows with
    | Some row => (Ok row, w')
    | None => (Raise JSONDecodeError, w')
    end.

(** [select().from(approvals).where(eq(approvals.artifactId, artifactId))]. *)
Definition get_approvals_for_artifact (artifact_id : Z) : M (list Approval) :=
  fun w =>
    (Ok (filter (fun p => ap_artifactId p =? artifact_id) (approvals w)), w).

(** [select().from(pipelineStages).where(eq(orderIndex, i))], first row or
    null. *)
Definition get_pipeline_stage_by_order (order_index : Z)
  : M (option PipelineStage) :=
  fun w =>
    (Ok (find (fun st => st_orderIndex st =? order_index) (pipelineStages w)),
     w).

End SupabaseHook.

(** ** plugins/utils/node_executor.py *)

Module NodeExecutor.

(** [execute_processor(processor_name, input_data)]: fails when the script
    is missing, otherwise runs it once on the input. *)
Definition execute_processor (processor_name : string) (input_data : json)
  : M json :=
  fun w =>
    match scripts w processor_name with
    | None => (Raise (FileNotFoundError processor_name), w)
    | Some run => (run input_data, with_invocation w (processor_name, input_data))
    end.

End NodeExecutor.

(** ** plugins/operators/approval_operator.py *)

(** [range(6)]: the six order indices the stage scans try. *)
Definition range6 : list Z := [0; 1; 2; 3; 4; 5].

(** [sum(1 for approval in approvals if approval['status'] == 'APPROVED')]. *)
Definition approved_count (rows : list Approval) : Z :=
  Z.of_nat (List.length (filter (fun p => (ap_status p =? "APPROVED")%string) rows)).

Module ApprovalOperator.

(** The [for i in range(6)] loop: the first stage, in order of index, whose
    [artifactType] is the artifact's type; [None] when the loop ends without
    a [break]. *)
Fixpoint scan (indices : list Z) (artifact : Artifact)
  : M (option PipelineStage) :=
  match indices with
  | [] => ret None
  | i :: rest =>
      potential_stage <- SupabaseHook.get_pipeline_stage_by_order i ;;
      match potential_stage with
      | Some st =>
          if (st_artifactType st =? a_type artifact)%string
          then ret (Some st)
          else scan rest artifact
      | None => scan rest artifact
      end
  end.

Definition execute (artifact_id : Z) : M bool :=
  artifact <- SupabaseHook.get_artifact artifact_id ;;
  match artifact with
  | None => raise (ValueError (ArtifactNotFound artifact_id))
  | Some artifact =>
      stage <- scan range6 artifact ;;
      match stage with
      | None => raise (ValueError (NoPipelineStage (a_type artifact)))
      | Some stage =>
          approvals <- SupabaseHook.get_approvals_for_artifact artifact_id ;;
          let required_approvals := st_requiredApprovals stage in
          if approved_count approvals >=? required_approvals
          then SupabaseHook.update_artifact artifact_id "APPROVED" ;;;
               ret true
          else ret false
      end
  end.

End ApprovalOperator.

Module ManualApprovalOperator.

(** [update_data]: the status, and the comment when [self.comment] is
    truthy (neither [None] nor the empty string). *)
Definition update_data (approve : bool) (comment : option string)
  : ApprovalUpdate :=
  mkApprovalUpdate
    (if approve then "APPROVED" else "REJECTED")
    (match comment with
     | Some c => if (c =? "")%string then None else Some c
     | None => None
     end).

Definition execute (artifact_id stakeholder_id : Z) (approve : bool)
           (comment : option string) : M unit :=
  approvals <- SupabaseHook.get_approvals_for_artifact artifact_id ;;
  let stakeholder_approvals :=
    filter (fun p => ap_stakeholderId p =? stakeholder_id) approvals in
  match stakeholder_approvals with
  | [] => ret tt
  | approval :: _ =>
      SupabaseHook.update_approval (ap_id approval)
                                   (update_data approve comment) ;;;
      if negb approve
      then SupabaseHook.update_artifact artifact_id "REJECTED" ;;; ret tt
      else ret tt
  end.

End ManualApprovalOperator.

(** ** The four generating operators *)

Definition pending_approval (artifact_id stakeholder_id : Z) : ApprovalData :=
  mkApprovalData artifact_id stakeholder_id "PENDING".

Module PRDProcessorOperator.

Definition execute (task_id : string) (artifact_id : Z) : M Z :=
  prd_artifact <- SupabaseHook.get_artifact artifact_id ;;
  match prd_artifact with
  | None => raise (ValueError (ArtifactNotFound artifact_id))
  | Some prd_artifact =>
      if negb (a_type prd_artifact =? "PRD")%string
      then raise (ValueError (NotOfType artifact_id "PRD"))
      else
        result <- NodeExecutor.execute_processor "prd_processor"
                    (JObj [("prd", a_content prd_artifact)]) ;;
        created_artifact <- SupabaseHook.create_artifact
          (mkArtifactData ("DDD Model for " ++ a_name prd_artifact)%string
                          "DDD_MODEL" result task_id
                          (Some (a_id prd_artifact)) "PENDING_APPROVAL") ;;
        SupabaseHook.get_pipeline_stage_by_order 1 ;;;
        SupabaseHook.create_approval
          (pending_approval (a_id created_artifact) 1) ;;;
        ret (a_id created_artifact)
  end.

End PRDProcessorOperator.

Module APIGeneratorOperator.

Definition execute (task_id : string) (artifact_id : Z) : M Z :=
  ddd_artifact <- SupabaseHook.get_artifact artifact_id ;;
  match ddd_artifact with
  | None => raise (ValueError (ArtifactNotFound artifact_id))
  | Some ddd_artifact =>
      if negb (a_type ddd_artifact =? "DDD_MODEL")%string
      then raise (ValueError (NotOfType artifact_id "DDD_MODEL"))
      else
        result <- NodeExecutor.execute_processor "api_generator"
                    (JObj [("ddd_model", a_content ddd_artifact)]) ;;
        created_artifact <- SupabaseHook.create_artifact
          (mkArtifactData ("API Specification for " ++ a_name ddd_artifact)%string
                          "API_SPEC" result task_id
                          (Some (a_id ddd_artifact)) "PENDING_APPROVAL") ;;
        SupabaseHook.get_pipeline_stage_by_order 2 ;;;
        SupabaseHook.create_approval
          (pending_approval (a_id created_artifact) 1) ;;;
        SupabaseHook.create_approval
          (pending_approval (a_id created_artifact) 2) ;;;
        ret (a_id created_artifact)
  end.

End APIGeneratorOperator.

Module TypeSpecGeneratorOperator.

Definition execute (task_id : string) (artifact_id : Z) : M Z :=
  api_artifact <- SupabaseHook.get_artifact artifact_id ;;
  match api_artifact with
  | None => raise (ValueError (ArtifactNotFound artifact_id))
  | Some api_artifact =>
      if negb (a_type api_artifact =? "API_SPEC")%string
      then raise (ValueError (NotOfType artifact_id "API_SPEC"))
      else
        result <- NodeExecutor.execute_processor "typespec_generator"
                    (JObj [("api_spec", a_content api_artifact)]) ;;
        created_artifact <- SupabaseHook.create_artifact
          (mkArtifactData ("TypeSpec for " ++ a_name api_artifact)%string
                          "TYPESPEC" result task_id
                          (Some (a_id api_artifact)) "PENDING_APPROVAL") ;;
        SupabaseHook.get_pipeline_stage_by_order 3 ;;;
        SupabaseHook.create_approval
          (pending_approval (a_id created_artifact) 3) ;;;
        ret (a_id created_artifact)
  end.

End TypeSpecGeneratorOperator.

Module SchemaGeneratorOperator.

(** The dictionary [{'zod_schema_id': ..., 'db_schema_id': ...}]. *)
Record SchemaIds : Type := mkSchemaIds {
  zod_schema_id : Z;
  db_schema_id : Z
}.

Definition execute (task_id : string) (artifact_id : Z) : M SchemaIds :=
  typespec_artifact <- SupabaseHook.get_artifact artifact_id ;;
  match typespec_artifact with
  | None => raise (ValueError (ArtifactNotFound artifact_id))
  | Some typespec_artifact =>
      if negb (a_type typespec_artifact =? "TYPESPEC")%string
      then raise (ValueError (NotOfType artifact_id "TYPESPEC"))
      else
        result <- NodeExecutor.execute_processor "schema_generator"
                    (JObj [("typespec", a_content typespec_artifact)]) ;;
        zod_content <- lift (subscript result "zod_schema") ;;
        created_zod_artifact <- SupabaseHook.create_artifact
          (mkArtifactData ("Zod Schema for " ++ a_name typespec_artifact)%string
                          "ZOD_SCHEMA" zod_content task_id
                          (Some (a_id typespec_artifact)) "PENDING_APPROVAL") ;;
        db_content <- lift (subscript result "db_schema") ;;
        created_db_artifact <- SupabaseHook.create_artifact
          (mkArtifactData ("Database Schema for " ++ a_name typespec_artifact)%string
                          "DB_SCHEMA" db_content task_id
                          (Some (a_id typespec_artifact)) "PENDING_APPROVAL") ;;
        SupabaseHook.get_pipeline_stage_by_order 4 ;;;
        SupabaseHook.get_pipeline_stage_by_order 5 ;;;
        SupabaseHook.create_approval
          (pending_approval (a_id created_zod_artifact) 2) ;;;
        SupabaseHook.create_approval
          (pending_approval (a_id created_zod_artifact) 4) ;;;
        SupabaseHook.create_approval
          (pending_approval (a_id created_db_artifact) 3) ;;;
        SupabaseHook.create_approval
          (pending_approval (a_id created_db_artifact) 5) ;;;
        ret (mkSchemaIds (a_id created_zod_artifact) (a_id created_db_artifact))
  end.

End SchemaGeneratorOperator.

(** ** dags/swe_artifact_pipeline.py *)

Module Dag.

(** [create_prd_artifact], with [kwargs.get('prd_content', {})]
    and [kwargs.get('prd_name', 'New PRD')]. *)
Definition create_prd_artifact (prd_name : option string)
           (prd_content : option json) : M Z :=
  let prd_content :=
    match prd_content with Some c => c | None => JObj [] end in
  let prd_name :=
    match prd_name with Some n => n | None => "New PRD" end in
  if negb (truthy prd_content)
  then raise (ValueError PRDContentRequired)
  else
    created_artifact <- SupabaseHook.create_artifact
      (mkArtifactData prd_name "PRD" prd_content "airflow" None
                      "PENDING_APPROVAL") ;;
    SupabaseHook.create_approval
      (pending_approval (a_id created_artifact) 1) ;;;
    ret (a_id created_artifact).

(** The stage scan of [check_artifact_approvals]; [artifact] may be [None]
    here, and [artifact['type']] is evaluated only once a stage row is
    found. *)
Fixpoint scan (indices : list Z) (artifact : option Artifact)
  : M (option PipelineStage) :=
  match indices with
  | [] => ret None
  | i :: rest =>
      potential_stage <- SupabaseHook.get_pipeline_stage_by_order i ;;
      match potential_stage with
      | Some st =>
          match artifact with
          | None => raise TypeError
          | Some a =>
              if (st_artifactType st =? a_type a)%string
              then ret (Some st)
              else scan rest artifact
          end
      | None => scan rest artifact
      end
  end.

Definition check_artifact_approvals (artifact_id : Z) : M bool :=
  artifact <- SupabaseHook.get_artifact artifact_id ;;
  stage <- scan range6 artifact ;;
  match stage with
  | None =>
      (* Could not find a stage, consider approvals complete *)
      ret true
  | Some stage =>
      approvals <- SupabaseHook.get_approvals_for_artifact artifact_id ;;
      let required_count := st_requiredApprovals stage in
      ret (approved_count approvals >=? required_count)
  end.

(** The dictionary returned by [finalize_pipeline]. *)
Record Completion : Type := mkCompletion {
  c_zod_schema_id : Z;
  c_db_schema_id : Z;
  c_status : string
}.

(** [finalize_pipeline], as a function of the two ids it looks up.  The
    source pulls them from XCom under the keys ['zod_schema_id'] and
    ['db_schema_id']; here they are the fields of the dictionary that
    [generate_schemas] returns.  Printing [zod_schema['name']] raises when
    the row is missing. *)
Definition finalize_pipeline (ids : SchemaGeneratorOperator.SchemaIds)
  : M Completion :=
  let zod_schema_id := SchemaGeneratorOperator.zod_schema_id ids in
  let db_schema_id := SchemaGeneratorOperator.db_schema_id ids in
  zod_schema <- SupabaseHook.get_artifact zod_schema_id ;;
  db_schema <- SupabaseHook.get_artifact db_schema_id ;;
  match zod_schema, db_schema with
  | Some _, Some _ => ret (mkCompletion zod_schema_id db_schema_id "completed")
  | _, _ => raise TypeError
  end.

(** *** The task graph

    Airflow runs a task when its trigger rule holds; every task of this DAG
    has the rule [ALL_SUCCESS] (the default, and the one written out for
    [finalize_task]).  A task instance succeeds when its [execute] (or its
    Python callable) returns, whatever the value returned, and fails when it
    raises after its retries ([default_args]: ['retries': 1]); a task with a
    failed or skipped upstream task is not run.

    [fan_in] and [run] follow the wiring that the DAG file writes down:
    each operator is handed, as a number, the value returned by the task
    that its [artifact_id] template pulls from.  Whether Airflow delivers
    these values to the operators (the rendering of the [artifact_id]
    argument, the XCom keys of [generate_schemas]) is decided by Airflow and
    not by the Python sources, so [run] is the sequence of operator calls of
    a run in which every id is delivered.  It is used for properties that
    hold of every operator call, whatever its argument: the frame and the
    consistency of the tables. *)

Inductive TaskState (A : Type) : Type :=
| success (xcom : A)
| failed (e : exn)
| upstream_failed.
Arguments success {A} xcom.
Arguments failed {A} e.
Arguments upstream_failed {A}.

Definition retries : nat := 1.

Fixpoint attempt {A : Type} (tries_left : nat) (task : M A) (w : World)
  : TaskState A * World :=
  match task w with
  | (Ok v, w') => (success v, w')
  | (Raise e, w') =>
      match tries_left with
      | O => (failed e, w')
      | S n => attempt n task w'
      end
  end.

Definition run_task {A : Type} (task : M A) : World -> TaskState A * World :=
  attempt retries task.

(** [up >> task], the task reading the XCom value of [up]. *)
Definition downstream {A B : Type} (up : TaskState A) (task : A -> M B)
  : World -> TaskState B * World :=
  fun w =>
    match up with
    | success a => run_task (task a) w
    | _ => (upstream_failed, w)
    end.

(** The XCom value [x] as seen by a task placed after [up]. *)
Definition gate {A B : Type} (up : TaskState A) (x : TaskState B) : TaskState B :=
  match up with
  | success _ => x
  | _ => upstream_failed
  end.

Record FanIn : Type := mkFanIn {
  check_zod_approvals : TaskState bool;
  check_db_approvals : TaskState bool;
  finalize_task : TaskState Completion
}.

(** [generate_schemas_task >> [check_zod_approvals, check_db_approvals]]
    and [[check_zod_approvals, check_db_approvals] >> finalize_task]. *)
Definition fan_in (generate_schemas
                   : TaskState SchemaGeneratorOperator.SchemaIds)
  : World -> FanIn * World :=
  fun w =>
    let (zod, w1) :=
      downstream generate_schemas
        (fun ids => ApprovalOperator.execute
                      (SchemaGeneratorOperator.zod_schema_id ids)) w in
    let (db, w2) :=
      downstream generate_schemas
        (fun ids => ApprovalOperator.execute
                      (SchemaGeneratorOperator.db_schema_id ids)) w1 in
    let (fin, w3) :=
      downstream (gate zod (gate db generate_schemas)) finalize_pipeline w2 in
    (mkFanIn zod db fin, w3).

Record DagRun : Type := mkDagRun {
  create_prd : TaskState Z;
  check_prd_approvals : TaskState bool;
  process_prd : TaskState Z;
  check_ddd_approvals : TaskState bool;
  generate_api : TaskState Z;
  check_api_approvals : TaskState bool;
  generate_typespec : TaskState Z;
  check_typespec_approvals : TaskState bool;
  generate_schemas : TaskState SchemaGeneratorOperator.SchemaIds;
  schema_checks : FanIn
}.

(** One DAG run with [dag_run.conf = {prd_name, prd_content}], every
    operator being handed the value that its [artifact_id] template names
    (see above). *)
Definition run (prd_name : option string) (prd_content : option json)
  : World -> DagRun * World :=
  fun w =>
    let (t1, w) := run_task (create_prd_artifact prd_name prd_content) w in
    let (t2, w) := downstream t1 ApprovalOperator.execute w in
    let (t3, w) :=
      downstream (gate t2 t1) (PRDProcessorOperator.execute "process_prd") w in
    let (t4, w) := downstream t3 ApprovalOperator.execute w in
    let (t5, w) :=
      downstream (gate t4 t3) (APIGeneratorOperator.execute "generate_api") w in
    let (t6, w) := downstream t5 ApprovalOperator.execute w in
    let (t7, w) :=
      downstream (gate t6 t5)
                 (TypeSpecGeneratorOperator.execute "generate_typespec") w in
    let (t8, w) := downstream t7 ApprovalOperator.execute w in
    let (t9, w) :=
      downstream (gate t8 t7)
                 (SchemaGeneratorOperator.execute "generate_schemas") w in
    let (join, w) := fan_in t9 w in
    (mkDagRun t1 t2 t3 t4 t5 t6 t7 t8 t9 join, w).

End Dag.

(** ** Observations on a world *)

(** The approval rows of one artifact, as [get_approvals_for_artifact]
    returns them. *)
Definition approvals_of (w : World) (artifact_id : Z) : list Approval :=
  filter (fun p => ap_artifactId p =? artifact_id) (approvals w).

(** The first pipeline stage, by order index 0..5, of an artifact type. *)
Fixpoint stage_among (indices : list Z) (stages : list PipelineStage)
         (artifact_type : string) : option PipelineStage :=
  match indices with
  | [] => None
  | i :: rest =>
      match find (fun st => st_orderIndex st =? i) stages with
      | Some st =>
          if (st_artifactType st =? artifact_type)%string
          then Some st
          else stage_among rest stages artifact_type
      | None => stage_among rest stages artifact_type
      end
  end.

Definition stage_of (w : World) (artifact_type : string) : option PipelineStage :=
  stage_among range6 (pipelineStages w) artifact_type.

(** The artifact row [get_artifact] returns. *)
Definition artifact_of (w : World) (artifact_id : Z) : option Artifact :=
  find (fun a => a_id a =? artifact_id) (artifacts w).

Definition artifact_status (w : World) (artifact_id : Z) : option string :=
  option_map a_status (artifact_of w artifact_id).

(** The approval row an id selects, and its stored decision. *)
Definition approval_of (w : World) (approval_id : Z) : option Approval :=
  find (fun p => ap_id p =? approval_id) (approvals w).

Definition approval_status (w : World) (approval_id : Z) : option string :=
  option_map ap_status (approval_of w approval_id).

(** Whether some row with this approval id already stores APPROVED. *)
Definition stores_approved (w : World) (approval_id : Z) : bool :=
  existsb (fun p => (ap_id p =? approval_id)
                    && (ap_status p =? "APPROVED")%string)
          (approvals w).

(** The rows [ManualApprovalOperator] finds for a stakeholder. *)
Definition stakeholder_approvals (w : World) (artifact_id stakeholder_id : Z)
  : list Approval :=
  filter (fun p => ap_stakeholderId p =? stakeholder_id)
         (approvals_of w artifact_id).



(** The quorum count in the words of the specification: the number of
    approval records for the artifact whose status is APPROVED.  It is
    defined on its own, by recursion over the approval table, to be compared
    with what the code counts ([approved_count] over the rows that
    [get_approvals_for_artifact] returns). *)
Fixpoint approved_records (rows : list Approval) (artifact_id : Z) : nat :=
  match rows with
  | [] => O
  | p :: rest =>
      if Z.eq_dec (ap_artifactId p) artifact_id
      then if string_dec (ap_status p) "APPROVED"
           then S (approved_records rest artifact_id)
           else approved_records rest artifact_id
      else approved_records rest artifact_id
  end.

(** The artifacts of a type derived from a parent. *)
Definition children (w : World) (parent_id : Z) (target_type : string)
  : list Artifact :=
  filter (fun a => match a_parentId a with
                   | Some p => (p =? parent_id) && (a_type a =? target_type)%string
                   | None => false
                   end)
         (artifacts w).

(** A small deployment used for the closed examples: the six stages, and
    processor scripts that answer with fixed documents. *)
Module Sample.

Definition stages : list PipelineStage :=
  [ mkStage 0 "PRD" 1; mkStage 1 "DDD_MODEL" 1; mkStage 2 "API_SPEC" 2;
    mkStage 3 "TYPESPEC" 1; mkStage 4 "ZOD_SCHEMA" 2; mkStage 5 "DB_SCHEMA" 2 ].

(** What the schema generator answers, and what the other processors do. *)
Definition schemas : json :=
  JObj [("zod_schema", JStr "z.object({})");
        ("db_schema", JStr "CREATE TABLE t ()")].

Definition echo (input : json) : result json := Ok (JObj [("from", input)]).

Definition processors (name : string) : option (json -> result json) :=
  if (name =? "schema_generator")%string
  then Some (fun _ => Ok schemas)
  else Some echo.

Definition empty : World :=
  mkWorld [] [] stages 1 1 0 processors [].

Definition checkout : json := JObj [("title", JStr "Checkout Flow")].

(** The world after [create_prd]: artifact 1 of type PRD, one pending
    approval (id 1) of stakeholder 1. *)
Definition prd : Artifact :=
  mkArtifact 1 "Checkout Flow" "PRD" checkout "airflow" None
             "PENDING_APPROVAL" None.

Definition seeded : World :=
  snd (Dag.create_prd_artifact (Some "Checkout Flow") (Some checkout) empty).

(** An API_SPEC artifact (id 1) with two approvals (ids 1 and 2) of
    stakeholders 1 and 2, both still pending. *)
Definition api : Artifact :=
  mkArtifact 1 "API" "API_SPEC" JNull "generate_api" None
             "PENDING_APPROVAL" None.

Definition api_world : World :=
  mkWorld [api]
          [mkApproval 1 1 1 "PENDING" None None;
           mkApproval 2 1 2 "PENDING" None None]
          stages 2 3 0 processors [].

(** An approved TYPESPEC artifact (id 1), ready for the branch stage. *)
Definition typespec : Artifact :=
  mkArtifact 1 "Cart" "TYPESPEC" (JStr "model Cart {}") "generate_typespec"
             None "APPROVED" None.

Definition typespec_world : World :=
  mkWorld [typespec] [] stages 2 1 0 processors [].

(** An artifact whose type no stage is configured for. *)
Definition notes : Artifact :=
  mkArtifact 1 "Notes" "MEETING_NOTES" JNull "airflow" None
             "PENDING_APPROVAL" None.

Definition orphan_world : World :=
  mkWorld [notes]
          [] stages 2 1 0 processors [].

End Sample.

(** ** Further observations and sample deployments *)

(** Whether some order index of [range(6)] has a stage row at all. *)
Definition some_stage_in_range (w : World) : bool :=
  existsb (fun i => match find (fun st => st_orderIndex st =? i)
                               (pipelineStages w) with
                    | Some _ => true
                    | None => false
                    end)
          range6.

Module Cases.

(** MEETING_NOTES has a stage, but at order index 6. *)
Definition late_stage_world : World :=
  mkWorld [Sample.notes] []
          (Sample.stages ++ [mkStage 6 "MEETING_NOTES" 1])
          2 1 0 Sample.processors [].

(** A deployment that numbers its six stages from 1, so that DB_SCHEMA is
    at order index 6, with a DB_SCHEMA artifact (id 1) and its two pending
    approvals. *)
Definition one_based_stages : list PipelineStage :=
  [ mkStage 1 "PRD" 1; mkStage 2 "DDD_MODEL" 1; mkStage 3 "API_SPEC" 2;
    mkStage 4 "TYPESPEC" 1; mkStage 5 "ZOD_SCHEMA" 2; mkStage 6 "DB_SCHEMA" 2 ].

Definition db_schema : Artifact :=
  mkArtifact 1 "Database Schema for Checkout Flow" "DB_SCHEMA"
             (JStr "CREATE TABLE cart") "generate_schemas" None
             "PENDING_APPROVAL" None.

Definition one_based_world : World :=
  mkWorld [db_schema]
          [ mkApproval 1 1 3 "PENDING" None None;
            mkApproval 2 1 5 "PENDING" None None ]
          one_based_stages 2 3 0 Sample.processors [].

(** Two stage rows for API_SPEC, at order indices 2 and 4. *)
Definition two_api_stages : list PipelineStage :=
  [ mkStage 0 "PRD" 1; mkStage 4 "API_SPEC" 5; mkStage 2 "API_SPEC" 2 ].

Definition two_api_stages_world : World :=
  mkWorld [Sample.api] [] two_api_stages 2 1 0 Sample.processors [].

(** A schema generator that forgets the database schema, one that answers
    with a list, and a PRD processor that fails. *)
Definition broken_processors (name : string) : option (json -> result json) :=
  if (name =? "schema_generator")%string
  then Some (fun _ => Ok (JObj [("zod_schema", JStr "z.object({})")]))
  else if (name =? "prd_processor")%string
  then Some (fun _ => Raise (ProcessorException "SyntaxError"))
  else if (name =? "api_generator")%string
  then None
  else Some Sample.echo.

Definition broken_typespec_world : World :=
  mkWorld [Sample.typespec] [] Sample.stages 2 1 0 broken_processors [].

Definition broken_prd_world : World :=
  mkWorld [Sample.prd] [mkApproval 1 1 1 "PENDING" None None] Sample.stages
          2 2 0 broken_processors [].

(** A DDD_MODEL artifact (id 1) and an API_SPEC artifact (id 2). *)
Definition ddd : Artifact :=
  mkArtifact 1 "DDD Model for Checkout Flow" "DDD_MODEL" (JStr "Cart")
             "process_prd" None "PENDING_APPROVAL" None.

Definition api_spec : Artifact :=
  mkArtifact 2 "API Specification for Checkout Flow" "API_SPEC" (JStr "GET /cart")
             "generate_api" (Some 1) "REJECTED" None.

Definition middle_world : World :=
  mkWorld [ddd; api_spec] [] Sample.stages 3 1 0 Sample.processors [].

(** The world after the branch stage has run on [Sample.typespec_world]:
    a ZOD_SCHEMA artifact (id 2) and a DB_SCHEMA artifact (id 3), with two
    pending approvals each. *)
Definition siblings_world : World :=
  snd (SchemaGeneratorOperator.execute "generate_schemas" 1
         Sample.typespec_world).

End Cases.

(** ** Invariants of the tables, and what may change *)

Definition has_artifact (w : World) (i : Z) : Prop :=
  In i (map a_id (artifacts w)).

(** The state of a database whose serials and foreign key are in order:
    artifact ids and approval ids are distinct and below their serial, and
    every approval row refers to an artifact row. *)
Definition consistent (w : World) : Prop :=
  NoDup (map a_id (artifacts w))
  /\ (forall i, In i (map a_id (artifacts w)) -> i < next_artifact_id w)
  /\ NoDup (map ap_id (approvals w))
  /\ (forall i, In i (map ap_id (approvals w)) -> i < next_approval_id w)
  /\ (forall p, In p (approvals w) -> has_artifact w (ap_artifactId p)).

(** The columns of a row that no operator is seen to write after the
    insert. *)
Definition artifact_key (a : Artifact)
  : Z * string * string * json * string * option Z :=
  (a_id a, a_name a, a_type a, a_content a, a_createdBy a, a_parentId a).

Definition approval_key (p : Approval) : Z * Z * Z :=
  (ap_id p, ap_artifactId p, ap_stakeholderId p).

Definition extends {A : Type} (old new : list A) : Prop :=
  exists more, new = old ++ more.

(** [evolves w w']: [w'] is [w] after some inserts and some updates of
    status, comment and timestamp. *)
Record evolves (w w' : World) : Prop := mkEvolves {
  same_stages : pipelineStages w' = pipelineStages w;
  same_scripts : scripts w' = scripts w;
  artifacts_kept :
    extends (map artifact_key (artifacts w)) (map artifact_key (artifacts w'));
  approvals_kept :
    extends (map approval_key (approvals w)) (map approval_key (approvals w'));
  invocations_kept : extends (invocations w) (invocations w');
  artifact_serial_grows : next_artifact_id w <= next_artifact_id w';
  approval_serial_grows : next_approval_id w <= next_approval_id w';
  clock_grows : (clock w <= clock w')%nat
}.

(** A computation all of whose runs are related by [R], results and
    exceptions alike. *)
Definition respects {B : Type} (R : World -> World -> Prop)
           (f : World -> B * World) : Prop :=
  forall w, R w (snd (f w)).

(** An assertion that holds on, once it holds. *)
Definition stable (F : World -> Prop) : Prop :=
  forall w w', evolves w w' -> F w -> F w'.

(** [spec P m Q]: from a consistent world where [P] holds, [m] ends in a
    consistent world, also when it raises, and [Q] holds of what it
    returns. *)
Definition spec {A : Type} (P : World -> Prop) (m : M A)
           (Q : A -> World -> Prop) : Prop :=
  forall w, consistent w -> P w ->
            consistent (snd (m w))
            /\ forall a, fst (m w) = Ok a -> Q a (snd (m w)).

(** * Properties *)

(** Case analysis on [H : In x [r1; ...; rn]], one goal per row. *)
Ltac in_rows H :=
  repeat (destruct H as [H|H]; [subst|]); try (now destruct H).

(** ** The hook *)

Lemma find_map_same {A : Type} (p : A -> bool) (f : A -> A) (l : list A) :
  (forall x, p (f x) = p x) ->
  find p (map f l) = option_map f (find p l).
Proof.
  intros Hp. induction l as [|x l IH]; simpl; [reflexivity|].
  rewrite Hp. destruct (p x); [reflexivity | exact IH].
Qed.

Lemma find_id_eq (rows : list Artifact) (artifact_id : Z) (a : Artifact) :
  find (fun a => a_id a =? artifact_id) rows = Some a -> a_id a = artifact_id.
Proof.
  intros H. apply find_some in H. destruct H as [_ H].
  now apply Z.eqb_eq in H.
Qed.

Lemma touch_artifact_id now artifact_id status a i :
  (a_id (SupabaseHook.touch_artifact now artifact_id status a) =? i)
  = (a_id a =? i).
Proof. unfold SupabaseHook.touch_artifact. now destruct (a_id a =? artifact_id). Qed.

Lemma update_artifact_eq (artifact_id : Z) (status : string) (w : World) :
  SupabaseHook.update_artifact artifact_id status w =
  let w' := with_artifacts w
              (map (SupabaseHook.touch_artifact (clock w) artifact_id status)
                   (artifacts w))
              (next_artifact_id w) in
  match artifact_of w artifact_id with
  | Some a => (Ok (SupabaseHook.set_artifact_status (clock w) status a), w')
  | None => (Raise JSONDecodeError, w')
  end.
Proof.
  unfold SupabaseHook.update_artifact, artifact_of. cbv zeta.
  rewrite find_map_same by (intros; apply touch_artifact_id).
  destruct (find _ (artifacts w)) as [a|] eqn:E; simpl; [|reflexivity].
  unfold SupabaseHook.touch_artifact. apply find_id_eq in E. rewrite E, Z.eqb_refl.
  reflexivity.
Qed.

Lemma update_artifact_status (artifact_id : Z) (status : string) (w : World)
      (a : Artifact) :
  artifact_of w artifact_id = Some a ->
  artifact_status (snd (SupabaseHook.update_artifact artifact_id status w))
                  artifact_id = Some status.
Proof.
  intros Ha. rewrite update_artifact_eq. cbv zeta. rewrite Ha. simpl.
  unfold artifact_status, artifact_of. simpl.
  rewrite find_map_same by (intros; apply touch_artifact_id).
  unfold artifact_of in Ha. rewrite Ha. simpl.
  unfold SupabaseHook.touch_artifact. apply find_id_eq in Ha. rewrite Ha, Z.eqb_refl.
  reflexivity.
Qed.

Lemma update_artifact_frame (artifact_id : Z) (status : string) (w : World) :
  let w' := snd (SupabaseHook.update_artifact artifact_id status w) in
  approvals w' = approvals w /\ pipelineStages w' = pipelineStages w.
Proof.
  rewrite update_artifact_eq. cbv zeta.
  destruct (artifact_of w artifact_id); simpl; auto.
Qed.

Lemma artifact_of_after_update (artifact_id : Z) (status : string) (w : World)
      (i : Z) :
  artifact_of (snd (SupabaseHook.update_artifact artifact_id status w)) i
  = option_map (SupabaseHook.touch_artifact (clock w) artifact_id status)
               (artifact_of w i).
Proof.
  rewrite update_artifact_eq. cbv zeta.
  assert (H : artifact_of
                (with_artifacts w
                   (map (SupabaseHook.touch_artifact (clock w) artifact_id status)
                        (artifacts w))
                   (next_artifact_id w)) i
              = option_map
                  (SupabaseHook.touch_artifact (clock w) artifact_id status)
                  (artifact_of w i)).
  { unfold artifact_of. cbn [artifacts with_artifacts].
    apply find_map_same. intros; apply touch_artifact_id. }
  destruct (artifact_of w artifact_id); exact H.
Qed.

Lemma touch_artifact_type now artifact_id status a :
  a_type (SupabaseHook.touch_artifact now artifact_id status a) = a_type a.
Proof. unfold SupabaseHook.touch_artifact. now destruct (a_id a =? artifact_id). Qed.

(** ** The stage scan *)

Lemma scan_eq (indices : list Z) (a : Artifact) (w : World) :
  ApprovalOperator.scan indices a w =
  (Ok (stage_among indices (pipelineStages w) (a_type a)), w).
Proof.
  induction indices as [|i rest IH]; simpl; [reflexivity|].
  unfold bind, SupabaseHook.get_pipeline_stage_by_order.
  destruct (find _ (pipelineStages w)) as [st|]; [|exact IH].
  destruct (st_artifactType st =? a_type a)%string; [reflexivity | exact IH].
Qed.

Lemma dag_scan_eq (indices : list Z) (a : Artifact) (w : World) :
  Dag.scan indices (Some a) w =
  (Ok (stage_among indices (pipelineStages w) (a_type a)), w).
Proof.
  induction indices as [|i rest IH]; simpl; [reflexivity|].
  unfold bind, SupabaseHook.get_pipeline_stage_by_order.
  destruct (find _ (pipelineStages w)) as [st|]; [|exact IH].
  destruct (st_artifactType st =? a_type a)%string; [reflexivity | exact IH].
Qed.

(** ** The quorum check, case by case *)

Lemma execute_eq (artifact_id : Z) (w : World) :
  ApprovalOperator.execute artifact_id w =
  match artifact_of w artifact_id with
  | None => (Raise (ValueError (ArtifactNotFound artifact_id)), w)
  | Some a =>
      match stage_of w (a_type a) with
      | None => (Raise (ValueError (NoPipelineStage (a_type a))), w)
      | Some st =>
          if approved_count (approvals_of w artifact_id)
             >=? st_requiredApprovals st
          then (Ok true,
                snd (SupabaseHook.update_artifact artifact_id "APPROVED" w))
          else (Ok false, w)
      end
  end.
Proof.
  unfold ApprovalOperator.execute, bind at 1, SupabaseHook.get_artifact,
    artifact_of.
  destruct (find _ (artifacts w)) as [a|] eqn:Ha; [|reflexivity].
  unfold bind at 1. rewrite scan_eq. fold (stage_of w (a_type a)).
  destruct (stage_of w (a_type a)) as [st|]; [|reflexivity].
  unfold bind at 1, SupabaseHook.get_approvals_for_artifact.
  fold (approvals_of w artifact_id).
  destruct (approved_count _ >=? _); [|reflexivity].
  unfold bind, ret. rewrite update_artifact_eq. cbv zeta.
  fold (artifact_of w artifact_id) in Ha. rewrite Ha. reflexivity.
Qed.

(** The quorum check of an artifact that has a stage never raises, and it
    keeps every artifact row in place with its type, and the stage table. *)
Lemma execute_returns (artifact_id : Z) (w : World) (a : Artifact)
      (st : PipelineStage) :
  artifact_of w artifact_id = Some a ->
  stage_of w (a_type a) = Some st ->
  exists (b : bool) (w' : World),
    ApprovalOperator.execute artifact_id w = (Ok b, w')
    /\ b = (approved_count (approvals_of w artifact_id)
            >=? st_requiredApprovals st)
    /\ pipelineStages w' = pipelineStages w
    /\ forall i x, artifact_of w i = Some x ->
                   exists x', artifact_of w' i = Some x'
                              /\ a_type x' = a_type x.
Proof.
  intros Ha Hst. rewrite execute_eq, Ha, Hst.
  destruct (approved_count _ >=? _).
  - exists true, (snd (SupabaseHook.update_artifact artifact_id "APPROVED" w)).
    split; [reflexivity|]. split; [reflexivity|].
    split; [apply update_artifact_frame|].
    intros i x Hx. rewrite artifact_of_after_update, Hx. simpl.
    eexists. split; [reflexivity | apply touch_artifact_type].
  - exists false, w. repeat split. intros i x Hx. now exists x.
Qed.

Lemma check_artifact_approvals_eq (artifact_id : Z) (w : World) (a : Artifact) :
  artifact_of w artifact_id = Some a ->
  Dag.check_artifact_approvals artifact_id w =
  match stage_of w (a_type a) with
  | None => (Ok true, w)
  | Some st =>
      (Ok (approved_count (approvals_of w artifact_id)
           >=? st_requiredApprovals st), w)
  end.
Proof.
  intros Ha.
  unfold Dag.check_artifact_approvals, bind at 1, SupabaseHook.get_artifact.
  fold (artifact_of w artifact_id). rewrite Ha.
  unfold bind at 1. rewrite dag_scan_eq. fold (stage_of w (a_type a)).
  destruct (stage_of w (a_type a)) as [st|]; reflexivity.
Qed.

(** ** C1: the quorum test *)

(** What the code counts is what the specification counts. *)
Lemma approved_count_is_approved_records (w : World) (artifact_id : Z) :
  approved_count (approvals_of w artifact_id)
  = Z.of_nat (approved_records (approvals w) artifact_id).
Proof.
  unfold approved_count, approvals_of. f_equal.
  induction (approvals w) as [|p rows IH]; simpl; [reflexivity|].
  destruct (Z.eqb_spec (ap_artifactId p) artifact_id) as [Hid|Hid];
    destruct (Z.eq_dec (ap_artifactId p) artifact_id) as [Hid'|Hid'];
    try contradiction; [|exact IH].
  simpl.
  destruct (String.eqb_spec (ap_status p) "APPROVED") as [Hs|Hs];
    destruct (string_dec (ap_status p) "APPROVED") as [Hs'|Hs'];
    try contradiction; simpl; now rewrite IH.
Qed.

Lemma approved_records_ignore_rejected (rows : list Approval) (artifact_id : Z) :
  approved_records
    (filter (fun p => negb (ap_status p =? "REJECTED")%string) rows)
    artifact_id
  = approved_records rows artifact_id.
Proof.
  induction rows as [|p rows IH]; simpl; [reflexivity|].
  destruct (String.eqb_spec (ap_status p) "REJECTED") as [Er|Er]; simpl.
  - rewrite IH.
    destruct (Z.eq_dec (ap_artifactId p) artifact_id); [|reflexivity].
    destruct (string_dec (ap_status p) "APPROVED") as [Ea|]; [|reflexivity].
    rewrite Er in Ea. discriminate.
  - now rewrite IH.
Qed.

(** C1, as the code has it.  Let [n] be the number of approval records for
    the artifact with status APPROVED.  When the stage scan over the order
    indices 0 to 5 finds a stage for the artifact's type, the quorum check
    ([ApprovalOperator.execute], and the DAG helper
    [check_artifact_approvals]) answers True exactly when [n] is at least
    that stage's [requiredApprovals], and False exactly when it is less.
    When the scan finds none (no stage row of that type, or only at order
    indices outside 0..5), the answer does not depend on [n]: the helper
    answers True and the operator raises its [ValueError].  In both cases
    [n] is the same as if the REJECTED records were not there, so
    rejections neither lower the count nor block the answer True. *)
Theorem C1_quorum_iff_enough_approved_records :
  forall (w : World) (artifact_id : Z) (a : Artifact),
    artifact_of w artifact_id = Some a ->
    let n := Z.of_nat (approved_records (approvals w) artifact_id) in
    let operator := ApprovalOperator.execute artifact_id w in
    let helper := Dag.check_artifact_approvals artifact_id w in
    match stage_of w (a_type a) with
    | Some st =>
        (fst operator = Ok true <-> st_requiredApprovals st <= n)
        /\ (fst operator = Ok false <-> n < st_requiredApprovals st)
        /\ (helper = (Ok true, w) <-> st_requiredApprovals st <= n)
        /\ (helper = (Ok false, w) <-> n < st_requiredApprovals st)
    | None =>
        operator = (Raise (ValueError (NoPipelineStage (a_type a))), w)
        /\ helper = (Ok true, w)
    end
    /\ Z.of_nat (approved_records
                   (filter (fun p => negb (ap_status p =? "REJECTED")%string)
                           (approvals w))
                   artifact_id) = n.
Proof.
  intros w artifact_id a Ha n operator helper. subst operator helper.
  split; [|unfold n; now rewrite approved_records_ignore_rejected].
  rewrite execute_eq, (check_artifact_approvals_eq _ _ _ Ha), Ha.
  destruct (stage_of w (a_type a)) as [st|]; [|split; reflexivity].
  rewrite approved_count_is_approved_records. fold n.
  destruct (n >=? st_requiredApprovals st) eqn:E; simpl.
  - apply Z.geb_le in E.
    split; [|split; [|split]]; split; intros; try reflexivity; try lia;
      try discriminate.
  - assert (n < st_requiredApprovals st).
    { destruct (Z.lt_ge_cases n (st_requiredApprovals st)) as [|Hge]; [assumption|].
      apply Z.geb_le in Hge. congruence. }
    split; [|split; [|split]]; split; intros; try reflexivity; try lia;
      try discriminate.
Qed.

(** One APPROVED out of the two that API_SPEC requires: no quorum yet. *)
Lemma C1_quorum_iff_enough_approved_records_witness :
  fst (ApprovalOperator.execute 1
         (snd (ManualApprovalOperator.execute 1 1 true None Sample.api_world)))
  = Ok false.
Proof.
  pose (w := snd (ManualApprovalOperator.execute 1 1 true None Sample.api_world)).
  pose proof (C1_quorum_iff_enough_approved_records w 1 Sample.api eq_refl)
    as [H _].
  change (stage_of w (a_type Sample.api))
    with (Some (mkStage 2 "API_SPEC" 2)) in H.
  apply (proj1 (proj2 H)). vm_compute. reflexivity.
Defined.

(** The claim as stated, for every artifact, fails where the stage of the
    artifact's type is configured at an order index that the scan does not
    try.  DB_SCHEMA requires 2 approvals at order index 6: with no APPROVED
    record the helper answers True, and once both stakeholders have
    approved the operator still does not answer True. *)
Lemma C1_counterexample :
  let w := Cases.one_based_world in
  let w2 := snd (ManualApprovalOperator.execute 1 5 true None
                   (snd (ManualApprovalOperator.execute 1 3 true None w))) in
  artifact_of w 1 = Some Cases.db_schema
  /\ In (mkStage 6 "DB_SCHEMA" 2) (pipelineStages w)
  /\ approved_records (approvals w) 1 = 0%nat
  /\ Dag.check_artifact_approvals 1 w = (Ok true, w)
  /\ approved_records (approvals w2) 1 = 2%nat
  /\ fst (ApprovalOperator.execute 1 w2)
     = Raise (ValueError (NoPipelineStage "DB_SCHEMA")).
Proof.
  cbv zeta.
  split; [reflexivity|]. split; [simpl; tauto|].
  split; [reflexivity|]. split; [reflexivity|].
  split; vm_compute; reflexivity.
Qed.

(** A rejection does not block: stakeholder 1 rejects the PRD, a second
    stakeholder approves it, and the quorum of 1 is met. *)
Lemma quorum_after_a_rejection :
  let w1 := snd (SupabaseHook.create_approval (pending_approval 1 2)
                   Sample.seeded) in
  let w2 := snd (ManualApprovalOperator.execute 1 1 false None w1) in
  let w3 := snd (ManualApprovalOperator.execute 1 2 true None w2) in
  fst (ApprovalOperator.execute 1 w2) = Ok false
  /\ map ap_status (approvals_of w3 1) = ["REJECTED"; "APPROVED"]
  /\ fst (ApprovalOperator.execute 1 w3) = Ok true
  /\ artifact_status (snd (ApprovalOperator.execute 1 w3)) 1 = Some "APPROVED".
Proof. vm_compute. repeat split; reflexivity. Qed.

(** ** C10: the quorum check writes only when the quorum is met *)

(** C10. With fewer APPROVED rows than required, [ApprovalOperator.execute]
    returns False, raises nothing and leaves the whole world as it was (no
    row of any table is written); with at least as many, it returns True,
    the artifact's status is APPROVED afterwards, and the approval rows are
    untouched. *)
Theorem C10_quorum_check_frame :
  forall (w : World) (artifact_id : Z) (a : Artifact) (st : PipelineStage),
    artifact_of w artifact_id = Some a ->
    stage_of w (a_type a) = Some st ->
    let n := approved_count (approvals_of w artifact_id) in
    (n < st_requiredApprovals st
     /\ ApprovalOperator.execute artifact_id w = (Ok false, w))
    \/ (st_requiredApprovals st <= n
        /\ fst (ApprovalOperator.execute artifact_id w) = Ok true
        /\ artifact_status (snd (ApprovalOperator.execute artifact_id w))
                           artifact_id = Some "APPROVED"
        /\ approvals (snd (ApprovalOperator.execute artifact_id w))
           = approvals w
        /\ snd (ApprovalOperator.execute artifact_id w) <> w).
Proof.
  intros w artifact_id a st Ha Hst n.
  rewrite execute_eq, Ha, Hst. fold n.
  destruct (n >=? st_requiredApprovals st) eqn:E; simpl.
  - right. apply Z.geb_le in E. split; [assumption|]. split; [reflexivity|].
    split; [exact (update_artifact_status _ _ _ _ Ha)|].
    split; [apply update_artifact_frame|].
    rewrite update_artifact_eq. cbv zeta. rewrite Ha. simpl.
    intros Heq. apply (f_equal clock) in Heq. simpl in Heq. lia.
  - left. split; [|reflexivity].
    destruct (Z.lt_ge_cases n (st_requiredApprovals st)) as [|Hge]; [assumption|].
    apply Z.geb_le in Hge. congruence.
Qed.

Lemma C10_quorum_check_frame_witness :
  ApprovalOperator.execute 1 Sample.api_world = (Ok false, Sample.api_world).
Proof.
  destruct (C10_quorum_check_frame Sample.api_world 1
              Sample.api (mkStage 2 "API_SPEC" 2) eq_refl eq_refl)
    as [[_ H]|[H _]].
  - exact H.
  - vm_compute in H. exfalso. apply H. reflexivity.
Defined.

(** ** C7: an artifact type without a stage *)

Lemma stage_among_none (indices : list Z) (stages : list PipelineStage)
      (artifact_type : string) :
  (forall st, In st stages -> st_artifactType st <> artifact_type) ->
  stage_among indices stages artifact_type = None.
Proof.
  intros Hno. induction indices as [|i rest IH]; simpl; [reflexivity|].
  destruct (find _ stages) as [st|] eqn:E; [|exact IH].
  apply find_some in E. destruct E as [Hin _].
  destruct (st_artifactType st =? artifact_type)%string eqn:Et; [|exact IH].
  apply String.eqb_eq in Et. now apply Hno in Hin.
Qed.

(** C7, as the code has it. For an artifact whose type no configured stage
    has, [ApprovalOperator.execute] raises the ValueError "No pipeline stage
    found for artifact type ..." and writes nothing; the DAG helper
    [check_artifact_approvals] does not raise there: it returns True, the
    approvals being considered complete. *)
Theorem C7_unknown_type :
  forall (w : World) (artifact_id : Z) (a : Artifact),
    artifact_of w artifact_id = Some a ->
    (forall st, In st (pipelineStages w) -> st_artifactType st <> a_type a) ->
    ApprovalOperator.execute artifact_id w
    = (Raise (ValueError (NoPipelineStage (a_type a))), w)
    /\ Dag.check_artifact_approvals artifact_id w = (Ok true, w).
Proof.
  intros w artifact_id a Ha Hno.
  assert (Hst : stage_of w (a_type a) = None)
    by (apply stage_among_none; exact Hno).
  rewrite execute_eq, (check_artifact_approvals_eq _ _ _ Ha), Ha, Hst.
  split; reflexivity.
Qed.

Lemma C7_unknown_type_witness :
  ApprovalOperator.execute 1 Sample.orphan_world
  = (Raise (ValueError (NoPipelineStage "MEETING_NOTES")), Sample.orphan_world)
  /\ Dag.check_artifact_approvals 1 Sample.orphan_world
     = (Ok true, Sample.orphan_world).
Proof.
  apply (C7_unknown_type Sample.orphan_world 1 Sample.notes).
  - reflexivity.
  - simpl. intros st H. in_rows H; discriminate.
Defined.

(** C7 as stated fails on [check_artifact_approvals]: for an artifact of a
    type without a stage the approval check raises no error and answers
    True. *)
Lemma C7_counterexample :
  artifact_of Sample.orphan_world 1 = Some Sample.notes
  /\ (forall st, In st (pipelineStages Sample.orphan_world) ->
                 st_artifactType st <> "MEETING_NOTES")
  /\ fst (Dag.check_artifact_approvals 1 Sample.orphan_world) = Ok true
  /\ ~ (exists e, fst (Dag.check_artifact_approvals 1 Sample.orphan_world)
                  = Raise e).
Proof.
  split; [reflexivity|]. split.
  - simpl. intros st H. in_rows H; discriminate.
  - split; [reflexivity|]. intros [e He]. vm_compute in He. discriminate.
Qed.

(** ** Decisions: [update_approval] and [ManualApprovalOperator] *)

Lemma touch_approval_id now approval_id data p i :
  (ap_id (SupabaseHook.touch_approval now approval_id data p) =? i)
  = (ap_id p =? i).
Proof. unfold SupabaseHook.touch_approval. now destruct (ap_id p =? approval_id). Qed.

Lemma find_approval_id (rows : list Approval) (approval_id : Z) (p : Approval) :
  find (fun p => ap_id p =? approval_id) rows = Some p -> ap_id p = approval_id.
Proof.
  intros H. apply find_some in H. destruct H as [_ H].
  now apply Z.eqb_eq in H.
Qed.

Lemma update_approval_eq (approval_id : Z) (data : ApprovalUpdate) (w : World) :
  SupabaseHook.update_approval approval_id data w =
  let w' := with_approvals w
              (map (SupabaseHook.touch_approval (clock w) approval_id data)
                   (approvals w))
              (next_approval_id w) in
  match approval_of w approval_id with
  | Some p => (Ok (SupabaseHook.apply_approval_update (clock w) data p), w')
  | None => (Raise JSONDecodeError, w')
  end.
Proof.
  unfold SupabaseHook.update_approval, approval_of. cbv zeta.
  rewrite find_map_same by (intros; apply touch_approval_id).
  destruct (find _ (approvals w)) as [p|] eqn:E; simpl; [|reflexivity].
  unfold SupabaseHook.touch_approval. apply find_approval_id in E.
  rewrite E, Z.eqb_refl. reflexivity.
Qed.

Lemma update_approval_frame (approval_id : Z) (data : ApprovalUpdate) (w : World) :
  let w' := snd (SupabaseHook.update_approval approval_id data w) in
  artifacts w' = artifacts w /\ pipelineStages w' = pipelineStages w.
Proof.
  rewrite update_approval_eq. cbv zeta.
  destruct (approval_of w approval_id); simpl; auto.
Qed.

Lemma update_approval_status (approval_id : Z) (data : ApprovalUpdate)
      (w : World) (p : Approval) :
  approval_of w approval_id = Some p ->
  approval_status (snd (SupabaseHook.update_approval approval_id data w))
                  approval_id = Some (u_status data).
Proof.
  intros Hp. rewrite update_approval_eq. cbv zeta. rewrite Hp. simpl.
  unfold approval_status, approval_of. simpl.
  rewrite find_map_same by (intros; apply touch_approval_id).
  unfold approval_of in Hp. rewrite Hp. simpl.
  unfold SupabaseHook.touch_approval. apply find_approval_id in Hp.
  rewrite Hp, Z.eqb_refl. reflexivity.
Qed.

Lemma in_find_approval (rows : list Approval) (p : Approval) :
  In p rows -> exists q, find (fun r => ap_id r =? ap_id p) rows = Some q.
Proof.
  intros Hin.
  destruct (find (fun r => ap_id r =? ap_id p) rows) as [q|] eqn:E.
  - now exists q.
  - apply (find_none _ _ E) in Hin. rewrite Z.eqb_refl in Hin. discriminate.
Qed.

Lemma stakeholder_approval_found (w : World) (artifact_id stakeholder_id : Z)
      (p : Approval) (rest : list Approval) :
  stakeholder_approvals w artifact_id stakeholder_id = p :: rest ->
  exists q, approval_of w (ap_id p) = Some q.
Proof.
  intros H. apply in_find_approval.
  assert (Hin : In p (stakeholder_approvals w artifact_id stakeholder_id))
    by (rewrite H; now left).
  unfold stakeholder_approvals, approvals_of in Hin.
  apply filter_In in Hin. destruct Hin as [Hin _].
  apply filter_In in Hin. now destruct Hin.
Qed.

Lemma manual_execute_eq (artifact_id stakeholder_id : Z) (approve : bool)
      (comment : option string) (w : World) :
  ManualApprovalOperator.execute artifact_id stakeholder_id approve comment w =
  match stakeholder_approvals w artifact_id stakeholder_id with
  | [] => (Ok tt, w)
  | p :: _ =>
      let w1 := snd (SupabaseHook.update_approval (ap_id p)
                       (ManualApprovalOperator.update_data approve comment) w) in
      if approve then (Ok tt, w1)
      else match artifact_of w artifact_id with
           | Some _ =>
               (Ok tt, snd (SupabaseHook.update_artifact artifact_id "REJECTED" w1))
           | None =>
               (Raise JSONDecodeError,
                snd (SupabaseHook.update_artifact artifact_id "REJECTED" w1))
           end
  end.
Proof.
  unfold ManualApprovalOperator.execute, bind at 1,
    SupabaseHook.get_approvals_for_artifact.
  fold (approvals_of w artifact_id).
  fold (stakeholder_approvals w artifact_id stakeholder_id).
  destruct (stakeholder_approvals w artifact_id stakeholder_id) as [|p rest] eqn:E;
    [reflexivity|].
  destruct (stakeholder_approval_found _ _ _ _ _ E) as [q Hq].
  unfold bind at 1. rewrite update_approval_eq. cbv zeta. rewrite Hq.
  cbn [snd].
  destruct approve; cbn [negb]; [reflexivity|].
  unfold bind, ret. rewrite update_artifact_eq. cbv zeta.
  change (artifact_of (with_approvals w _ _) artifact_id)
    with (artifact_of w artifact_id).
  destruct (artifact_of w artifact_id); reflexivity.
Qed.

Lemma manual_execute_approval_status (artifact_id stakeholder_id : Z)
      (approve : bool) (comment : option string) (w : World)
      (p : Approval) (rest : list Approval) :
  stakeholder_approvals w artifact_id stakeholder_id = p :: rest ->
  approval_status
    (snd (ManualApprovalOperator.execute artifact_id stakeholder_id approve
                                         comment w))
    (ap_id p)
  = Some (if approve then "APPROVED" else "REJECTED").
Proof.
  intros E. destruct (stakeholder_approval_found _ _ _ _ _ E) as [q Hq].
  rewrite manual_execute_eq, E. cbv zeta.
  pose proof (update_approval_status (ap_id p)
                (ManualApprovalOperator.update_data approve comment) w q Hq) as Hs.
  destruct approve; [exact Hs|].
  assert (Hfr : forall w1,
             approval_status
               (snd (SupabaseHook.update_artifact artifact_id "REJECTED" w1))
               (ap_id p)
             = approval_status w1 (ap_id p)).
  { intros w1. unfold approval_status, approval_of.
    now rewrite (proj1 (update_artifact_frame artifact_id "REJECTED" w1)). }
  destruct (artifact_of w artifact_id); cbn [snd]; rewrite Hfr; exact Hs.
Qed.

(** ** C4: a decision can be recorded again *)

(** C4, as the code has it. A decision is never refused because the record
    is already decided: whatever the current status of the stakeholder's
    first approval row (PENDING, APPROVED or REJECTED), [update_approval] on
    its id stores the new status and returns the updated row, and after
    [ManualApprovalOperator.execute] the row stores the new decision.
    There is no ApprovalConflict. *)
Theorem C4_decision_overwrites :
  forall (w : World) (artifact_id stakeholder_id : Z) (approve : bool)
         (comment : option string) (p : Approval) (rest : list Approval),
    stakeholder_approvals w artifact_id stakeholder_id = p :: rest ->
    let data := ManualApprovalOperator.update_data approve comment in
    let r := ManualApprovalOperator.execute artifact_id stakeholder_id approve
                                            comment w in
    (exists q, approval_of w (ap_id p) = Some q
               /\ fst (SupabaseHook.update_approval (ap_id p) data w)
                  = Ok (SupabaseHook.apply_approval_update (clock w) data q))
    /\ approval_status (snd (SupabaseHook.update_approval (ap_id p) data w))
                       (ap_id p)
       = Some (if approve then "APPROVED" else "REJECTED")
    /\ approval_status (snd r) (ap_id p)
       = Some (if approve then "APPROVED" else "REJECTED").
Proof.
  intros w artifact_id stakeholder_id approve comment p rest E data r.
  destruct (stakeholder_approval_found _ _ _ _ _ E) as [q Hq].
  split.
  { exists q. split; [exact Hq|].
    rewrite update_approval_eq. cbv zeta. rewrite Hq. reflexivity. }
  split.
  { rewrite (update_approval_status _ data _ _ Hq). subst data.
    now destruct approve. }
  subst r. now apply manual_execute_approval_status with (rest := rest).
Qed.

(** The world in which stakeholder 1 has approved artifact 1 of
    [Sample.api_world]; then the same stakeholder decides again. *)
Lemma C4_decision_overwrites_witness :
  approval_status
    (snd (ManualApprovalOperator.execute 1 1 false None
            (snd (ManualApprovalOperator.execute 1 1 true None
                    Sample.api_world))))
    1
  = Some "REJECTED".
Proof.
  pose (w1 := snd (ManualApprovalOperator.execute 1 1 true None
                         Sample.api_world)).
  exact (proj2 (proj2
           (C4_decision_overwrites w1 1 1 false None
              (mkApproval 1 1 1 "APPROVED" None (Some 0%nat)) [] eq_refl))).
Defined.

(** C4 as stated fails: approval 1 is APPROVED, a second decision on it
    raises nothing and replaces the stored decision by REJECTED. *)
Lemma C4_counterexample :
  let w1 := snd (ManualApprovalOperator.execute 1 1 true None
                   Sample.api_world) in
  let r := ManualApprovalOperator.execute 1 1 false None w1 in
  approval_status w1 1 = Some "APPROVED"
  /\ fst r = Ok tt
  /\ approval_status (snd r) 1 = Some "REJECTED"
  /\ fst (SupabaseHook.update_approval 1 (mkApprovalUpdate "REJECTED" None) w1)
     = Ok (mkApproval 1 1 1 "REJECTED" None (Some 1%nat)).
Proof. vm_compute. repeat split; reflexivity. Qed.

(** ** C2: what a rejection does to the artifact *)

(** C2, as the code has it. A REJECTED decision recorded through
    [ManualApprovalOperator.execute] (approve = False) marks the
    stakeholder's approval row REJECTED and, in the same call, sets the
    artifact's status to REJECTED: the vote and the rejection of the artifact
    are one action.  What leaves the artifact rows alone is the bare hook
    call [update_approval], and an APPROVED decision. *)
Theorem C2_rejection_marks_artifact :
  forall (w : World) (artifact_id stakeholder_id : Z) (comment : option string)
         (a : Artifact) (p : Approval) (rest : list Approval),
    artifact_of w artifact_id = Some a ->
    stakeholder_approvals w artifact_id stakeholder_id = p :: rest ->
    let r := ManualApprovalOperator.execute artifact_id stakeholder_id false
                                            comment w in
    fst r = Ok tt
    /\ approval_status (snd r) (ap_id p) = Some "REJECTED"
    /\ artifact_status (snd r) artifact_id = Some "REJECTED"
    /\ artifacts (snd (SupabaseHook.update_approval (ap_id p)
                         (ManualApprovalOperator.update_data false comment) w))
       = artifacts w
    /\ artifacts (snd (ManualApprovalOperator.execute
                         artifact_id stakeholder_id true comment w))
       = artifacts w.
Proof.
  intros w artifact_id stakeholder_id comment a p rest Ha E r.
  split.
  { subst r. rewrite manual_execute_eq, E. cbv zeta. now rewrite Ha. }
  split.
  { subst r.
    exact (manual_execute_approval_status _ _ false comment _ _ _ E). }
  split.
  { subst r. rewrite manual_execute_eq, E. cbv zeta. rewrite Ha. cbn [snd].
    apply update_artifact_status with (a := a).
    unfold artifact_of.
    rewrite (proj1 (update_approval_frame _ _ w)). exact Ha. }
  split.
  { apply update_approval_frame. }
  rewrite manual_execute_eq, E. cbv zeta. cbn [snd].
  apply update_approval_frame.
Qed.

Lemma C2_rejection_marks_artifact_witness :
  artifact_status
    (snd (ManualApprovalOperator.execute 1 1 false None Sample.api_world)) 1
  = Some "REJECTED".
Proof.
  exact (proj1 (proj2 (proj2
           (C2_rejection_marks_artifact Sample.api_world 1 1 None
              Sample.api (mkApproval 1 1 1 "PENDING" None None)
              [] eq_refl eq_refl)))).
Defined.

(** C2 as stated fails: one stakeholder out of two records REJECTED, and
    the artifact, PENDING_APPROVAL before, is REJECTED afterwards. *)
Lemma C2_counterexample :
  let r := ManualApprovalOperator.execute 1 1 false None Sample.api_world in
  artifact_status Sample.api_world 1 = Some "PENDING_APPROVAL"
  /\ fst r = Ok tt
  /\ approval_status (snd r) 1 = Some "REJECTED"
  /\ approval_status (snd r) 2 = Some "PENDING"
  /\ artifact_status (snd r) 1 = Some "REJECTED"
  /\ artifact_status (snd r) 1 <> Some "PENDING_APPROVAL".
Proof. vm_compute. repeat split; try reflexivity. discriminate. Qed.

(** ** C8: quorum under further decisions *)

Lemma touch_approval_artifactId now approval_id data p :
  ap_artifactId (SupabaseHook.touch_approval now approval_id data p)
  = ap_artifactId p.
Proof. unfold SupabaseHook.touch_approval. now destruct (ap_id p =? approval_id). Qed.

Lemma stores_approved_false (w : World) (approval_id : Z) (p : Approval) :
  stores_approved w approval_id = false ->
  In p (approvals w) -> ap_id p = approval_id ->
  (ap_status p =? "APPROVED")%string = false.
Proof.
  unfold stores_approved. intros Hex Hin Hid.
  destruct (ap_status p =? "APPROVED")%string eqn:E; [|reflexivity].
  assert (Ht : existsb (fun q => (ap_id q =? approval_id)
                                 && (ap_status q =? "APPROVED")%string)
                       (approvals w) = true).
  { apply existsb_exists. exists p. split; [exact Hin|].
    rewrite Hid, Z.eqb_refl, E. reflexivity. }
  congruence.
Qed.

(** A decision that stores APPROVED, or that falls on rows none of which
    was APPROVED, does not lower the approved count of any artifact. *)
Lemma approved_count_after_decision (now : nat) (approval_id : Z)
      (data : ApprovalUpdate) (artifact_id : Z) (rows : list Approval) :
  (u_status data = "APPROVED"
   \/ forall p, In p rows -> ap_id p = approval_id ->
                (ap_status p =? "APPROVED")%string = false) ->
  approved_count (filter (fun p => ap_artifactId p =? artifact_id) rows)
  <= approved_count
       (filter (fun p => ap_artifactId p =? artifact_id)
               (map (SupabaseHook.touch_approval now approval_id data) rows)).
Proof.
  unfold approved_count. intros H. apply inj_le.
  induction rows as [|p rows IH]; simpl; [lia|].
  assert (Hrest : u_status data = "APPROVED"
                  \/ forall q, In q rows -> ap_id q = approval_id ->
                                (ap_status q =? "APPROVED")%string = false).
  { destruct H as [H|H]; [now left|].
    right. intros q Hq. apply H. now right. }
  specialize (IH Hrest).
  rewrite touch_approval_artifactId.
  destruct (ap_artifactId p =? artifact_id); [|exact IH].
  simpl. unfold SupabaseHook.touch_approval at 1.
  destruct (ap_id p =? approval_id) eqn:Eid.
  - simpl. destruct H as [H|H].
    + rewrite H. simpl.
      destruct (ap_status p =? "APPROVED")%string; simpl; lia.
    + apply Z.eqb_eq in Eid.
      rewrite (H p (or_introl eq_refl) Eid).
      destruct (u_status data =? "APPROVED")%string; simpl; lia.
  - destruct (ap_status p =? "APPROVED")%string; simpl; lia.
Qed.

Lemma quorum_kept_by_decision :
  forall (w : World) (artifact_id approval_id : Z) (data : ApprovalUpdate),
    fst (ApprovalOperator.execute artifact_id w) = Ok true ->
    u_status data = "APPROVED" \/ stores_approved w approval_id = false ->
    fst (ApprovalOperator.execute artifact_id
           (snd (SupabaseHook.update_approval approval_id data w)))
    = Ok true.
Proof.
  intros w artifact_id approval_id data Hq Hd.
  rewrite execute_eq in Hq. rewrite execute_eq.
  assert (Hw' : snd (SupabaseHook.update_approval approval_id data w)
                = with_approvals w
                    (map (SupabaseHook.touch_approval (clock w) approval_id data)
                         (approvals w))
                    (next_approval_id w)).
  { rewrite update_approval_eq. cbv zeta.
    destruct (approval_of w approval_id); reflexivity. }
  rewrite Hw'.
  change (artifact_of (with_approvals w _ _) artifact_id)
    with (artifact_of w artifact_id).
  destruct (artifact_of w artifact_id) as [a|]; [|discriminate].
  change (stage_of (with_approvals w _ _) (a_type a))
    with (stage_of w (a_type a)).
  destruct (stage_of w (a_type a)) as [st|]; [|discriminate].
  destruct (approved_count (approvals_of w artifact_id)
            >=? st_requiredApprovals st) eqn:E; [|discriminate].
  apply Z.geb_le in E.
  pose proof (approved_count_after_decision (clock w) approval_id data
                artifact_id (approvals w)) as Hmono.
  unfold approvals_of at 1. cbn [approvals with_approvals].
  unfold approvals_of in E.
  assert (Hge : (approved_count
                   (filter (fun p => ap_artifactId p =? artifact_id)
                      (map (SupabaseHook.touch_approval (clock w) approval_id data)
                           (approvals w)))
                 >=? st_requiredApprovals st) = true).
  { apply Z.geb_le. etransitivity; [exact E|]. apply Hmono.
    destruct Hd as [Hd|Hd]; [now left|].
    right. intros p Hin Hid.
    now apply (stores_approved_false w approval_id). }
  rewrite Hge. reflexivity.
Qed.

Lemma quorum_kept_by_update_artifact (w : World) (artifact_id i : Z)
      (status : string) :
  fst (ApprovalOperator.execute artifact_id w) = Ok true ->
  fst (ApprovalOperator.execute artifact_id
         (snd (SupabaseHook.update_artifact i status w)))
  = Ok true.
Proof.
  intros Hq. rewrite execute_eq in Hq. rewrite execute_eq.
  rewrite artifact_of_after_update.
  destruct (artifact_of w artifact_id) as [a|]; [|discriminate].
  cbn [option_map]. rewrite touch_artifact_type.
  unfold stage_of, approvals_of in *.
  destruct (update_artifact_frame i status w) as [Hap Hst].
  rewrite Hap, Hst.
  destruct (stage_among range6 (pipelineStages w) (a_type a)) as [st|];
    [|discriminate].
  destruct (approved_count _ >=? _); [reflexivity | discriminate].
Qed.

(** The same through [ManualApprovalOperator.execute]: an approval keeps
    the quorum, and so does a rejection that does not fall on a row already
    APPROVED. *)
Lemma quorum_kept_by_manual_decision (w : World)
      (artifact_id target_id stakeholder_id : Z) (approve : bool)
      (comment : option string) :
  fst (ApprovalOperator.execute artifact_id w) = Ok true ->
  (approve = true
   \/ forall p rest,
        stakeholder_approvals w target_id stakeholder_id = p :: rest ->
        stores_approved w (ap_id p) = false) ->
  fst (ApprovalOperator.execute artifact_id
         (snd (ManualApprovalOperator.execute target_id stakeholder_id approve
                                              comment w)))
  = Ok true.
Proof.
  intros Hq Hd. rewrite manual_execute_eq.
  destruct (stakeholder_approvals w target_id stakeholder_id) as [|p rest] eqn:E;
    [exact Hq|].
  cbv zeta.
  assert (H1 : fst (ApprovalOperator.execute artifact_id
                      (snd (SupabaseHook.update_approval (ap_id p)
                              (ManualApprovalOperator.update_data approve comment)
                              w)))
               = Ok true).
  { apply quorum_kept_by_decision; [exact Hq|].
    destruct Hd as [Hd|Hd].
    - left. now rewrite Hd.
    - right. now apply (Hd p rest). }
  destruct approve; [exact H1|].
  destruct (artifact_of w target_id); cbn [snd];
    now apply quorum_kept_by_update_artifact.
Qed.

(** C8, as the code has it. Once the quorum check answers True, it still
    answers True after a further decision recorded by [update_approval],
    provided the decision stores APPROVED or no row with that approval id
    stored APPROVED before; a decision that overwrites an APPROVED row is
    the one case that can take the quorum away. *)
Theorem C8_quorum_monotone_unless_overwritten :
  forall (w : World) (artifact_id approval_id : Z) (data : ApprovalUpdate),
    fst (ApprovalOperator.execute artifact_id w) = Ok true ->
    u_status data = "APPROVED" \/ stores_approved w approval_id = false ->
    fst (ApprovalOperator.execute artifact_id
           (snd (SupabaseHook.update_approval approval_id data w)))
    = Ok true.
Proof. exact quorum_kept_by_decision. Qed.

(** The PRD of [Sample.seeded] approved by stakeholder 1: the quorum of 1
    is met, and stays met when the same decision is recorded again. *)
Lemma C8_quorum_monotone_unless_overwritten_witness :
  fst (ApprovalOperator.execute 1
         (snd (SupabaseHook.update_approval 1 (mkApprovalUpdate "APPROVED" None)
                 (snd (ManualApprovalOperator.execute 1 1 true None
                         Sample.seeded)))))
  = Ok true.
Proof.
  apply C8_quorum_monotone_unless_overwritten.
  - vm_compute. reflexivity.
  - left. reflexivity.
Defined.

(** C8 as stated fails: the quorum check answers True, the stakeholder then
    records REJECTED on the same approval, and the check answers False. *)
Lemma C8_counterexample :
  let w1 := snd (ManualApprovalOperator.execute 1 1 true None Sample.seeded) in
  let w2 := snd (ManualApprovalOperator.execute 1 1 false None w1) in
  fst (ApprovalOperator.execute 1 w1) = Ok true
  /\ fst (Dag.check_artifact_approvals 1 w1) = Ok true
  /\ fst (ApprovalOperator.execute 1 w2) = Ok false
  /\ fst (Dag.check_artifact_approvals 1 w2) = Ok false
  /\ fst (ApprovalOperator.execute 1
            (snd (SupabaseHook.update_approval 1
                    (mkApprovalUpdate "REJECTED" None) w1)))
     = Ok false.
Proof. vm_compute. repeat split; reflexivity. Qed.

(** ** The generating operators *)

Lemma find_app_some {A : Type} (p : A -> bool) (l l' : list A) (x : A) :
  find p l = Some x -> find p (l ++ l') = Some x.
Proof.
  induction l as [|y l IH]; simpl; [discriminate|].
  destruct (p y); [trivial | exact IH].
Qed.

(** *** A run of [PRDProcessorOperator] that succeeds *)

Section PRDRun.

Variables (task_id : string) (artifact_id : Z) (w : World) (a : Artifact).
Variables (run : json -> result json) (result : json).

Hypothesis source_found : artifact_of w artifact_id = Some a.
Hypothesis source_is_prd : a_type a = "PRD".
Hypothesis script_found : scripts w "prd_processor" = Some run.
Hypothesis script_ran : run (JObj [("prd", a_content a)]) = Ok result.

Lemma prd_execute_eq :
  PRDProcessorOperator.execute task_id artifact_id w =
  (Ok (next_artifact_id w),
   mkWorld
     (artifacts w ++
        [mkArtifact (next_artifact_id w) ("DDD Model for " ++ a_name a)%string
                    "DDD_MODEL" result task_id (Some (a_id a))
                    "PENDING_APPROVAL" None])
     (approvals w ++
        [mkApproval (next_approval_id w) (next_artifact_id w) 1 "PENDING"
                    None None])
     (pipelineStages w) (next_artifact_id w + 1) (next_approval_id w + 1)
     (S (S (clock w))) (scripts w)
     (invocations w ++ [("prd_processor", JObj [("prd", a_content a)])])).
Proof.
  unfold PRDProcessorOperator.execute, bind at 1, SupabaseHook.get_artifact.
  fold (artifact_of w artifact_id).
  rewrite source_found, source_is_prd, String.eqb_refl.
  cbn [negb].
  unfold bind at 1, NodeExecutor.execute_processor.
  rewrite script_found, script_ran.
  reflexivity.
Qed.

Lemma prd_execute_children :
  let w1 := snd (PRDProcessorOperator.execute task_id artifact_id w) in
  artifact_of w1 artifact_id = Some a
  /\ scripts w1 = scripts w
  /\ List.length (children w1 artifact_id "DDD_MODEL")
     = S (List.length (children w artifact_id "DDD_MODEL")).
Proof.
  intros w1. subst w1. rewrite prd_execute_eq.
  cbn [snd]. pose proof (find_id_eq _ _ _ source_found) as Hid.
  split; [unfold artifact_of; cbn [artifacts]; now apply find_app_some|].
  split; [reflexivity|].
  unfold children. cbn [artifacts]. rewrite filter_app, length_app.
  cbn [filter a_parentId a_type]. rewrite Hid, Z.eqb_refl.
  cbn. lia.
Qed.

End PRDRun.

(** *** A run of [SchemaGeneratorOperator] that succeeds *)

Section SchemaRun.

Variables (task_id : string) (artifact_id : Z) (w : World) (a : Artifact).
Variables (run : json -> result json) (result zod db : json).

Hypothesis source_found : artifact_of w artifact_id = Some a.
Hypothesis source_is_typespec : a_type a = "TYPESPEC".
Hypothesis script_found : scripts w "schema_generator" = Some run.
Hypothesis script_ran : run (JObj [("typespec", a_content a)]) = Ok result.
Hypothesis zod_payload : subscript result "zod_schema" = Ok zod.
Hypothesis db_payload : subscript result "db_schema" = Ok db.

Lemma schema_execute_eq :
  SchemaGeneratorOperator.execute task_id artifact_id w =
  (Ok (SchemaGeneratorOperator.mkSchemaIds (next_artifact_id w)
                                           (next_artifact_id w + 1)),
   mkWorld
     (artifacts w ++
        [mkArtifact (next_artifact_id w) ("Zod Schema for " ++ a_name a)%string
                    "ZOD_SCHEMA" zod task_id (Some (a_id a))
                    "PENDING_APPROVAL" None;
         mkArtifact (next_artifact_id w + 1)
                    ("Database Schema for " ++ a_name a)%string
                    "DB_SCHEMA" db task_id (Some (a_id a))
                    "PENDING_APPROVAL" None])
     (approvals w ++
        [mkApproval (next_approval_id w) (next_artifact_id w) 2 "PENDING"
                    None None;
         mkApproval (next_approval_id w + 1) (next_artifact_id w) 4 "PENDING"
                    None None;
         mkApproval (next_approval_id w + 2) (next_artifact_id w + 1) 3
                    "PENDING" None None;
         mkApproval (next_approval_id w + 3) (next_artifact_id w + 1) 5
                    "PENDING" None None])
     (pipelineStages w) (next_artifact_id w + 2) (next_approval_id w + 4)
     (6 + clock w)%nat (scripts w)
     (invocations w ++ [("schema_generator", JObj [("typespec", a_content a)])])).
Proof.
  unfold SchemaGeneratorOperator.execute, bind at 1, SupabaseHook.get_artifact.
  fold (artifact_of w artifact_id).
  rewrite source_found, source_is_typespec, String.eqb_refl.
  cbn [negb].
  unfold bind at 1, NodeExecutor.execute_processor.
  rewrite script_found, script_ran.
  unfold bind, lift. rewrite zod_payload. cbn -[Z.add].
  rewrite db_payload. cbn -[Z.add].
  repeat rewrite <- app_assoc. cbn -[Z.add].
  repeat rewrite <- Z.add_assoc. reflexivity.
Qed.

Lemma schema_execute_children :
  let w1 := snd (SchemaGeneratorOperator.execute task_id artifact_id w) in
  artifact_of w1 artifact_id = Some a
  /\ scripts w1 = scripts w
  /\ List.length (children w1 artifact_id "ZOD_SCHEMA")
     = S (List.length (children w artifact_id "ZOD_SCHEMA"))
  /\ List.length (children w1 artifact_id "DB_SCHEMA")
     = S (List.length (children w artifact_id "DB_SCHEMA")).
Proof.
  intros w1. subst w1. rewrite schema_execute_eq.
  cbn [snd]. pose proof (find_id_eq _ _ _ source_found) as Hid.
  split; [unfold artifact_of; cbn [artifacts]; now apply find_app_some|].
  split; [reflexivity|].
  unfold children. cbn [artifacts]. rewrite !filter_app, !length_app.
  cbn [filter a_parentId a_type]. rewrite Hid, Z.eqb_refl.
  cbn. split; lia.
Qed.

(** C9. A successful run of [SchemaGeneratorOperator.execute] on a TYPESPEC
    artifact calls the processor once, reads the two payloads ['zod_schema']
    and ['db_schema'] from its single result, and appends exactly two
    artifacts, a ZOD_SCHEMA and a DB_SCHEMA, both PENDING_APPROVAL and both
    with the TYPESPEC artifact's id as parentId; each sibling gets its own
    two PENDING approval rows (stakeholders 2 and 4, stakeholders 3 and
    5). *)
Theorem C9_branch_creates_two_siblings :
  let r := SchemaGeneratorOperator.execute task_id artifact_id w in
  let z := next_artifact_id w in
  let d := next_artifact_id w + 1 in
  fst r = Ok (SchemaGeneratorOperator.mkSchemaIds z d)
  /\ invocations (snd r)
     = invocations w
       ++ [("schema_generator", JObj [("typespec", a_content a)])]
  /\ artifacts (snd r)
     = artifacts w
       ++ [mkArtifact z ("Zod Schema for " ++ a_name a)%string "ZOD_SCHEMA"
                      zod task_id (Some artifact_id) "PENDING_APPROVAL" None;
           mkArtifact d ("Database Schema for " ++ a_name a)%string
                      "DB_SCHEMA" db task_id (Some artifact_id)
                      "PENDING_APPROVAL" None]
  /\ approvals_of (snd r) z
     = approvals_of w z
       ++ [mkApproval (next_approval_id w) z 2 "PENDING" None None;
           mkApproval (next_approval_id w + 1) z 4 "PENDING" None None]
  /\ approvals_of (snd r) d
     = approvals_of w d
       ++ [mkApproval (next_approval_id w + 2) d 3 "PENDING" None None;
           mkApproval (next_approval_id w + 3) d 5 "PENDING" None None]
  /\ List.length (approvals (snd r)) = (List.length (approvals w) + 4)%nat.
Proof.
  intros r z d. subst r z d. rewrite schema_execute_eq.
  cbn [fst snd invocations artifacts].
  rewrite (find_id_eq _ _ _ source_found).
  assert (Hzd : (next_artifact_id w + 1 =? next_artifact_id w) = false)
    by (apply Z.eqb_neq; lia).
  assert (Hdz : (next_artifact_id w =? next_artifact_id w + 1) = false)
    by (apply Z.eqb_neq; lia).
  repeat split.
  - unfold approvals_of. cbn [approvals]. rewrite filter_app. f_equal.
    cbn [filter ap_artifactId]. now rewrite !Z.eqb_refl, !Hzd.
  - unfold approvals_of. cbn [approvals]. rewrite filter_app. f_equal.
    cbn [filter ap_artifactId]. now rewrite !Z.eqb_refl, !Hdz.
  - cbn [approvals]. rewrite length_app. reflexivity.
Qed.

End SchemaRun.

Lemma C9_branch_creates_two_siblings_witness :
  fst (SchemaGeneratorOperator.execute "generate_schemas" 1
         Sample.typespec_world)
  = Ok (SchemaGeneratorOperator.mkSchemaIds 2 3).
Proof.
  exact (proj1 (C9_branch_creates_two_siblings "generate_schemas" 1
                  Sample.typespec_world Sample.typespec
                  (fun _ => Ok Sample.schemas) Sample.schemas
                  (JStr "z.object({})") (JStr "CREATE TABLE t ()")
                  eq_refl eq_refl eq_refl eq_refl eq_refl eq_refl)).
Defined.

(** ** C6: running a transform again *)

(** C6, as the code has it. The generating operators never look for an
    existing child: every successful run creates one more child of the
    target type with the source artifact as parent.  Two runs of
    [PRDProcessorOperator.execute] for the same PRD leave two DDD_MODEL
    children more than before, under two different ids; two runs of
    [SchemaGeneratorOperator.execute] for the same TYPESPEC leave two
    ZOD_SCHEMA and two DB_SCHEMA children more. *)
Theorem C6_each_run_adds_a_child :
  forall (task_id : string) (artifact_id : Z) (w : World) (a : Artifact),
    artifact_of w artifact_id = Some a ->
    (forall (run : json -> result json) (result : json),
        a_type a = "PRD" ->
        scripts w "prd_processor" = Some run ->
        run (JObj [("prd", a_content a)]) = Ok result ->
        let r1 := PRDProcessorOperator.execute task_id artifact_id w in
        let r2 := PRDProcessorOperator.execute task_id artifact_id (snd r1) in
        fst r1 = Ok (next_artifact_id w)
        /\ fst r2 = Ok (next_artifact_id w + 1)
        /\ List.length (children (snd r1) artifact_id "DDD_MODEL")
           = S (List.length (children w artifact_id "DDD_MODEL"))
        /\ List.length (children (snd r2) artifact_id "DDD_MODEL")
           = S (S (List.length (children w artifact_id "DDD_MODEL"))))
    /\ (forall (run : json -> result json) (result zod db : json),
           a_type a = "TYPESPEC" ->
           scripts w "schema_generator" = Some run ->
           run (JObj [("typespec", a_content a)]) = Ok result ->
           subscript result "zod_schema" = Ok zod ->
           subscript result "db_schema" = Ok db ->
           let r1 := SchemaGeneratorOperator.execute task_id artifact_id w in
           let r2 :=
             SchemaGeneratorOperator.execute task_id artifact_id (snd r1) in
           fst r1 = Ok (SchemaGeneratorOperator.mkSchemaIds
                          (next_artifact_id w) (next_artifact_id w + 1))
           /\ fst r2 = Ok (SchemaGeneratorOperator.mkSchemaIds
                             (next_artifact_id w + 2) (next_artifact_id w + 3))
           /\ List.length (children (snd r2) artifact_id "ZOD_SCHEMA")
              = S (S (List.length (children w artifact_id "ZOD_SCHEMA")))
           /\ List.length (children (snd r2) artifact_id "DB_SCHEMA")
              = S (S (List.length (children w artifact_id "DB_SCHEMA")))).
Proof.
  intros task_id artifact_id w a Ha. split.
  - intros run result Hty Hs Hrun r1 r2.
    destruct (prd_execute_children task_id _ _ _ _ _ Ha Hty Hs Hrun)
      as (Ha1 & Hs1 & Hc1).
    fold r1 in Ha1, Hs1, Hc1.
    assert (Hs1' : scripts (snd r1) "prd_processor" = Some run)
      by (rewrite Hs1; exact Hs).
    destruct (prd_execute_children task_id _ _ _ _ _ Ha1 Hty Hs1' Hrun)
      as (_ & _ & Hc2).
    fold r2 in Hc2.
    split.
    { subst r1. now rewrite (prd_execute_eq task_id _ _ _ _ _ Ha Hty Hs Hrun). }
    split.
    { subst r2.
      rewrite (prd_execute_eq task_id _ _ _ _ _ Ha1 Hty Hs1' Hrun).
      subst r1. now rewrite (prd_execute_eq task_id _ _ _ _ _ Ha Hty Hs Hrun). }
    split; [exact Hc1 | now rewrite Hc2, Hc1].
  - intros run result zod db Hty Hs Hrun Hz Hd r1 r2.
    destruct (schema_execute_children task_id _ _ _ _ _ _ _
                Ha Hty Hs Hrun Hz Hd) as (Ha1 & Hs1 & Hc1 & Hd1).
    fold r1 in Ha1, Hs1, Hc1, Hd1.
    assert (Hs1' : scripts (snd r1) "schema_generator" = Some run)
      by (rewrite Hs1; exact Hs).
    destruct (schema_execute_children task_id _ _ _ _ _ _ _
                Ha1 Hty Hs1' Hrun Hz Hd) as (_ & _ & Hc2 & Hd2).
    fold r2 in Hc2, Hd2.
    split.
    { subst r1.
      now rewrite (schema_execute_eq task_id _ _ _ _ _ _ _
                     Ha Hty Hs Hrun Hz Hd). }
    split.
    { subst r2.
      rewrite (schema_execute_eq task_id _ _ _ _ _ _ _
                 Ha1 Hty Hs1' Hrun Hz Hd).
      subst r1.
      rewrite (schema_execute_eq task_id _ _ _ _ _ _ _
                 Ha Hty Hs Hrun Hz Hd).
      cbn [fst snd next_artifact_id]. do 2 f_equal; lia. }
    split; [now rewrite Hc2, Hc1 | now rewrite Hd2, Hd1].
Qed.

Lemma C6_each_run_adds_a_child_witness :
  List.length
    (children
       (snd (PRDProcessorOperator.execute "process_prd" 1
               (snd (PRDProcessorOperator.execute "process_prd" 1
                       Sample.seeded))))
       1 "DDD_MODEL")
  = S (S (List.length (children Sample.seeded 1 "DDD_MODEL")))
  /\ List.length
       (children
          (snd (SchemaGeneratorOperator.execute "generate_schemas" 1
                  (snd (SchemaGeneratorOperator.execute "generate_schemas" 1
                          Sample.typespec_world))))
          1 "ZOD_SCHEMA")
     = S (S (List.length (children Sample.typespec_world 1 "ZOD_SCHEMA"))).
Proof.
  split.
  - exact (proj2 (proj2 (proj2
             (proj1 (C6_each_run_adds_a_child "process_prd" 1 Sample.seeded
                       Sample.prd eq_refl)
                    Sample.echo
                    (JObj [("from", JObj [("prd", Sample.checkout)])])
                    eq_refl eq_refl eq_refl)))).
  - exact (proj1 (proj2 (proj2
             (proj2 (C6_each_run_adds_a_child "generate_schemas" 1
                       Sample.typespec_world Sample.typespec eq_refl)
                    (fun _ => Ok Sample.schemas) Sample.schemas
                    (JStr "z.object({})") (JStr "CREATE TABLE t ()")
                    eq_refl eq_refl eq_refl eq_refl eq_refl)))).
Defined.

(** C6 as stated fails: the PRD of [Sample.seeded] has no DDD_MODEL child;
    after the same transform has run twice for it, it has two. *)
Lemma C6_counterexample :
  let r1 := PRDProcessorOperator.execute "process_prd" 1 Sample.seeded in
  let r2 := PRDProcessorOperator.execute "process_prd" 1 (snd r1) in
  children Sample.seeded 1 "DDD_MODEL" = []
  /\ fst r1 = Ok 2 /\ fst r2 = Ok 3
  /\ map a_id (children (snd r2) 1 "DDD_MODEL") = [2; 3]
  /\ ~ (List.length (children (snd r2) 1 "DDD_MODEL") <= 1)%nat.
Proof.
  vm_compute. repeat split; try reflexivity.
  intros H. lia.
Qed.

(** * Further properties of the operators *)

(** ** The quorum check: errors and the stage scan *)

(** The two [ValueError]s of [ApprovalOperator.execute]: "not found" is
    raised exactly when no artifact row has the id, "no pipeline stage"
    exactly when the artifact exists and the scan over the order indices 0
    to 5 finds no stage of its type; either is raised before anything is
    written. *)
Theorem approval_check_value_errors :
  forall (artifact_id : Z) (w : World),
    let r := ApprovalOperator.execute artifact_id w in
    (fst r = Raise (ValueError (ArtifactNotFound artifact_id))
     <-> artifact_of w artifact_id = None)
    /\ (forall artifact_type,
          fst r = Raise (ValueError (NoPipelineStage artifact_type))
          <-> exists a, artifact_of w artifact_id = Some a
                        /\ a_type a = artifact_type
                        /\ stage_of w artifact_type = None)
    /\ (forall msg, fst r = Raise (ValueError msg) -> snd r = w).
Proof.
  intros artifact_id w r. subst r. rewrite execute_eq.
  destruct (artifact_of w artifact_id) as [a|] eqn:Ha.
  - destruct (stage_of w (a_type a)) as [st|] eqn:Hst.
    + destruct (approved_count _ >=? _); cbn [fst snd].
      * split; [split; discriminate|].
        split; [|discriminate].
        intros t. split; [discriminate|].
        intros (b & Hb & Ht & Hnone). congruence.
      * split; [split; discriminate|].
        split; [|reflexivity].
        intros t. split; [discriminate|].
        intros (b & Hb & Ht & Hnone). congruence.
    + cbn [fst snd]. split; [split; discriminate|].
      split; [|reflexivity].
      intros t. split.
      * intros H. injection H as <-. now exists a.
      * intros (b & Hb & Ht & _). congruence.
  - cbn [fst snd]. split; [split; reflexivity|].
    split; [|reflexivity].
    intros t. split; [discriminate|].
    intros (b & Hb & _). discriminate.
Qed.

Lemma stage_among_sound (indices : list Z) (stages : list PipelineStage)
      (artifact_type : string) (st : PipelineStage) :
  stage_among indices stages artifact_type = Some st ->
  In st stages /\ st_artifactType st = artifact_type
  /\ In (st_orderIndex st) indices.
Proof.
  induction indices as [|i rest IH]; simpl; [discriminate|].
  destruct (find _ stages) as [st0|] eqn:E.
  - destruct (st_artifactType st0 =? artifact_type)%string eqn:Et.
    + intros H. inversion H; subst st0. apply find_some in E.
      destruct E as [Hin Hi]. apply Z.eqb_eq in Hi.
      apply String.eqb_eq in Et. auto.
    + intros H. destruct (IH H) as (? & ? & ?). auto.
  - intros H. destruct (IH H) as (? & ? & ?). auto.
Qed.

Lemma range6_spec (i : Z) : In i range6 <-> 0 <= i <= 5.
Proof.
  unfold range6. simpl. split.
  - intros H. repeat (destruct H as [H|H]; [lia|]). destruct H.
  - intros H.
    assert (i = 0 \/ i = 1 \/ i = 2 \/ i = 3 \/ i = 4 \/ i = 5) by lia.
    intuition.
Qed.

(** The stage scan tries the order indices 0 to 5 and no other: an artifact
    type whose stage rows all have an order index outside that range is
    treated like a type without a stage.  [ApprovalOperator.execute] raises
    its ValueError, and [check_artifact_approvals] answers True. *)
Theorem stage_outside_range_is_not_found :
  forall (w : World) (artifact_id : Z) (a : Artifact),
    artifact_of w artifact_id = Some a ->
    (forall st, In st (pipelineStages w) ->
                st_artifactType st = a_type a ->
                st_orderIndex st < 0 \/ 5 < st_orderIndex st) ->
    ApprovalOperator.execute artifact_id w
    = (Raise (ValueError (NoPipelineStage (a_type a))), w)
    /\ Dag.check_artifact_approvals artifact_id w = (Ok true, w).
Proof.
  intros w artifact_id a Ha Hout.
  assert (Hst : stage_of w (a_type a) = None).
  { destruct (stage_of w (a_type a)) as [st|] eqn:E; [|reflexivity].
    apply stage_among_sound in E. destruct E as (Hin & Hty & Hi).
    apply range6_spec in Hi. specialize (Hout st Hin Hty). lia. }
  rewrite execute_eq, (check_artifact_approvals_eq _ _ _ Ha), Ha, Hst.
  split; reflexivity.
Qed.

Lemma stage_outside_range_is_not_found_witness :
  In (mkStage 6 "MEETING_NOTES" 1) (pipelineStages Cases.late_stage_world)
  /\ ApprovalOperator.execute 1 Cases.late_stage_world
     = (Raise (ValueError (NoPipelineStage "MEETING_NOTES")),
        Cases.late_stage_world)
  /\ Dag.check_artifact_approvals 1 Cases.late_stage_world
     = (Ok true, Cases.late_stage_world).
Proof.
  split; [simpl; intuition|].
  apply (stage_outside_range_is_not_found Cases.late_stage_world 1
           Sample.notes eq_refl).
  simpl. intros st H Hty. in_rows H; try discriminate. right. reflexivity.
Defined.

Lemma find_order_unique (stages : list PipelineStage) (st : PipelineStage) :
  NoDup (map st_orderIndex stages) ->
  In st stages ->
  find (fun x => st_orderIndex x =? st_orderIndex st) stages = Some st.
Proof.
  induction stages as [|x stages IH]; simpl; [intros _ []|].
  intros Hnd Hin. inversion Hnd as [|? ? Hnotin Hnd']; subst.
  destruct Hin as [->|Hin].
  - now rewrite Z.eqb_refl.
  - destruct (st_orderIndex x =? st_orderIndex st) eqn:E.
    + apply Z.eqb_eq in E. exfalso. apply Hnotin. rewrite E.
      now apply in_map.
    + now apply IH.
Qed.

Lemma stage_among_least (indices : list Z) (stages : list PipelineStage)
      (st : PipelineStage) :
  NoDup (map st_orderIndex stages) ->
  In st stages ->
  In (st_orderIndex st) indices ->
  exists found,
    stage_among indices stages (st_artifactType st) = Some found
    /\ In found stages
    /\ st_artifactType found = st_artifactType st
    /\ exists before after,
         indices = before ++ st_orderIndex found :: after
         /\ (st_orderIndex found = st_orderIndex st
             \/ In (st_orderIndex st) after).
Proof.
  intros Hnd Hin. induction indices as [|i rest IH]; simpl; [intros []|].
  intros Hi.
  destruct (find (fun x => st_orderIndex x =? i) stages) as [x|] eqn:E.
  - pose proof (find_some _ _ E) as [Hx Hxi]. apply Z.eqb_eq in Hxi.
    destruct (st_artifactType x =? st_artifactType st)%string eqn:Et.
    + apply String.eqb_eq in Et. exists x. repeat split; auto.
      exists [], rest. split; [simpl; now rewrite Hxi|].
      destruct Hi as [Hi|Hi]; [left; lia | now right].
    + destruct Hi as [Hi|Hi].
      * exfalso. subst i. rewrite (find_order_unique _ _ Hnd Hin) in E.
        inversion E; subst x. now rewrite String.eqb_refl in Et.
      * destruct (IH Hi) as (f & Hf & Hfin & Hfty & b & af & Hsplit & Hpos).
        exists f. repeat split; auto.
        exists (i :: b), af. split; [simpl; now rewrite Hsplit | exact Hpos].
  - destruct Hi as [Hi|Hi].
    + exfalso. subst i. rewrite (find_order_unique _ _ Hnd Hin) in E.
      discriminate.
    + destruct (IH Hi) as (f & Hf & Hfin & Hfty & b & af & Hsplit & Hpos).
      exists f. repeat split; auto.
      exists (i :: b), af. split; [simpl; now rewrite Hsplit | exact Hpos].
Qed.

(** With distinct order indices in the stage table, the stage scan finds a
    stage for every type that has a row at an order index from 0 to 5, and
    the one it finds is the row of that type with the least order index. *)
Theorem stage_lookup_finds_least_order :
  forall (w : World) (st : PipelineStage),
    NoDup (map st_orderIndex (pipelineStages w)) ->
    In st (pipelineStages w) ->
    0 <= st_orderIndex st <= 5 ->
    exists found,
      stage_of w (st_artifactType st) = Some found
      /\ In found (pipelineStages w)
      /\ st_artifactType found = st_artifactType st
      /\ 0 <= st_orderIndex found <= st_orderIndex st.
Proof.
  intros w st Hnd Hin Hrange.
  destruct (stage_among_least range6 (pipelineStages w) st Hnd Hin)
    as (f & Hf & Hfin & Hfty & b & af & Hsplit & Hpos).
  { now apply range6_spec. }
  exists f. repeat split; auto.
  - assert (Hr : In (st_orderIndex f) range6)
      by (rewrite Hsplit; apply in_or_app; right; now left).
    apply range6_spec in Hr. lia.
  - destruct Hpos as [Heq|Hafter]; [lia|].
    (* range6 is increasing: what comes after an element is larger *)
    unfold range6 in Hsplit.
    assert (Hr : In (st_orderIndex f) range6)
      by (unfold range6; rewrite Hsplit; apply in_or_app; right; now left).
    destruct b as [|b0 b]; simpl in Hsplit; inversion Hsplit; subst;
      clear Hsplit.
    { simpl in Hafter. lia. }
    repeat (match goal with
            | H : _ :: _ = ?b ++ _ :: _ |- _ =>
                destruct b; simpl in H; inversion H; subst; clear H
            | H : [] = ?b ++ _ :: _ |- _ =>
                destruct b; discriminate H
            end; try (simpl in Hafter; lia)).
Qed.

Lemma stage_lookup_finds_least_order_witness :
  exists found,
    stage_of Cases.two_api_stages_world "API_SPEC" = Some found
    /\ In found Cases.two_api_stages
    /\ st_artifactType found = "API_SPEC"
    /\ 0 <= st_orderIndex found <= 4.
Proof.
  apply (stage_lookup_finds_least_order Cases.two_api_stages_world
           (mkStage 4 "API_SPEC" 5)).
  - simpl. repeat constructor; simpl; intuition; discriminate.
  - simpl. intuition.
  - simpl. lia.
Defined.

(** ** [check_artifact_approvals]: a missing artifact, and no writes *)

Lemma dag_scan_none_eq (indices : list Z) (w : World) :
  Dag.scan indices None w =
  ((if existsb (fun i => match find (fun st => st_orderIndex st =? i)
                                    (pipelineStages w) with
                         | Some _ => true
                         | None => false
                         end) indices
    then Raise TypeError else Ok None), w).
Proof.
  induction indices as [|i rest IH]; simpl; [reflexivity|].
  unfold bind, SupabaseHook.get_pipeline_stage_by_order.
  destruct (find _ (pipelineStages w)); [reflexivity | exact IH].
Qed.

Lemma check_artifact_approvals_missing (artifact_id : Z) (w : World) :
  artifact_of w artifact_id = None ->
  Dag.check_artifact_approvals artifact_id w
  = ((if some_stage_in_range w then Raise TypeError else Ok true), w).
Proof.
  intros Ha.
  unfold Dag.check_artifact_approvals, bind at 1, SupabaseHook.get_artifact.
  fold (artifact_of w artifact_id). rewrite Ha.
  unfold bind at 1. rewrite dag_scan_none_eq.
  fold (some_stage_in_range w).
  destruct (some_stage_in_range w); reflexivity.
Qed.

Lemma check_artifact_approvals_unchanged (artifact_id : Z) (w : World) :
  snd (Dag.check_artifact_approvals artifact_id w) = w.
Proof.
  destruct (artifact_of w artifact_id) as [a|] eqn:Ha.
  - rewrite (check_artifact_approvals_eq _ _ _ Ha).
    destruct (stage_of w (a_type a)); reflexivity.
  - now rewrite (check_artifact_approvals_missing _ _ Ha).
Qed.

(** [check_artifact_approvals] only reads: whatever it answers or raises,
    the world is as before.  For an artifact id without a row it does not
    report the missing artifact: it raises the TypeError of [artifact['type']]
    as soon as one of the order indices 0 to 5 has a stage row, and answers
    True when none has. *)
Theorem check_artifact_approvals_reads_only :
  forall (artifact_id : Z) (w : World),
    snd (Dag.check_artifact_approvals artifact_id w) = w
    /\ (artifact_of w artifact_id = None ->
        fst (Dag.check_artifact_approvals artifact_id w)
        = if some_stage_in_range w then Raise TypeError else Ok true).
Proof.
  intros artifact_id w. split.
  - apply check_artifact_approvals_unchanged.
  - intros Ha. now rewrite (check_artifact_approvals_missing _ _ Ha).
Qed.

Lemma check_artifact_approvals_reads_only_witness :
  fst (Dag.check_artifact_approvals 7 Sample.empty) = Raise TypeError.
Proof.
  exact (proj2 (check_artifact_approvals_reads_only 7 Sample.empty) eq_refl).
Defined.

(** ** The hook: updates of an id that is not there *)

Lemma map_touch_artifact_absent (now : nat) (artifact_id : Z) (status : string)
      (rows : list Artifact) :
  find (fun a => a_id a =? artifact_id) rows = None ->
  map (SupabaseHook.touch_artifact now artifact_id status) rows = rows.
Proof.
  intros H. induction rows as [|a rows IH]; simpl in *; [reflexivity|].
  unfold SupabaseHook.touch_artifact at 1.
  destruct (a_id a =? artifact_id); [discriminate|]. now rewrite IH.
Qed.

Lemma map_touch_approval_absent (now : nat) (approval_id : Z)
      (data : ApprovalUpdate) (rows : list Approval) :
  find (fun p => ap_id p =? approval_id) rows = None ->
  map (SupabaseHook.touch_approval now approval_id data) rows = rows.
Proof.
  intros H. induction rows as [|p rows IH]; simpl in *; [reflexivity|].
  unfold SupabaseHook.touch_approval at 1.
  destruct (ap_id p =? approval_id); [discriminate|]. now rewrite IH.
Qed.

(** [update_artifact] on an id without a row does not answer with an empty
    result: it raises (the script prints [undefined], which [json.loads]
    rejects), and no row of either table is changed. *)
Theorem update_artifact_unknown_id :
  forall (artifact_id : Z) (status : string) (w : World),
    artifact_of w artifact_id = None ->
    fst (SupabaseHook.update_artifact artifact_id status w)
    = Raise JSONDecodeError
    /\ artifacts (snd (SupabaseHook.update_artifact artifact_id status w))
       = artifacts w
    /\ approvals (snd (SupabaseHook.update_artifact artifact_id status w))
       = approvals w.
Proof.
  intros artifact_id status w H.
  rewrite update_artifact_eq. cbv zeta. rewrite H. simpl.
  split; [reflexivity|]. split; [|reflexivity].
  now apply map_touch_artifact_absent.
Qed.

Lemma update_artifact_unknown_id_witness :
  fst (SupabaseHook.update_artifact 9 "APPROVED" Sample.seeded)
  = Raise JSONDecodeError.
Proof.
  exact (proj1 (update_artifact_unknown_id 9 "APPROVED" Sample.seeded
                  eq_refl)).
Defined.

(** The same for [update_approval]: an unknown approval id raises the
    error of [json.loads] and changes no row. *)
Theorem update_approval_unknown_id :
  forall (approval_id : Z) (data : ApprovalUpdate) (w : World),
    approval_of w approval_id = None ->
    fst (SupabaseHook.update_approval approval_id data w)
    = Raise JSONDecodeError
    /\ approvals (snd (SupabaseHook.update_approval approval_id data w))
       = approvals w
    /\ artifacts (snd (SupabaseHook.update_approval approval_id data w))
       = artifacts w.
Proof.
  intros approval_id data w H.
  rewrite update_approval_eq. cbv zeta. rewrite H. simpl.
  split; [reflexivity|]. split; [|reflexivity].
  now apply map_touch_approval_absent.
Qed.

Lemma update_approval_unknown_id_witness :
  fst (SupabaseHook.update_approval 9 (mkApprovalUpdate "APPROVED" None)
         Sample.seeded)
  = Raise JSONDecodeError.
Proof.
  exact (proj1 (update_approval_unknown_id 9
                  (mkApprovalUpdate "APPROVED" None) Sample.seeded eq_refl)).
Defined.

(** ** [ManualApprovalOperator]: what a decision touches *)

Lemma in_map_touch_approval_other (now : nat) (approval_id : Z)
      (data : ApprovalUpdate) (rows : list Approval) (q : Approval) :
  In q rows -> ap_id q <> approval_id ->
  In q (map (SupabaseHook.touch_approval now approval_id data) rows).
Proof.
  intros Hin Hne. apply in_map_iff. exists q. split; [|exact Hin].
  unfold SupabaseHook.touch_approval.
  destruct (ap_id q =? approval_id) eqn:E; [|reflexivity].
  apply Z.eqb_eq in E. contradiction.
Qed.

Lemma in_map_touch_artifact_other (now : nat) (artifact_id : Z)
      (status : string) (rows : list Artifact) (x : Artifact) :
  In x rows -> a_id x <> artifact_id ->
  In x (map (SupabaseHook.touch_artifact now artifact_id status) rows).
Proof.
  intros Hin Hne. apply in_map_iff. exists x. split; [|exact Hin].
  unfold SupabaseHook.touch_artifact.
  destruct (a_id x =? artifact_id) eqn:E; [|reflexivity].
  apply Z.eqb_eq in E. contradiction.
Qed.

Lemma approvals_after_update_approval (approval_id : Z) (data : ApprovalUpdate)
      (w : World) :
  approvals (snd (SupabaseHook.update_approval approval_id data w))
  = map (SupabaseHook.touch_approval (clock w) approval_id data) (approvals w).
Proof.
  rewrite update_approval_eq. cbv zeta.
  destruct (approval_of w approval_id); reflexivity.
Qed.

Lemma artifacts_after_update_artifact (artifact_id : Z) (status : string)
      (w : World) :
  artifacts (snd (SupabaseHook.update_artifact artifact_id status w))
  = map (SupabaseHook.touch_artifact (clock w) artifact_id status) (artifacts w).
Proof.
  rewrite update_artifact_eq. cbv zeta.
  destruct (artifact_of w artifact_id); reflexivity.
Qed.

(** A decision touches one approval id and one artifact id: after
    [ManualApprovalOperator.execute], every approval row with another id
    than the stakeholder's first row, and every artifact row with another
    id than the artifact decided on, is in its table unchanged.  When the
    stakeholder has no approval row for the artifact, nothing is written at
    all and no error is raised, also for a rejection. *)
Theorem manual_decision_frame :
  forall (artifact_id stakeholder_id : Z) (approve : bool)
         (comment : option string) (w : World),
    let r := ManualApprovalOperator.execute artifact_id stakeholder_id approve
                                            comment w in
    (stakeholder_approvals w artifact_id stakeholder_id = [] ->
     r = (Ok tt, w))
    /\ (forall p rest q,
           stakeholder_approvals w artifact_id stakeholder_id = p :: rest ->
           In q (approvals w) -> ap_id q <> ap_id p ->
           In q (approvals (snd r)))
    /\ (forall x, In x (artifacts w) -> a_id x <> artifact_id ->
                  In x (artifacts (snd r)))
    /\ List.length (approvals (snd r)) = List.length (approvals w)
    /\ List.length (artifacts (snd r)) = List.length (artifacts w).
Proof.
  intros artifact_id stakeholder_id approve comment w r. subst r.
  rewrite manual_execute_eq.
  destruct (stakeholder_approvals w artifact_id stakeholder_id)
    as [|p0 rest0] eqn:E.
  { repeat split; auto; intros; discriminate. }
  cbv zeta.
  set (w1 := snd (SupabaseHook.update_approval (ap_id p0)
                    (ManualApprovalOperator.update_data approve comment) w)).
  assert (Hap1 : approvals w1
                 = map (SupabaseHook.touch_approval (clock w) (ap_id p0)
                          (ManualApprovalOperator.update_data approve comment))
                       (approvals w))
    by apply approvals_after_update_approval.
  assert (Har1 : artifacts w1 = artifacts w) by apply update_approval_frame.
  assert (Hfinal :
            forall w2,
              (w2 = w1
               \/ w2 = snd (SupabaseHook.update_artifact artifact_id
                              "REJECTED" w1)) ->
              (forall p rest q, p0 :: rest0 = p :: rest ->
                                In q (approvals w) -> ap_id q <> ap_id p ->
                                In q (approvals w2))
              /\ (forall x, In x (artifacts w) -> a_id x <> artifact_id ->
                            In x (artifacts w2))
              /\ List.length (approvals w2) = List.length (approvals w)
              /\ List.length (artifacts w2) = List.length (artifacts w)).
  { intros w2 [->| ->].
    - rewrite Hap1, Har1, length_map. repeat split; auto.
      intros p rest q Heq Hq Hne. inversion Heq; subst.
      now apply in_map_touch_approval_other.
    - rewrite (proj1 (update_artifact_frame artifact_id "REJECTED" w1)).
      rewrite artifacts_after_update_artifact, Hap1, Har1, !length_map.
      repeat split; auto.
      + intros p rest q Heq Hq Hne. inversion Heq; subst.
        now apply in_map_touch_approval_other.
      + intros x Hx Hne. now apply in_map_touch_artifact_other. }
  split; [intros; discriminate|].
  destruct approve; [apply Hfinal; now left|].
  destruct (artifact_of w artifact_id); cbn [snd]; apply Hfinal; now right.
Qed.

Lemma manual_decision_frame_witness :
  ManualApprovalOperator.execute 1 5 false None Sample.api_world
  = (Ok tt, Sample.api_world).
Proof.
  exact (proj1 (manual_decision_frame 1 5 false None Sample.api_world)
               eq_refl).
Defined.

(** The comment of a decision is stored only when it is not empty: with no
    comment, or the empty string, the approval row keeps the comment it
    had, so that a decision cannot clear an earlier comment. *)
Theorem manual_decision_comment :
  forall (artifact_id stakeholder_id : Z) (approve : bool)
         (comment : option string) (w : World) (p q : Approval)
         (rest : list Approval),
    stakeholder_approvals w artifact_id stakeholder_id = p :: rest ->
    approval_of w (ap_id p) = Some q ->
    option_map ap_comment
      (approval_of
         (snd (ManualApprovalOperator.execute artifact_id stakeholder_id
                 approve comment w))
         (ap_id p))
    = Some (match comment with
            | Some c => if (c =? "")%string then ap_comment q else Some c
            | None => ap_comment q
            end).
Proof.
  intros artifact_id stakeholder_id approve comment w p q rest E Hq.
  rewrite manual_execute_eq, E. cbv zeta.
  remember (ManualApprovalOperator.update_data approve comment) as data
    eqn:Hdata.
  assert (H1 : approval_of (snd (SupabaseHook.update_approval (ap_id p) data w))
                           (ap_id p)
               = Some (SupabaseHook.apply_approval_update (clock w) data q)).
  { unfold approval_of. rewrite approvals_after_update_approval.
    rewrite find_map_same by (intros; apply touch_approval_id).
    unfold approval_of in Hq. rewrite Hq. simpl.
    unfold SupabaseHook.touch_approval.
    apply find_approval_id in Hq. now rewrite Hq, Z.eqb_refl. }
  assert (Hc : ap_comment (SupabaseHook.apply_approval_update (clock w) data q)
               = match comment with
                 | Some c => if (c =? "")%string then ap_comment q else Some c
                 | None => ap_comment q
                 end).
  { subst data. simpl. destruct comment as [c|]; [|reflexivity].
    destruct (c =? "")%string; reflexivity. }
  assert (Hk : forall w1,
             approval_of
               (snd (SupabaseHook.update_artifact artifact_id "REJECTED" w1))
               (ap_id p)
             = approval_of w1 (ap_id p)).
  { intros w1. unfold approval_of.
    now rewrite (proj1 (update_artifact_frame artifact_id "REJECTED" w1)). }
  destruct approve;
    [cbn [snd]; rewrite H1; cbn [option_map]; now rewrite Hc|].
  destruct (artifact_of w artifact_id); cbn [snd]; rewrite Hk, H1;
    cbn [option_map]; now rewrite Hc.
Qed.

Lemma manual_decision_comment_witness :
  option_map ap_comment
    (approval_of
       (snd (ManualApprovalOperator.execute 1 1 true (Some "")
               (snd (ManualApprovalOperator.execute 1 1 false
                       (Some "too vague") Sample.api_world))))
       1)
  = Some (Some "too vague").
Proof.
  pose (w1 := snd (ManualApprovalOperator.execute 1 1 false (Some "too vague")
                     Sample.api_world)).
  exact (manual_decision_comment 1 1 true (Some "") w1
           (mkApproval 1 1 1 "REJECTED" (Some "too vague") (Some 0%nat))
           (mkApproval 1 1 1 "REJECTED" (Some "too vague") (Some 0%nat))
           [] eq_refl eq_refl).
Defined.

(** ** [create_prd_artifact] *)

(** Without content, or with content that Python takes for false (an empty
    object, an empty list, the empty string, zero, false, null),
    [create_prd_artifact] raises its ValueError and creates nothing. *)
Theorem create_prd_requires_content :
  forall (prd_name : option string) (prd_content : option json) (w : World),
    match prd_content with
    | Some c => truthy c = false
    | None => True
    end ->
    Dag.create_prd_artifact prd_name prd_content w
    = (Raise (ValueError PRDContentRequired), w).
Proof.
  intros prd_name prd_content w H. unfold Dag.create_prd_artifact.
  destruct prd_content as [c|]; [rewrite H|]; reflexivity.
Qed.

Lemma create_prd_requires_content_witness :
  Dag.create_prd_artifact (Some "Checkout Flow") (Some (JObj [])) Sample.empty
  = (Raise (ValueError PRDContentRequired), Sample.empty)
  /\ Dag.create_prd_artifact None None Sample.empty
     = (Raise (ValueError PRDContentRequired), Sample.empty).
Proof.
  split.
  - exact (create_prd_requires_content (Some "Checkout Flow") (Some (JObj []))
             Sample.empty eq_refl).
  - exact (create_prd_requires_content None None Sample.empty I).
Defined.

(** With content, [create_prd_artifact] returns the id of one new artifact:
    a PRD without parent, created by 'airflow', PENDING_APPROVAL, named
    'New PRD' when no name is given; and it requests one approval, PENDING,
    from stakeholder 1. *)
Theorem create_prd_creates_root :
  forall (prd_name : option string) (c : json) (w : World),
    truthy c = true ->
    let r := Dag.create_prd_artifact prd_name (Some c) w in
    let name := match prd_name with Some n => n | None => "New PRD" end in
    fst r = Ok (next_artifact_id w)
    /\ artifacts (snd r)
       = artifacts w
         ++ [mkArtifact (next_artifact_id w) name "PRD" c "airflow" None
                        "PENDING_APPROVAL" None]
    /\ approvals (snd r)
       = approvals w
         ++ [mkApproval (next_approval_id w) (next_artifact_id w) 1 "PENDING"
                        None None]
    /\ invocations (snd r) = invocations w.
Proof.
  intros prd_name c w H r name. subst r name.
  unfold Dag.create_prd_artifact. rewrite H. cbn [negb].
  repeat split.
Qed.

Lemma create_prd_creates_root_witness :
  fst (Dag.create_prd_artifact None (Some Sample.checkout) Sample.empty) = Ok 1.
Proof.
  exact (proj1 (create_prd_creates_root None Sample.checkout Sample.empty
                  eq_refl)).
Defined.

(** ** The generating operators: what they refuse *)

Ltac enter_generator w artifact_id H :=
  try unfold PRDProcessorOperator.execute;
  try unfold APIGeneratorOperator.execute;
  try unfold TypeSpecGeneratorOperator.execute;
  try unfold SchemaGeneratorOperator.execute;
  unfold bind at 1, SupabaseHook.get_artifact;
  fold (artifact_of w artifact_id); rewrite H.

Lemma eqb_other (s t : string) : s <> t -> negb (s =? t)%string = true.
Proof. intros H. apply String.eqb_neq in H. now rewrite H. Qed.

(** Each generating operator refuses an artifact id without a row, and an
    artifact that is not of its source type, with a ValueError raised before
    the processor is run and before anything is written.  Since the four
    source types differ, at most one of the four operators goes on to its
    processor for a given artifact. *)
Theorem generators_check_their_source :
  forall (task_id : string) (artifact_id : Z) (w : World),
    (artifact_of w artifact_id = None ->
     PRDProcessorOperator.execute task_id artifact_id w
     = (Raise (ValueError (ArtifactNotFound artifact_id)), w)
     /\ APIGeneratorOperator.execute task_id artifact_id w
        = (Raise (ValueError (ArtifactNotFound artifact_id)), w)
     /\ TypeSpecGeneratorOperator.execute task_id artifact_id w
        = (Raise (ValueError (ArtifactNotFound artifact_id)), w)
     /\ fst (SchemaGeneratorOperator.execute task_id artifact_id w)
        = Raise (ValueError (ArtifactNotFound artifact_id))
     /\ snd (SchemaGeneratorOperator.execute task_id artifact_id w) = w)
    /\ (forall a, artifact_of w artifact_id = Some a ->
          (a_type a <> "PRD" ->
           PRDProcessorOperator.execute task_id artifact_id w
           = (Raise (ValueError (NotOfType artifact_id "PRD")), w))
          /\ (a_type a <> "DDD_MODEL" ->
              APIGeneratorOperator.execute task_id artifact_id w
              = (Raise (ValueError (NotOfType artifact_id "DDD_MODEL")), w))
          /\ (a_type a <> "API_SPEC" ->
              TypeSpecGeneratorOperator.execute task_id artifact_id w
              = (Raise (ValueError (NotOfType artifact_id "API_SPEC")), w))
          /\ (a_type a <> "TYPESPEC" ->
              fst (SchemaGeneratorOperator.execute task_id artifact_id w)
              = Raise (ValueError (NotOfType artifact_id "TYPESPEC"))
              /\ snd (SchemaGeneratorOperator.execute task_id artifact_id w)
                 = w)).
Proof.
  intros task_id artifact_id w. split.
  - intros Ha. repeat split; enter_generator w artifact_id Ha; reflexivity.
  - intros a Ha.
    split; [|split; [|split]]; intros Hty;
      [ | | | split ]; enter_generator w artifact_id Ha;
      rewrite (eqb_other _ _ Hty); reflexivity.
Qed.

(** A DDD_MODEL artifact is refused by three of the four operators. *)
Lemma generators_check_their_source_witness :
  PRDProcessorOperator.execute "process_prd" 1 Cases.middle_world
  = (Raise (ValueError (NotOfType 1 "PRD")), Cases.middle_world)
  /\ TypeSpecGeneratorOperator.execute "generate_typespec" 1 Cases.middle_world
     = (Raise (ValueError (NotOfType 1 "API_SPEC")), Cases.middle_world)
  /\ APIGeneratorOperator.execute "generate_api" 9 Cases.middle_world
     = (Raise (ValueError (ArtifactNotFound 9)), Cases.middle_world).
Proof.
  pose proof (proj2 (generators_check_their_source "process_prd" 1
                       Cases.middle_world) Cases.ddd eq_refl) as H1.
  pose proof (proj2 (generators_check_their_source "generate_typespec" 1
                       Cases.middle_world) Cases.ddd eq_refl) as H2.
  pose proof (proj1 (generators_check_their_source "generate_api" 9
                       Cases.middle_world) eq_refl) as H3.
  split; [apply H1; discriminate|].
  split; [apply H2; discriminate|].
  apply H3.
Defined.

(** ** The generating operators: a processor that fails *)

(** What a failing processor leaves behind.  When the script file is
    missing, the operator raises FileNotFoundError and the world is
    untouched; when the script runs and fails, the operator raises the
    script's exception, the run is on record, and no artifact and no
    approval row has been written.  (Stated for the PRD processor and the
    API generator; the two tables are compared as a whole.) *)
Theorem processor_failure_writes_no_row :
  forall (task_id : string) (artifact_id : Z) (w : World) (a : Artifact),
    artifact_of w artifact_id = Some a ->
    (a_type a = "PRD" ->
     (scripts w "prd_processor" = None ->
      PRDProcessorOperator.execute task_id artifact_id w
      = (Raise (FileNotFoundError "prd_processor"), w))
     /\ (forall run e,
            scripts w "prd_processor" = Some run ->
            run (JObj [("prd", a_content a)]) = Raise e ->
            let r := PRDProcessorOperator.execute task_id artifact_id w in
            fst r = Raise e
            /\ artifacts (snd r) = artifacts w
            /\ approvals (snd r) = approvals w
            /\ invocations (snd r)
               = invocations w
                 ++ [("prd_processor", JObj [("prd", a_content a)])]))
    /\ (a_type a = "DDD_MODEL" ->
        (scripts w "api_generator" = None ->
         APIGeneratorOperator.execute task_id artifact_id w
         = (Raise (FileNotFoundError "api_generator"), w))
        /\ (forall run e,
               scripts w "api_generator" = Some run ->
               run (JObj [("ddd_model", a_content a)]) = Raise e ->
               let r := APIGeneratorOperator.execute task_id artifact_id w in
               fst r = Raise e
               /\ artifacts (snd r) = artifacts w
               /\ approvals (snd r) = approvals w
               /\ invocations (snd r)
                  = invocations w
                    ++ [("api_generator", JObj [("ddd_model", a_content a)])])).
Proof.
  intros task_id artifact_id w a Ha. split; intros Hty; split.
  - intros Hs. enter_generator w artifact_id Ha.
    rewrite Hty, String.eqb_refl. cbn [negb].
    unfold bind, NodeExecutor.execute_processor. now rewrite Hs.
  - intros run e Hs Hrun r.
    assert (Heq : r = (Raise e,
                       with_invocation w
                         ("prd_processor", JObj [("prd", a_content a)]))).
    { subst r. enter_generator w artifact_id Ha.
      rewrite Hty, String.eqb_refl. cbn [negb].
      unfold bind, NodeExecutor.execute_processor. now rewrite Hs, Hrun. }
    rewrite Heq. cbn. auto.
  - intros Hs. enter_generator w artifact_id Ha.
    rewrite Hty, String.eqb_refl. cbn [negb].
    unfold bind, NodeExecutor.execute_processor. now rewrite Hs.
  - intros run e Hs Hrun r.
    assert (Heq : r = (Raise e,
                       with_invocation w
                         ("api_generator",
                          JObj [("ddd_model", a_content a)]))).
    { subst r. enter_generator w artifact_id Ha.
      rewrite Hty, String.eqb_refl. cbn [negb].
      unfold bind, NodeExecutor.execute_processor. now rewrite Hs, Hrun. }
    rewrite Heq. cbn. auto.
Qed.

Lemma processor_failure_writes_no_row_witness :
  fst (PRDProcessorOperator.execute "process_prd" 1 Cases.broken_prd_world)
  = Raise (ProcessorException "SyntaxError")
  /\ artifacts (snd (PRDProcessorOperator.execute "process_prd" 1
                       Cases.broken_prd_world))
     = [Sample.prd].
Proof.
  destruct (proj2 (proj1 (processor_failure_writes_no_row "process_prd" 1
                            Cases.broken_prd_world Sample.prd eq_refl)
                         eq_refl)
              (fun _ => Raise (ProcessorException "SyntaxError"))
              (ProcessorException "SyntaxError") eq_refl eq_refl)
    as (H1 & H2 & _).
  split; [exact H1 | exact H2].
Defined.

(** ** [SchemaGeneratorOperator]: a result with a payload missing *)

Section SchemaPartial.

Variables (task_id : string) (artifact_id : Z) (w : World) (a : Artifact).
Variables (run : json -> result json) (result : json).

Hypothesis source_found : artifact_of w artifact_id = Some a.
Hypothesis source_is_typespec : a_type a = "TYPESPEC".
Hypothesis script_found : scripts w "schema_generator" = Some run.
Hypothesis script_ran : run (JObj [("typespec", a_content a)]) = Ok result.

Lemma schema_execute_zod_missing (e : exn) :
  subscript result "zod_schema" = Raise e ->
  SchemaGeneratorOperator.execute task_id artifact_id w
  = (Raise e,
     with_invocation w ("schema_generator", JObj [("typespec", a_content a)])).
Proof.
  intros Hz. enter_generator w artifact_id source_found.
  rewrite source_is_typespec, String.eqb_refl. cbn [negb].
  unfold bind at 1, NodeExecutor.execute_processor.
  rewrite script_found, script_ran.
  unfold bind, lift. now rewrite Hz.
Qed.

Lemma schema_execute_db_missing (zod : json) (e : exn) :
  subscript result "zod_schema" = Ok zod ->
  subscript result "db_schema" = Raise e ->
  SchemaGeneratorOperator.execute task_id artifact_id w
  = (Raise e,
     with_artifacts
       (with_invocation w
          ("schema_generator", JObj [("typespec", a_content a)]))
       (artifacts w
          ++ [mkArtifact (next_artifact_id w)
                         ("Zod Schema for " ++ a_name a)%string
                         "ZOD_SCHEMA" zod task_id (Some (a_id a))
                         "PENDING_APPROVAL" None])
       (next_artifact_id w + 1)).
Proof.
  intros Hz Hd. enter_generator w artifact_id source_found.
  rewrite source_is_typespec, String.eqb_refl. cbn [negb].
  unfold bind at 1, NodeExecutor.execute_processor.
  rewrite script_found, script_ran.
  unfold bind, lift. rewrite Hz. cbn -[Z.add]. now rewrite Hd.
Qed.

(** The two payloads are read one after the other, each just before its
    artifact is created.  A result without ['zod_schema'] (or one that is
    not an object) makes the operator raise with no row written; a result
    with ['zod_schema'] but without ['db_schema'] makes it raise after the
    ZOD_SCHEMA artifact has been created: that artifact stays behind, with
    no sibling and with no approval row. *)
Theorem schema_generator_missing_payload :
  (forall e, subscript result "zod_schema" = Raise e ->
             let r := SchemaGeneratorOperator.execute task_id artifact_id w in
             fst r = Raise e
             /\ artifacts (snd r) = artifacts w
             /\ approvals (snd r) = approvals w)
  /\ (forall zod e,
         subscript result "zod_schema" = Ok zod ->
         subscript result "db_schema" = Raise e ->
         let r := SchemaGeneratorOperator.execute task_id artifact_id w in
         fst r = Raise e
         /\ artifacts (snd r)
            = artifacts w
              ++ [mkArtifact (next_artifact_id w)
                             ("Zod Schema for " ++ a_name a)%string
                             "ZOD_SCHEMA" zod task_id (Some artifact_id)
                             "PENDING_APPROVAL" None]
         /\ approvals (snd r) = approvals w
         /\ approvals_of (snd r) (next_artifact_id w)
            = approvals_of w (next_artifact_id w)).
Proof.
  split.
  - intros e Hz r. subst r. rewrite (schema_execute_zod_missing e Hz).
    cbn. auto.
  - intros zod e Hz Hd r. subst r.
    rewrite (schema_execute_db_missing zod e Hz Hd). cbn.
    rewrite (find_id_eq _ _ _ source_found). auto.
Qed.

End SchemaPartial.

Lemma schema_generator_missing_payload_witness :
  fst (SchemaGeneratorOperator.execute "generate_schemas" 1
         Cases.broken_typespec_world)
  = Raise (KeyError "db_schema")
  /\ map a_type
       (artifacts (snd (SchemaGeneratorOperator.execute "generate_schemas" 1
                          Cases.broken_typespec_world)))
     = ["TYPESPEC"; "ZOD_SCHEMA"]
  /\ approvals (snd (SchemaGeneratorOperator.execute "generate_schemas" 1
                       Cases.broken_typespec_world))
     = [].
Proof.
  destruct (proj2 (schema_generator_missing_payload "generate_schemas" 1
                     Cases.broken_typespec_world Sample.typespec
                     (fun _ => Ok (JObj [("zod_schema", JStr "z.object({})")]))
                     (JObj [("zod_schema", JStr "z.object({})")])
                     eq_refl eq_refl eq_refl eq_refl)
                  (JStr "z.object({})") (KeyError "db_schema")
                  eq_refl eq_refl)
    as (H1 & H2 & H3 & _).
  split; [exact H1|]. split; [now rewrite H2 | exact H3].
Defined.

(** ** [APIGeneratorOperator] and [TypeSpecGeneratorOperator] on success *)

Section APIRun.

Variables (task_id : string) (artifact_id : Z) (w : World) (a : Artifact).
Variables (run : json -> result json) (result : json).

Hypothesis source_found : artifact_of w artifact_id = Some a.
Hypothesis source_is_ddd : a_type a = "DDD_MODEL".
Hypothesis script_found : scripts w "api_generator" = Some run.
Hypothesis script_ran : run (JObj [("ddd_model", a_content a)]) = Ok result.

Lemma api_execute_eq :
  APIGeneratorOperator.execute task_id artifact_id w =
  (Ok (next_artifact_id w),
   mkWorld
     (artifacts w ++
        [mkArtifact (next_artifact_id w)
                    ("API Specification for " ++ a_name a)%string
                    "API_SPEC" result task_id (Some (a_id a))
                    "PENDING_APPROVAL" None])
     (approvals w ++
        [mkApproval (next_approval_id w) (next_artifact_id w) 1 "PENDING"
                    None None;
         mkApproval (next_approval_id w + 1) (next_artifact_id w) 2 "PENDING"
                    None None])
     (pipelineStages w) (next_artifact_id w + 1) (next_approval_id w + 2)
     (3 + clock w)%nat (scripts w)
     (invocations w ++ [("api_generator", JObj [("ddd_model", a_content a)])])).
Proof.
  enter_generator w artifact_id source_found.
  rewrite source_is_ddd, String.eqb_refl. cbn [negb].
  unfold bind at 1, NodeExecutor.execute_processor.
  rewrite script_found, script_ran.
  unfold bind. cbn -[Z.add].
  repeat rewrite <- app_assoc. cbn -[Z.add].
  repeat rewrite <- Z.add_assoc. reflexivity.
Qed.

(** A successful run of [APIGeneratorOperator.execute] on a DDD_MODEL
    artifact, whatever that artifact's status, runs the processor once on
    the artifact's content, appends one API_SPEC artifact, PENDING_APPROVAL,
    with the DDD_MODEL artifact as parent, and requests two approvals for
    it, from stakeholders 1 and 2. *)
Theorem api_generator_creates_child :
  let r := APIGeneratorOperator.execute task_id artifact_id w in
  let created := next_artifact_id w in
  fst r = Ok created
  /\ invocations (snd r)
     = invocations w ++ [("api_generator", JObj [("ddd_model", a_content a)])]
  /\ artifacts (snd r)
     = artifacts w
       ++ [mkArtifact created ("API Specification for " ++ a_name a)%string
                      "API_SPEC" result task_id (Some artifact_id)
                      "PENDING_APPROVAL" None]
  /\ approvals_of (snd r) created
     = approvals_of w created
       ++ [mkApproval (next_approval_id w) created 1 "PENDING" None None;
           mkApproval (next_approval_id w + 1) created 2 "PENDING" None None]
  /\ List.length (approvals (snd r)) = (List.length (approvals w) + 2)%nat.
Proof.
  intros r created. subst r created. rewrite api_execute_eq.
  cbn [fst snd invocations artifacts].
  rewrite (find_id_eq _ _ _ source_found).
  repeat split.
  - unfold approvals_of. cbn [approvals]. rewrite filter_app. f_equal.
    cbn [filter ap_artifactId]. now rewrite !Z.eqb_refl.
  - cbn [approvals]. rewrite length_app. reflexivity.
Qed.

End APIRun.

Lemma api_generator_creates_child_witness :
  fst (APIGeneratorOperator.execute "generate_api" 1 Cases.middle_world) = Ok 3.
Proof.
  exact (proj1 (api_generator_creates_child "generate_api" 1 Cases.middle_world
                  Cases.ddd Sample.echo
                  (JObj [("from", JObj [("ddd_model", JStr "Cart")])])
                  eq_refl eq_refl eq_refl eq_refl)).
Defined.

Section TypeSpecRun.

Variables (task_id : string) (artifact_id : Z) (w : World) (a : Artifact).
Variables (run : json -> result json) (result : json).

Hypothesis source_found : artifact_of w artifact_id = Some a.
Hypothesis source_is_api : a_type a = "API_SPEC".
Hypothesis script_found : scripts w "typespec_generator" = Some run.
Hypothesis script_ran : run (JObj [("api_spec", a_content a)]) = Ok result.

Lemma typespec_execute_eq :
  TypeSpecGeneratorOperator.execute task_id artifact_id w =
  (Ok (next_artifact_id w),
   mkWorld
     (artifacts w ++
        [mkArtifact (next_artifact_id w) ("TypeSpec for " ++ a_name a)%string
                    "TYPESPEC" result task_id (Some (a_id a))
                    "PENDING_APPROVAL" None])
     (approvals w ++
        [mkApproval (next_approval_id w) (next_artifact_id w) 3 "PENDING"
                    None None])
     (pipelineStages w) (next_artifact_id w + 1) (next_approval_id w + 1)
     (S (S (clock w))) (scripts w)
     (invocations w
        ++ [("typespec_generator", JObj [("api_spec", a_content a)])])).
Proof.
  enter_generator w artifact_id source_found.
  rewrite source_is_api, String.eqb_refl. cbn [negb].
  unfold bind at 1, NodeExecutor.execute_processor.
  rewrite script_found, script_ran.
  reflexivity.
Qed.

(** A successful run of [TypeSpecGeneratorOperator.execute] on an API_SPEC
    artifact, whatever that artifact's status, appends one TYPESPEC
    artifact, PENDING_APPROVAL, with the API_SPEC artifact as parent, and
    requests one approval for it, from stakeholder 3. *)
Theorem typespec_generator_creates_child :
  let r := TypeSpecGeneratorOperator.execute task_id artifact_id w in
  let created := next_artifact_id w in
  fst r = Ok created
  /\ invocations (snd r)
     = invocations w
       ++ [("typespec_generator", JObj [("api_spec", a_content a)])]
  /\ artifacts (snd r)
     = artifacts w
       ++ [mkArtifact created ("TypeSpec for " ++ a_name a)%string
                      "TYPESPEC" result task_id (Some artifact_id)
                      "PENDING_APPROVAL" None]
  /\ approvals_of (snd r) created
     = approvals_of w created
       ++ [mkApproval (next_approval_id w) created 3 "PENDING" None None]
  /\ List.length (approvals (snd r)) = S (List.length (approvals w)).
Proof.
  intros r created. subst r created. rewrite typespec_execute_eq.
  cbn [fst snd invocations artifacts].
  rewrite (find_id_eq _ _ _ source_found).
  repeat split.
  - unfold approvals_of. cbn [approvals]. rewrite filter_app. f_equal.
    cbn [filter ap_artifactId]. now rewrite !Z.eqb_refl.
  - cbn [approvals]. rewrite length_app. simpl. lia.
Qed.

End TypeSpecRun.

(** The API_SPEC artifact of [Cases.middle_world] is REJECTED; the TypeSpec
    generator runs on it all the same. *)
Lemma typespec_generator_creates_child_witness :
  a_status Cases.api_spec = "REJECTED"
  /\ fst (TypeSpecGeneratorOperator.execute "generate_typespec" 2
            Cases.middle_world)
     = Ok 3.
Proof.
  split; [reflexivity|].
  exact (proj1 (typespec_generator_creates_child "generate_typespec" 2
                  Cases.middle_world Cases.api_spec Sample.echo
                  (JObj [("from", JObj [("api_spec", JStr "GET /cart")])])
                  eq_refl eq_refl eq_refl eq_refl)).
Defined.

(** * What no run ever does *)

(** ** [evolves] is a preorder, and every hook call respects it *)

Lemma extends_refl {A : Type} (l : list A) : extends l l.
Proof. exists []. now rewrite app_nil_r. Qed.

Lemma extends_trans {A : Type} (l1 l2 l3 : list A) :
  extends l1 l2 -> extends l2 l3 -> extends l1 l3.
Proof.
  intros [m1 ->] [m2 ->]. exists (m1 ++ m2). now rewrite app_assoc.
Qed.

Lemma extends_app {A : Type} (l more : list A) : extends l (l ++ more).
Proof. now exists more. Qed.

Lemma extends_map {A B : Type} (f : A -> B) (l l' : list A) :
  extends l l' -> extends (map f l) (map f l').
Proof. intros [m ->]. exists (map f m). apply map_app. Qed.

Lemma extends_in {A : Type} (l l' : list A) (x : A) :
  extends l l' -> In x l -> In x l'.
Proof. intros [m ->] H. apply in_or_app. now left. Qed.

Lemma evolves_refl (w : World) : evolves w w.
Proof. constructor; auto using extends_refl; lia. Qed.

Lemma evolves_trans (w1 w2 w3 : World) :
  evolves w1 w2 -> evolves w2 w3 -> evolves w1 w3.
Proof.
  intros [] []. constructor; try congruence; try lia;
    eauto using extends_trans.
Qed.

Lemma artifact_keys_touched (now : nat) (artifact_id : Z) (status : string)
      (rows : list Artifact) :
  map artifact_key (map (SupabaseHook.touch_artifact now artifact_id status) rows)
  = map artifact_key rows.
Proof.
  rewrite map_map. apply map_ext. intros a.
  unfold SupabaseHook.touch_artifact. now destruct (a_id a =? artifact_id).
Qed.

Lemma approval_keys_touched (now : nat) (approval_id : Z)
      (data : ApprovalUpdate) (rows : list Approval) :
  map approval_key (map (SupabaseHook.touch_approval now approval_id data) rows)
  = map approval_key rows.
Proof.
  rewrite map_map. apply map_ext. intros p.
  unfold SupabaseHook.touch_approval. now destruct (ap_id p =? approval_id).
Qed.

Lemma respects_unchanged {B : Type} (f : World -> B * World) :
  (forall w, snd (f w) = w) -> respects evolves f.
Proof. intros H w. rewrite H. apply evolves_refl. Qed.

Lemma respects_bind {A B : Type} (m : M A) (k : A -> M B) :
  respects evolves m -> (forall a, respects evolves (k a)) ->
  respects evolves (bind m k).
Proof.
  intros Hm Hk w. unfold bind. specialize (Hm w).
  destruct (m w) as [[a|e] w1]; simpl in *; [|exact Hm].
  eapply evolves_trans; [exact Hm | apply Hk].
Qed.

Lemma respects_create_artifact (data : ArtifactData) :
  respects evolves (SupabaseHook.create_artifact data).
Proof.
  intros w. simpl. constructor; simpl; auto using extends_refl; try lia.
  rewrite map_app. apply extends_app.
Qed.

Lemma respects_create_approval (data : ApprovalData) :
  respects evolves (SupabaseHook.create_approval data).
Proof.
  intros w. simpl. constructor; simpl; auto using extends_refl; try lia.
  rewrite map_app. apply extends_app.
Qed.

Lemma respects_update_artifact (artifact_id : Z) (status : string) :
  respects evolves (SupabaseHook.update_artifact artifact_id status).
Proof.
  intros w. rewrite update_artifact_eq. cbv zeta.
  assert (H : evolves w
                (with_artifacts w
                   (map (SupabaseHook.touch_artifact (clock w) artifact_id status)
                        (artifacts w))
                   (next_artifact_id w))).
  { constructor; simpl; auto using extends_refl; try lia.
    rewrite artifact_keys_touched. apply extends_refl. }
  destruct (artifact_of w artifact_id); exact H.
Qed.

Lemma respects_update_approval (approval_id : Z) (data : ApprovalUpdate) :
  respects evolves (SupabaseHook.update_approval approval_id data).
Proof.
  intros w. rewrite update_approval_eq. cbv zeta.
  assert (H : evolves w
                (with_approvals w
                   (map (SupabaseHook.touch_approval (clock w) approval_id data)
                        (approvals w))
                   (next_approval_id w))).
  { constructor; simpl; auto using extends_refl; try lia.
    rewrite approval_keys_touched. apply extends_refl. }
  destruct (approval_of w approval_id); exact H.
Qed.

Lemma respects_execute_processor (name : string) (input : json) :
  respects evolves (NodeExecutor.execute_processor name input).
Proof.
  intros w. unfold NodeExecutor.execute_processor.
  destruct (scripts w name); simpl; [|apply evolves_refl].
  constructor; simpl; auto using extends_refl, extends_app; lia.
Qed.

Lemma respects_scan (indices : list Z) (a : Artifact) :
  respects evolves (ApprovalOperator.scan indices a).
Proof. apply respects_unchanged. intros w. now rewrite scan_eq. Qed.

Lemma dag_scan_unchanged (indices : list Z) (a : option Artifact) (w : World) :
  snd (Dag.scan indices a w) = w.
Proof.
  destruct a as [a|]; [now rewrite dag_scan_eq | now rewrite dag_scan_none_eq].
Qed.

(** One step of a proof that an operator respects [evolves]. *)
Ltac respects_step :=
  first
    [ apply respects_bind; [|intros]
    | apply respects_create_artifact
    | apply respects_create_approval
    | apply respects_update_artifact
    | apply respects_update_approval
    | apply respects_execute_processor
    | apply respects_scan
    | apply respects_unchanged; intros; reflexivity
    | match goal with
      | |- respects _ (match ?x with _ => _ end) => destruct x
      end ].

Ltac respects_evolves := repeat respects_step.

Lemma respects_approval_operator (artifact_id : Z) :
  respects evolves (ApprovalOperator.execute artifact_id).
Proof. unfold ApprovalOperator.execute. respects_evolves. Qed.

Lemma respects_manual_operator (artifact_id stakeholder_id : Z)
      (approve : bool) (comment : option string) :
  respects evolves
    (ManualApprovalOperator.execute artifact_id stakeholder_id approve comment).
Proof. unfold ManualApprovalOperator.execute. respects_evolves. Qed.

Lemma respects_prd_processor (task_id : string) (artifact_id : Z) :
  respects evolves (PRDProcessorOperator.execute task_id artifact_id).
Proof. unfold PRDProcessorOperator.execute. respects_evolves. Qed.

Lemma respects_api_generator (task_id : string) (artifact_id : Z) :
  respects evolves (APIGeneratorOperator.execute task_id artifact_id).
Proof. unfold APIGeneratorOperator.execute. respects_evolves. Qed.

Lemma respects_typespec_generator (task_id : string) (artifact_id : Z) :
  respects evolves (TypeSpecGeneratorOperator.execute task_id artifact_id).
Proof. unfold TypeSpecGeneratorOperator.execute. respects_evolves. Qed.

Lemma respects_schema_generator (task_id : string) (artifact_id : Z) :
  respects evolves (SchemaGeneratorOperator.execute task_id artifact_id).
Proof. unfold SchemaGeneratorOperator.execute. respects_evolves. Qed.

Lemma respects_create_prd (prd_name : option string) (prd_content : option json) :
  respects evolves (Dag.create_prd_artifact prd_name prd_content).
Proof. unfold Dag.create_prd_artifact. respects_evolves. Qed.

Lemma respects_finalize (ids : SchemaGeneratorOperator.SchemaIds) :
  respects evolves (Dag.finalize_pipeline ids).
Proof. unfold Dag.finalize_pipeline. respects_evolves. Qed.

(** ** The task graph respects it too *)

Lemma respects_then {B C : Type} (f : World -> B * World)
      (g : B -> World -> C * World) :
  respects evolves f -> (forall b, respects evolves (g b)) ->
  respects evolves (fun w => let (b, w1) := f w in g b w1).
Proof.
  intros Hf Hg w. specialize (Hf w). destruct (f w) as [b w1]. simpl in Hf.
  eapply evolves_trans; [exact Hf | apply Hg].
Qed.

Lemma respects_attempt {A : Type} (n : nat) (task : M A) :
  respects evolves task -> respects evolves (Dag.attempt n task).
Proof.
  intros Ht. induction n as [|n IH]; intros w; simpl;
    specialize (Ht w); destruct (task w) as [[v|e] w1]; simpl in *; auto.
  eapply evolves_trans; [exact Ht | apply IH].
Qed.

Lemma respects_downstream {A B : Type} (up : Dag.TaskState A) (task : A -> M B) :
  (forall a, respects evolves (task a)) ->
  respects evolves (Dag.downstream up task).
Proof.
  intros Ht w. unfold Dag.downstream, Dag.run_task.
  destruct up as [a| |]; cbv beta iota; try apply evolves_refl.
  apply (respects_attempt Dag.retries (task a) (Ht a)).
Qed.

Lemma respects_fan_in
      (generate_schemas : Dag.TaskState SchemaGeneratorOperator.SchemaIds) :
  respects evolves (Dag.fan_in generate_schemas).
Proof.
  unfold Dag.fan_in.
  apply respects_then;
    [apply respects_downstream; intros; apply respects_approval_operator|].
  intros zod. apply respects_then;
    [apply respects_downstream; intros; apply respects_approval_operator|].
  intros db. apply respects_then;
    [apply respects_downstream; intros; apply respects_finalize|].
  intros fin w. apply evolves_refl.
Qed.

Lemma respects_run (prd_name : option string) (prd_content : option json) :
  respects evolves (Dag.run prd_name prd_content).
Proof.
  unfold Dag.run.
  apply respects_then;
    [apply respects_attempt, respects_create_prd | intros t1].
  apply respects_then;
    [apply respects_downstream; intros; apply respects_approval_operator
    | intros t2].
  apply respects_then;
    [apply respects_downstream; intros; apply respects_prd_processor
    | intros t3].
  apply respects_then;
    [apply respects_downstream; intros; apply respects_approval_operator
    | intros t4].
  apply respects_then;
    [apply respects_downstream; intros; apply respects_api_generator
    | intros t5].
  apply respects_then;
    [apply respects_downstream; intros; apply respects_approval_operator
    | intros t6].
  apply respects_then;
    [apply respects_downstream; intros; apply respects_typespec_generator
    | intros t7].
  apply respects_then;
    [apply respects_downstream; intros; apply respects_approval_operator
    | intros t8].
  apply respects_then;
    [apply respects_downstream; intros; apply respects_schema_generator
    | intros t9].
  apply respects_then; [apply respects_fan_in | intros join].
  intros w. apply evolves_refl.
Qed.

(** No operator, and no DAG run, deletes a row, rewrites the identity of a
    row, or touches the configuration: after any run of any of them,
    returned or raised, the stage table and the processor scripts are as
    before, every artifact row that existed is still there in its place
    with the same id, name, type, content, creator and parent, every
    approval row with the same id, artifact and stakeholder, and the
    serials and the clock have not gone back.  Only status, comment and
    timestamp of an existing row can differ. *)
Theorem operators_only_insert_and_update_status :
  forall (w : World) (task_id : string) (artifact_id stakeholder_id : Z)
         (approve : bool) (comment prd_name : option string)
         (prd_content : option json),
    evolves w (snd (ApprovalOperator.execute artifact_id w))
    /\ evolves w (snd (ManualApprovalOperator.execute
                         artifact_id stakeholder_id approve comment w))
    /\ evolves w (snd (PRDProcessorOperator.execute task_id artifact_id w))
    /\ evolves w (snd (APIGeneratorOperator.execute task_id artifact_id w))
    /\ evolves w (snd (TypeSpecGeneratorOperator.execute task_id artifact_id w))
    /\ evolves w (snd (SchemaGeneratorOperator.execute task_id artifact_id w))
    /\ evolves w (snd (Dag.create_prd_artifact prd_name prd_content w))
    /\ evolves w (snd (Dag.check_artifact_approvals artifact_id w))
    /\ evolves w (snd (Dag.run prd_name prd_content w)).
Proof.
  intros.
  split; [apply respects_approval_operator|].
  split; [apply respects_manual_operator|].
  split; [apply respects_prd_processor|].
  split; [apply respects_api_generator|].
  split; [apply respects_typespec_generator|].
  split; [apply respects_schema_generator|].
  split; [apply respects_create_prd|].
  split; [|apply respects_run].
  rewrite check_artifact_approvals_unchanged. apply evolves_refl.
Qed.

(** * The invariant of the tables *)

(** ** Each hook call keeps it *)

Lemma has_artifact_stable (i : Z) : stable (fun w => has_artifact w i).
Proof.
  intros w w' Hev H. unfold has_artifact in *.
  destruct Hev as [_ _ Hk _ _ _ _ _].
  apply (extends_map (fun k => fst (fst (fst (fst (fst k)))))) in Hk.
  rewrite !map_map in Hk. simpl in Hk.
  eapply extends_in; [exact Hk | exact H].
Qed.

Lemma stable_true : stable (fun _ => True).
Proof. intros w w' _ _. exact I. Qed.

Lemma stable_and (F G : World -> Prop) :
  stable F -> stable G -> stable (fun w => F w /\ G w).
Proof. intros HF HG w w' Hev [HFw HGw]. split; eauto. Qed.

Ltac stable_tac :=
  repeat first [ apply stable_and | apply stable_true
               | apply has_artifact_stable ].

Lemma ids_touched_artifacts (now : nat) (artifact_id : Z) (status : string)
      (rows : list Artifact) :
  map a_id (map (SupabaseHook.touch_artifact now artifact_id status) rows)
  = map a_id rows.
Proof.
  rewrite map_map. apply map_ext. intros a.
  unfold SupabaseHook.touch_artifact. now destruct (a_id a =? artifact_id).
Qed.

Lemma ids_touched_approvals (now : nat) (approval_id : Z)
      (data : ApprovalUpdate) (rows : list Approval) :
  map ap_id (map (SupabaseHook.touch_approval now approval_id data) rows)
  = map ap_id rows.
Proof.
  rewrite map_map. apply map_ext. intros p.
  unfold SupabaseHook.touch_approval. now destruct (ap_id p =? approval_id).
Qed.

Lemma NoDup_snoc (l : list Z) (next : Z) :
  NoDup l -> (forall i, In i l -> i < next) -> NoDup (l ++ [next]).
Proof.
  intros Hnd Hlt. apply NoDup_app; [exact Hnd | repeat constructor; auto |].
  intros i Hi [Heq|[]]. subst i. specialize (Hlt next Hi). lia.
Qed.

Lemma below_snoc (l : list Z) (next : Z) :
  (forall i, In i l -> i < next) ->
  forall i, In i (l ++ [next]) -> i < next + 1.
Proof.
  intros Hlt i Hi. apply in_app_or in Hi. destruct Hi as [Hi|[Heq|[]]];
    [specialize (Hlt i Hi)|]; lia.
Qed.

Lemma consistent_create_artifact (data : ArtifactData) (w : World) :
  consistent w ->
  consistent (snd (SupabaseHook.create_artifact data w))
  /\ has_artifact (snd (SupabaseHook.create_artifact data w))
                  (next_artifact_id w).
Proof.
  intros (Hnd & Hlt & Hnd' & Hlt' & Hfk).
  unfold consistent, has_artifact. simpl. rewrite map_app. simpl.
  split; [|apply in_or_app; right; now left].
  split; [now apply NoDup_snoc|]. split; [now apply below_snoc|].
  split; [exact Hnd'|]. split; [exact Hlt'|].
  intros p Hp. apply in_or_app. left. now apply Hfk.
Qed.

Lemma consistent_create_approval (data : ApprovalData) (w : World) :
  consistent w -> has_artifact w (d_artifactId data) ->
  consistent (snd (SupabaseHook.create_approval data w)).
Proof.
  intros (Hnd & Hlt & Hnd' & Hlt' & Hfk) Hhas.
  unfold consistent, has_artifact. simpl. rewrite map_app. simpl.
  split; [exact Hnd|]. split; [exact Hlt|].
  split; [now apply NoDup_snoc|]. split; [now apply below_snoc|].
  intros p Hp. apply in_app_or in Hp. destruct Hp as [Hp|[<-|[]]].
  - now apply Hfk.
  - exact Hhas.
Qed.

Lemma consistent_with_touched_artifacts (artifact_id : Z) (status : string)
      (w : World) :
  consistent w ->
  consistent
    (with_artifacts w
       (map (SupabaseHook.touch_artifact (clock w) artifact_id status)
            (artifacts w))
       (next_artifact_id w)).
Proof.
  intros (Hnd & Hlt & Hnd' & Hlt' & Hfk).
  unfold consistent, has_artifact. simpl. rewrite ids_touched_artifacts.
  split; [exact Hnd|]. split; [exact Hlt|]. split; [exact Hnd'|].
  split; [exact Hlt'|]. exact Hfk.
Qed.

Lemma consistent_update_artifact (artifact_id : Z) (status : string)
      (w : World) :
  consistent w ->
  consistent (snd (SupabaseHook.update_artifact artifact_id status w)).
Proof.
  intros H. rewrite update_artifact_eq. cbv zeta.
  destruct (artifact_of w artifact_id);
    now apply consistent_with_touched_artifacts.
Qed.

Lemma consistent_with_touched_approvals (approval_id : Z)
      (data : ApprovalUpdate) (w : World) :
  consistent w ->
  consistent
    (with_approvals w
       (map (SupabaseHook.touch_approval (clock w) approval_id data)
            (approvals w))
       (next_approval_id w)).
Proof.
  intros (Hnd & Hlt & Hnd' & Hlt' & Hfk).
  unfold consistent, has_artifact. simpl. rewrite ids_touched_approvals.
  split; [exact Hnd|]. split; [exact Hlt|]. split; [exact Hnd'|].
  split; [exact Hlt'|].
  intros p' Hp'. apply in_map_iff in Hp'. destruct Hp' as (p & <- & Hp).
  unfold SupabaseHook.touch_approval.
  destruct (ap_id p =? approval_id); simpl; now apply Hfk.
Qed.

Lemma consistent_update_approval (approval_id : Z) (data : ApprovalUpdate)
      (w : World) :
  consistent w ->
  consistent (snd (SupabaseHook.update_approval approval_id data w)).
Proof.
  intros H. rewrite update_approval_eq. cbv zeta.
  destruct (approval_of w approval_id);
    now apply consistent_with_touched_approvals.
Qed.

Lemma consistent_execute_processor (name : string) (input : json) (w : World) :
  consistent w ->
  consistent (snd (NodeExecutor.execute_processor name input w)).
Proof.
  intros H. unfold NodeExecutor.execute_processor.
  destruct (scripts w name); exact H.
Qed.

(** ** Rules for [spec] *)

Lemma spec_bind {A B : Type} (P : World -> Prop) (m : M A)
      (Q : A -> World -> Prop) (k : A -> M B) (Q' : B -> World -> Prop) :
  spec P m Q -> (forall a, spec (Q a) (k a) Q') -> spec P (bind m k) Q'.
Proof.
  intros Hm Hk w Hc HP. unfold bind.
  destruct (Hm w Hc HP) as [Hc1 HQ].
  destruct (m w) as [[a|e] w1]; simpl in *.
  - apply Hk; auto.
  - split; [exact Hc1 | discriminate].
Qed.

Lemma spec_unchanged {A : Type} (F : World -> Prop) (m : M A) :
  (forall w, snd (m w) = w) -> spec F m (fun _ w => F w).
Proof. intros H w Hc HF. rewrite H. auto. Qed.

Lemma spec_done {A : Type} (F : World -> Prop) (m : M A) :
  (forall w, snd (m w) = w) -> spec F m (fun _ _ => True).
Proof. intros H w Hc HF. rewrite H. auto. Qed.

Lemma spec_writes {A : Type} (F : World -> Prop) (m : M A) :
  stable F -> respects evolves m ->
  (forall w, consistent w -> consistent (snd (m w))) ->
  spec F m (fun _ w => F w).
Proof.
  intros Hst Hev Hk w Hc HF. split; [now apply Hk|].
  intros _ _. exact (Hst _ _ (Hev w) HF).
Qed.

Lemma spec_create_artifact (F : World -> Prop) (data : ArtifactData) :
  stable F ->
  spec F (SupabaseHook.create_artifact data)
       (fun row w => F w /\ has_artifact w (a_id row)).
Proof.
  intros Hst w Hc HF.
  destruct (consistent_create_artifact data w Hc) as [Hc1 Hhas].
  split; [exact Hc1|]. intros row Hrow. split.
  - exact (Hst _ _ (respects_create_artifact data w) HF).
  - simpl in Hrow. inversion Hrow; subst row. exact Hhas.
Qed.

Lemma spec_create_approval (F : World -> Prop) (artifact_id stakeholder_id : Z) :
  stable F -> (forall w, F w -> has_artifact w artifact_id) ->
  spec F (SupabaseHook.create_approval
            (pending_approval artifact_id stakeholder_id))
       (fun _ w => F w).
Proof.
  intros Hst Hhas w Hc HF. split.
  - apply consistent_create_approval; [exact Hc | now apply Hhas].
  - intros _ _. exact (Hst _ _ (respects_create_approval _ w) HF).
Qed.

(** One step of a proof of [spec]. *)
Ltac spec_step :=
  cbv beta;
  first
    [ eapply spec_bind;
      [ first
          [ apply spec_create_artifact; stable_tac
          | apply spec_create_approval; [stable_tac | intros; tauto]
          | apply spec_writes;
            [ stable_tac
            | first [ apply respects_update_artifact
                    | apply respects_update_approval
                    | apply respects_execute_processor ]
            | intros;
              first [ now apply consistent_update_artifact
                    | now apply consistent_update_approval
                    | now apply consistent_execute_processor ] ]
          | apply spec_unchanged; intros;
            first [ reflexivity | now rewrite scan_eq
                  | apply dag_scan_unchanged ] ]
      | intros ]
    | apply spec_done; intros; reflexivity
    | match goal with
      | |- spec _ (match ?x with _ => _ end) _ => destruct x
      end ].

Ltac spec_tac := repeat spec_step.

Lemma spec_approval_operator (artifact_id : Z) :
  spec (fun _ => True) (ApprovalOperator.execute artifact_id)
       (fun _ _ => True).
Proof. unfold ApprovalOperator.execute. spec_tac. Qed.

Lemma spec_manual_operator (artifact_id stakeholder_id : Z) (approve : bool)
      (comment : option string) :
  spec (fun _ => True)
       (ManualApprovalOperator.execute artifact_id stakeholder_id approve
                                       comment)
       (fun _ _ => True).
Proof. unfold ManualApprovalOperator.execute. spec_tac. Qed.

Lemma spec_prd_processor (task_id : string) (artifact_id : Z) :
  spec (fun _ => True) (PRDProcessorOperator.execute task_id artifact_id)
       (fun _ _ => True).
Proof. unfold PRDProcessorOperator.execute. spec_tac. Qed.

Lemma spec_api_generator (task_id : string) (artifact_id : Z) :
  spec (fun _ => True) (APIGeneratorOperator.execute task_id artifact_id)
       (fun _ _ => True).
Proof. unfold APIGeneratorOperator.execute. spec_tac. Qed.

Lemma spec_typespec_generator (task_id : string) (artifact_id : Z) :
  spec (fun _ => True) (TypeSpecGeneratorOperator.execute task_id artifact_id)
       (fun _ _ => True).
Proof. unfold TypeSpecGeneratorOperator.execute. spec_tac. Qed.

Lemma spec_schema_generator (task_id : string) (artifact_id : Z) :
  spec (fun _ => True) (SchemaGeneratorOperator.execute task_id artifact_id)
       (fun _ _ => True).
Proof. unfold SchemaGeneratorOperator.execute. spec_tac. Qed.

Lemma spec_create_prd (prd_name : option string) (prd_content : option json) :
  spec (fun _ => True) (Dag.create_prd_artifact prd_name prd_content)
       (fun _ _ => True).
Proof. unfold Dag.create_prd_artifact. spec_tac. Qed.

Lemma spec_finalize (ids : SchemaGeneratorOperator.SchemaIds) :
  spec (fun _ => True) (Dag.finalize_pipeline ids) (fun _ _ => True).
Proof. unfold Dag.finalize_pipeline. spec_tac. Qed.

(** ** Operators and task graph keep it *)

Lemma spec_keeps {A : Type} (m : M A) :
  spec (fun _ => True) m (fun _ _ => True) ->
  forall w, consistent w -> consistent (snd (m w)).
Proof. intros H w Hc. now apply H. Qed.

Lemma keeps_then {B C : Type} (f : World -> B * World)
      (g : B -> World -> C * World) :
  (forall w, consistent w -> consistent (snd (f w))) ->
  (forall b w, consistent w -> consistent (snd (g b w))) ->
  forall w, consistent w ->
            consistent (snd (let (b, w1) := f w in g b w1)).
Proof.
  intros Hf Hg w Hc. specialize (Hf w Hc). destruct (f w) as [b w1].
  now apply Hg.
Qed.

Lemma keeps_attempt {A : Type} (n : nat) (task : M A) :
  (forall w, consistent w -> consistent (snd (task w))) ->
  forall w, consistent w -> consistent (snd (Dag.attempt n task w)).
Proof.
  intros Ht. induction n as [|n IH]; intros w Hc; simpl;
    specialize (Ht w Hc); destruct (task w) as [[v|e] w1]; simpl in *; auto.
Qed.

Lemma keeps_downstream {A B : Type} (up : Dag.TaskState A) (task : A -> M B) :
  (forall a w, consistent w -> consistent (snd (task a w))) ->
  forall w, consistent w -> consistent (snd (Dag.downstream up task w)).
Proof.
  intros Ht w Hc. unfold Dag.downstream, Dag.run_task.
  destruct up as [a| |]; cbv beta iota; auto.
  now apply (keeps_attempt Dag.retries (task a) (Ht a)).
Qed.

Lemma keeps_fan_in
      (generate_schemas : Dag.TaskState SchemaGeneratorOperator.SchemaIds) :
  forall w, consistent w ->
            consistent (snd (Dag.fan_in generate_schemas w)).
Proof.
  unfold Dag.fan_in.
  apply keeps_then;
    [apply keeps_downstream; intros ?; apply spec_keeps,
       spec_approval_operator|].
  intros zod. apply keeps_then;
    [apply keeps_downstream; intros ?; apply spec_keeps,
       spec_approval_operator|].
  intros db. apply keeps_then;
    [apply keeps_downstream; intros ?; apply spec_keeps, spec_finalize|].
  intros fin w Hc. exact Hc.
Qed.

Lemma keeps_run (prd_name : option string) (prd_content : option json) :
  forall w, consistent w ->
            consistent (snd (Dag.run prd_name prd_content w)).
Proof.
  unfold Dag.run.
  apply keeps_then;
    [apply keeps_attempt, spec_keeps, spec_create_prd | intros t1].
  apply keeps_then;
    [apply keeps_downstream; intros ?; apply spec_keeps,
       spec_approval_operator | intros t2].
  apply keeps_then;
    [apply keeps_downstream; intros ?; apply spec_keeps, spec_prd_processor
    | intros t3].
  apply keeps_then;
    [apply keeps_downstream; intros ?; apply spec_keeps,
       spec_approval_operator | intros t4].
  apply keeps_then;
    [apply keeps_downstream; intros ?; apply spec_keeps, spec_api_generator
    | intros t5].
  apply keeps_then;
    [apply keeps_downstream; intros ?; apply spec_keeps,
       spec_approval_operator | intros t6].
  apply keeps_then;
    [apply keeps_downstream; intros ?; apply spec_keeps,
       spec_typespec_generator | intros t7].
  apply keeps_then;
    [apply keeps_downstream; intros ?; apply spec_keeps,
       spec_approval_operator | intros t8].
  apply keeps_then;
    [apply keeps_downstream; intros ?; apply spec_keeps,
       spec_schema_generator | intros t9].
  apply keeps_then; [apply keeps_fan_in | intros join].
  intros w Hc. exact Hc.
Qed.

Lemma consistent_empty : consistent Sample.empty.
Proof.
  unfold consistent, has_artifact. simpl.
  repeat split; try constructor; intros ? [].
Qed.

(** The operators keep the tables consistent, whether they return or
    raise, also when they stop half-way after a first insert: artifact ids
    and approval ids stay distinct and below their serial, and every
    approval row refers to an artifact row.  So does a whole DAG run, with
    its retries. *)
Theorem operators_keep_tables_consistent :
  forall (w : World) (task_id : string) (artifact_id stakeholder_id : Z)
         (approve : bool) (comment prd_name : option string)
         (prd_content : option json),
    consistent w ->
    consistent (snd (ApprovalOperator.execute artifact_id w))
    /\ consistent (snd (ManualApprovalOperator.execute
                          artifact_id stakeholder_id approve comment w))
    /\ consistent (snd (PRDProcessorOperator.execute task_id artifact_id w))
    /\ consistent (snd (APIGeneratorOperator.execute task_id artifact_id w))
    /\ consistent (snd (TypeSpecGeneratorOperator.execute task_id artifact_id w))
    /\ consistent (snd (SchemaGeneratorOperator.execute task_id artifact_id w))
    /\ consistent (snd (Dag.create_prd_artifact prd_name prd_content w))
    /\ consistent (snd (Dag.run prd_name prd_content w)).
Proof.
  intros w task_id artifact_id stakeholder_id approve comment prd_name
         prd_content Hc.
  split; [exact (spec_keeps _ (spec_approval_operator _) w Hc)|].
  split; [exact (spec_keeps _ (spec_manual_operator _ _ _ _) w Hc)|].
  split; [exact (spec_keeps _ (spec_prd_processor _ _) w Hc)|].
  split; [exact (spec_keeps _ (spec_api_generator _ _) w Hc)|].
  split; [exact (spec_keeps _ (spec_typespec_generator _ _) w Hc)|].
  split; [exact (spec_keeps _ (spec_schema_generator _ _) w Hc)|].
  split; [exact (spec_keeps _ (spec_create_prd _ _) w Hc)|].
  now apply keeps_run.
Qed.

Lemma operators_keep_tables_consistent_witness :
  consistent (snd (Dag.run (Some "Checkout Flow") (Some Sample.checkout)
                     Sample.empty)).
Proof.
  apply (operators_keep_tables_consistent Sample.empty "" 0 0 true None
           (Some "Checkout Flow") (Some Sample.checkout)).
  exact consistent_empty.
Defined.

(** * Consequences of the invariant *)

Lemma find_app_fresh (rows more : list Artifact) (row : Artifact) :
  (forall a, In a rows -> a_id a <> a_id row) ->
  find (fun a => a_id a =? a_id row) (rows ++ row :: more) = Some row.
Proof.
  intros H. induction rows as [|x rows IH]; simpl.
  - now rewrite Z.eqb_refl.
  - destruct (a_id x =? a_id row) eqn:E.
    + apply Z.eqb_eq in E. exfalso. apply (H x); [now left | exact E].
    + apply IH. intros a Ha. apply H. now right.
Qed.

Lemma find_app_other (rows : list Artifact) (row : Artifact) (i : Z) :
  i <> a_id row ->
  find (fun a => a_id a =? i) (rows ++ [row])
  = find (fun a => a_id a =? i) rows.
Proof.
  intros H. induction rows as [|x rows IH]; simpl.
  - destruct (a_id row =? i) eqn:E; [|reflexivity].
    apply Z.eqb_eq in E. congruence.
  - destruct (a_id x =? i); [reflexivity | exact IH].
Qed.

Lemma find_unique_artifact (rows : list Artifact) (a : Artifact) :
  NoDup (map a_id rows) -> In a rows ->
  find (fun x => a_id x =? a_id a) rows = Some a.
Proof.
  induction rows as [|x rows IH]; simpl; [intros _ []|].
  intros Hnd Hin. inversion Hnd as [|? ? Hnotin Hnd']; subst.
  destruct Hin as [->|Hin]; [now rewrite Z.eqb_refl|].
  destruct (a_id x =? a_id a) eqn:E; [|now apply IH].
  apply Z.eqb_eq in E. exfalso. apply Hnotin. rewrite E. now apply in_map.
Qed.

Lemma consistent_fresh_id (w : World) (a : Artifact) :
  consistent w -> In a (artifacts w) -> a_id a <> next_artifact_id w.
Proof.
  intros (_ & Hlt & _) Hin.
  specialize (Hlt (a_id a) (in_map a_id _ _ Hin)). lia.
Qed.

(** Insert, then look up.  In consistent tables [get_artifact] returns
    exactly the rows of the table, each under its own id; the row returned
    by [create_artifact] is found under its id right away, and the insert
    leaves every other lookup as it was. *)
Theorem created_artifact_is_found :
  forall (w : World) (data : ArtifactData),
    consistent w ->
    let row := mkArtifact (next_artifact_id w) (d_name data) (d_type data)
                          (d_content data) (d_createdBy data)
                          (d_parentId data) (d_status data) None in
    let w' := snd (SupabaseHook.create_artifact data w) in
    fst (SupabaseHook.create_artifact data w) = Ok row
    /\ SupabaseHook.get_artifact (a_id row) w' = (Ok (Some row), w')
    /\ artifact_of w (a_id row) = None
    /\ (forall i, i <> a_id row ->
                  fst (SupabaseHook.get_artifact i w')
                  = fst (SupabaseHook.get_artifact i w))
    /\ (forall a, In a (artifacts w) ->
                  fst (SupabaseHook.get_artifact (a_id a) w) = Ok (Some a)).
Proof.
  intros w data Hc row w'. subst w'.
  split; [reflexivity|]. split.
  { unfold SupabaseHook.get_artifact. simpl. f_equal. f_equal.
    apply (find_app_fresh (artifacts w) [] row). intros a Ha.
    now apply consistent_fresh_id. }
  split.
  { unfold artifact_of.
    destruct (find _ (artifacts w)) as [a|] eqn:E; [|reflexivity].
    apply find_some in E. destruct E as [Hin Hid]. apply Z.eqb_eq in Hid.
    exfalso. now apply (consistent_fresh_id w a Hc Hin). }
  split.
  { intros i Hi. unfold SupabaseHook.get_artifact. simpl. f_equal.
    now apply find_app_other. }
  intros a Ha. unfold SupabaseHook.get_artifact. simpl. f_equal.
  apply find_unique_artifact; [apply Hc | exact Ha].
Qed.

Lemma consistent_seeded : consistent Sample.seeded.
Proof.
  exact (spec_keeps _ (spec_create_prd _ _) _ consistent_empty).
Qed.

Lemma created_artifact_is_found_witness :
  fst (SupabaseHook.get_artifact 2
         (snd (SupabaseHook.create_artifact
                 (mkArtifactData "Notes" "PRD" JNull "airflow" None "DRAFT")
                 Sample.seeded)))
  = Ok (Some (mkArtifact 2 "Notes" "PRD" JNull "airflow" None "DRAFT" None)).
Proof.
  destruct (created_artifact_is_found Sample.seeded
              (mkArtifactData "Notes" "PRD" JNull "airflow" None "DRAFT")
              consistent_seeded) as (_ & H & _).
  exact (f_equal fst H).
Defined.

(** ** Decisions on one artifact and the quorum of another *)

Lemma approval_id_unique (rows : list Approval) (p q : Approval) :
  NoDup (map ap_id rows) -> In p rows -> In q rows ->
  ap_id p = ap_id q -> p = q.
Proof.
  induction rows as [|x rows IH]; simpl; [intros _ []|].
  intros Hnd Hp Hq Heq. inversion Hnd as [|? ? Hnotin Hnd']; subst.
  destruct Hp as [->|Hp], Hq as [->|Hq]; auto.
  - exfalso. apply Hnotin. rewrite Heq. now apply in_map.
  - exfalso. apply Hnotin. rewrite <- Heq. now apply in_map.
Qed.

Lemma filter_touched_elsewhere (now : nat) (approval_id : Z)
      (data : ApprovalUpdate) (artifact_id : Z) (rows : list Approval) :
  (forall r, In r rows -> ap_artifactId r = artifact_id ->
             ap_id r <> approval_id) ->
  filter (fun p => ap_artifactId p =? artifact_id)
         (map (SupabaseHook.touch_approval now approval_id data) rows)
  = filter (fun p => ap_artifactId p =? artifact_id) rows.
Proof.
  intros H. induction rows as [|r rows IH]; simpl; [reflexivity|].
  rewrite touch_approval_artifactId.
  assert (IH' := IH (fun x Hx => H x (or_intror Hx))).
  destruct (ap_artifactId r =? artifact_id) eqn:E; [|exact IH'].
  apply Z.eqb_eq in E. f_equal; [|exact IH'].
  unfold SupabaseHook.touch_approval.
  destruct (ap_id r =? approval_id) eqn:Ei; [|reflexivity].
  apply Z.eqb_eq in Ei. exfalso. now apply (H r (or_introl eq_refl) E).
Qed.

(** In consistent tables the approval cycles of two artifacts do not
    interfere: a decision recorded by [ManualApprovalOperator.execute] on
    one artifact, approval or rejection, leaves the approval rows of every
    other artifact, that artifact's own row, and the answer of its quorum
    check as they were. *)
Theorem decisions_do_not_cross_artifacts :
  forall (w : World) (decided other stakeholder_id : Z) (approve : bool)
         (comment : option string),
    consistent w ->
    other <> decided ->
    let w' := snd (ManualApprovalOperator.execute decided stakeholder_id
                     approve comment w) in
    approvals_of w' other = approvals_of w other
    /\ artifact_of w' other = artifact_of w other
    /\ fst (ApprovalOperator.execute other w')
       = fst (ApprovalOperator.execute other w).
Proof.
  intros w decided other stakeholder_id approve comment Hc Hne w'.
  assert (Hboth : approvals_of w' other = approvals_of w other
                  /\ artifact_of w' other = artifact_of w other
                  /\ pipelineStages w' = pipelineStages w).
  { subst w'. rewrite manual_execute_eq.
    destruct (stakeholder_approvals w decided stakeholder_id)
      as [|p rest] eqn:E; [auto|].
    cbv zeta.
    set (data := ManualApprovalOperator.update_data approve comment).
    assert (Hp : In p (approvals w) /\ ap_artifactId p = decided).
    { assert (Hin : In p (stakeholder_approvals w decided stakeholder_id))
        by (rewrite E; now left).
      unfold stakeholder_approvals, approvals_of in Hin.
      apply filter_In in Hin. destruct Hin as [Hin _].
      apply filter_In in Hin. destruct Hin as [Hin Hd].
      apply Z.eqb_eq in Hd. auto. }
    destruct Hp as [Hpin Hpd].
    assert (H1 : approvals_of
                   (snd (SupabaseHook.update_approval (ap_id p) data w)) other
                 = approvals_of w other).
    { unfold approvals_of. rewrite approvals_after_update_approval.
      apply filter_touched_elsewhere. intros r Hr Hro Hid.
      destruct Hc as (_ & _ & Hnd & _).
      assert (r = p) by (now apply (approval_id_unique (approvals w))).
      subst r. congruence. }
    assert (H2 : forall w1,
               approvals_of
                 (snd (SupabaseHook.update_artifact decided "REJECTED" w1))
                 other
               = approvals_of w1 other).
    { intros w1. unfold approvals_of.
      now rewrite (proj1 (update_artifact_frame decided "REJECTED" w1)). }
    assert (H3 : forall w1,
               artifact_of
                 (snd (SupabaseHook.update_artifact decided "REJECTED" w1))
                 other
               = artifact_of w1 other).
    { intros w1. rewrite artifact_of_after_update.
      destruct (artifact_of w1 other) as [x|] eqn:Ex; [|reflexivity].
      simpl. unfold SupabaseHook.touch_artifact.
      apply find_id_eq in Ex. rewrite Ex.
      destruct (other =? decided) eqn:Eo; [|reflexivity].
      apply Z.eqb_eq in Eo. contradiction. }
    assert (H4 : artifact_of
                   (snd (SupabaseHook.update_approval (ap_id p) data w)) other
                 = artifact_of w other).
    { unfold artifact_of.
      now rewrite (proj1 (update_approval_frame (ap_id p) data w)). }
    assert (H5 : pipelineStages
                   (snd (SupabaseHook.update_approval (ap_id p) data w))
                 = pipelineStages w) by apply update_approval_frame.
    assert (H6 : forall w1,
               pipelineStages
                 (snd (SupabaseHook.update_artifact decided "REJECTED" w1))
               = pipelineStages w1) by (intros; apply update_artifact_frame).
    destruct approve; [auto|].
    destruct (artifact_of w decided); cbn [snd];
      rewrite H2, H3, H6; auto. }
  destruct Hboth as (Hap & Har & Hst).
  split; [exact Hap|]. split; [exact Har|].
  rewrite !execute_eq, Har. unfold stage_of. rewrite Hst, Hap.
  destruct (artifact_of w other) as [x|]; [|reflexivity].
  destruct (stage_among range6 (pipelineStages w) (a_type x)); [|reflexivity].
  destruct (approved_count _ >=? _); reflexivity.
Qed.

Lemma consistent_typespec_world : consistent Sample.typespec_world.
Proof.
  unfold consistent, has_artifact. simpl.
  split; [repeat constructor; intros []|].
  split; [intros i [<-|[]]; reflexivity|].
  split; [constructor|]. split; intros ? [].
Qed.

Lemma consistent_siblings_world : consistent Cases.siblings_world.
Proof.
  exact (spec_keeps _ (spec_schema_generator _ _) _ consistent_typespec_world).
Qed.

(** Stakeholder 2 rejects the ZOD_SCHEMA sibling: the DB_SCHEMA sibling's
    quorum check answers as before. *)
Lemma decisions_do_not_cross_artifacts_witness :
  fst (ApprovalOperator.execute 3
         (snd (ManualApprovalOperator.execute 2 2 false None
                 Cases.siblings_world)))
  = fst (ApprovalOperator.execute 3 Cases.siblings_world).
Proof.
  apply (decisions_do_not_cross_artifacts Cases.siblings_world 2 3 2 false
           None consistent_siblings_world).
  discriminate.
Defined.

(** ** Running the quorum check again *)

(** The quorum check can be repeated: run a second time right after the
    first, [ApprovalOperator.execute] gives the same answer or raises the
    same error, leaves the artifact with the same status, and has still not
    touched an approval row. *)
Theorem approval_check_is_repeatable :
  forall (artifact_id : Z) (w : World),
    let r1 := ApprovalOperator.execute artifact_id w in
    let r2 := ApprovalOperator.execute artifact_id (snd r1) in
    fst r2 = fst r1
    /\ artifact_status (snd r2) artifact_id
       = artifact_status (snd r1) artifact_id
    /\ approvals (snd r2) = approvals w.
Proof.
  intros artifact_id w. cbv zeta.
  pose proof (execute_eq artifact_id w) as E1.
  destruct (artifact_of w artifact_id) as [a|] eqn:Ha;
    [destruct (stage_of w (a_type a)) as [st|] eqn:Hst;
     [destruct (approved_count (approvals_of w artifact_id)
                >=? st_requiredApprovals st) eqn:Hq|]|];
    rewrite E1; cbn [fst snd].
  - set (w1 := snd (SupabaseHook.update_artifact artifact_id "APPROVED" w)).
    assert (Ha1 : artifact_of w1 artifact_id
                  = Some (SupabaseHook.touch_artifact (clock w) artifact_id
                            "APPROVED" a)).
    { subst w1. now rewrite artifact_of_after_update, Ha. }
    assert (Hap1 : approvals w1 = approvals w)
      by (subst w1; apply update_artifact_frame).
    assert (Hst1 : pipelineStages w1 = pipelineStages w)
      by (subst w1; apply update_artifact_frame).
    assert (E2 : ApprovalOperator.execute artifact_id w1
                 = (Ok true,
                    snd (SupabaseHook.update_artifact artifact_id "APPROVED"
                           w1))).
    { rewrite execute_eq, Ha1, touch_artifact_type.
      unfold stage_of, approvals_of. rewrite Hst1, Hap1.
      fold (stage_of w (a_type a)). fold (approvals_of w artifact_id).
      now rewrite Hst, Hq. }
    rewrite E2. cbn [fst snd].
    split; [reflexivity|]. split.
    + rewrite (update_artifact_status _ _ _ _ Ha1).
      subst w1. now rewrite (update_artifact_status _ _ _ _ Ha).
    + rewrite (proj1 (update_artifact_frame artifact_id "APPROVED" w1)).
      exact Hap1.
  - rewrite E1. auto.
  - rewrite E1. auto.
  - rewrite E1. auto.
Qed.

(** ** A retry after a partial insert *)

Section SchemaRetry.

Variables (task_id : string) (artifact_id : Z) (w : World) (a : Artifact).
Variables (run : json -> result json) (result zod : json) (e : exn).

Hypothesis source_found : artifact_of w artifact_id = Some a.
Hypothesis source_is_typespec : a_type a = "TYPESPEC".
Hypothesis script_found : scripts w "schema_generator" = Some run.
Hypothesis script_ran : run (JObj [("typespec", a_content a)]) = Ok result.
Hypothesis zod_payload : subscript result "zod_schema" = Ok zod.
Hypothesis db_payload_missing : subscript result "db_schema" = Raise e.

(** The retry of a task starts the operator from the top.  When the schema
    generator's result has no ['db_schema'], the task [generate_schemas]
    fails twice, the processor has been run twice, and two ZOD_SCHEMA
    artifacts for the same TYPESPEC artifact are left in the table, under
    consecutive ids and without any approval row. *)
Theorem retry_repeats_the_partial_insert :
  let r := Dag.run_task (SchemaGeneratorOperator.execute task_id artifact_id)
                        w in
  let zod_row i :=
    mkArtifact i ("Zod Schema for " ++ a_name a)%string "ZOD_SCHEMA" zod
               task_id (Some artifact_id) "PENDING_APPROVAL" None in
  fst r = Dag.failed e
  /\ artifacts (snd r)
     = artifacts w ++ [zod_row (next_artifact_id w);
                       zod_row (next_artifact_id w + 1)]
  /\ approvals (snd r) = approvals w
  /\ invocations (snd r)
     = invocations w
       ++ [("schema_generator", JObj [("typespec", a_content a)]);
           ("schema_generator", JObj [("typespec", a_content a)])].
Proof.
  intros r zod_row.
  pose proof (schema_execute_db_missing task_id artifact_id w a run
                result source_found source_is_typespec script_found
                script_ran zod e zod_payload db_payload_missing) as E1.
  set (w1 := with_artifacts _ _ _) in E1.
  assert (Ha1 : artifact_of w1 artifact_id = Some a).
  { subst w1. unfold artifact_of. cbn [artifacts with_artifacts].
    now apply find_app_some. }
  pose proof (schema_execute_db_missing task_id artifact_id w1 a run
                result Ha1 source_is_typespec script_found script_ran
                zod e zod_payload db_payload_missing) as E2.
  subst r. unfold Dag.run_task, Dag.retries.
  cbn [Dag.attempt]. rewrite E1. cbn [Dag.attempt]. rewrite E2.
  subst w1. cbn -[Z.add].
  rewrite (find_id_eq _ _ _ source_found), <- !app_assoc.
  repeat split.
Qed.

End SchemaRetry.

Lemma retry_repeats_the_partial_insert_witness :
  map a_type
    (artifacts
       (snd (Dag.run_task
               (SchemaGeneratorOperator.execute "generate_schemas" 1)
               Cases.broken_typespec_world)))
  = ["TYPESPEC"; "ZOD_SCHEMA"; "ZOD_SCHEMA"].
Proof.
  destruct (retry_repeats_the_partial_insert "generate_schemas" 1
              Cases.broken_typespec_world Sample.typespec
              (fun _ => Ok (JObj [("zod_schema", JStr "z.object({})")]))
              (JObj [("zod_schema", JStr "z.object({})")])
              (JStr "z.object({})") (KeyError "db_schema")
              eq_refl eq_refl eq_refl eq_refl eq_refl eq_refl)
    as (_ & H & _).
  now rewrite H.
Defined.

(** ** The four generators, one after the other *)

Lemma appended_artifact_found (w : World) (row : Artifact)
      (rows : list Artifact) :
  consistent w -> a_id row = next_artifact_id w ->
  find (fun a => a_id a =? next_artifact_id w) (artifacts w ++ row :: rows)
  = Some row.
Proof.
  intros Hc Hid. rewrite <- Hid. apply find_app_fresh.
  intros a Ha. rewrite Hid. now apply consistent_fresh_id.
Qed.

Section Chain.

Variables (t1 t2 t3 t4 : string) (artifact_id : Z) (w : World) (prd : Artifact).
Variables (run1 run2 run3 run4 : json -> result json).
Variables (x1 x2 x3 x4 zod db : json).

Hypothesis tables_consistent : consistent w.
Hypothesis prd_found : artifact_of w artifact_id = Some prd.
Hypothesis prd_is_prd : a_type prd = "PRD".
Hypothesis script1 : scripts w "prd_processor" = Some run1.
Hypothesis script2 : scripts w "api_generator" = Some run2.
Hypothesis script3 : scripts w "typespec_generator" = Some run3.
Hypothesis script4 : scripts w "schema_generator" = Some run4.
Hypothesis ran1 : run1 (JObj [("prd", a_content prd)]) = Ok x1.
Hypothesis ran2 : run2 (JObj [("ddd_model", x1)]) = Ok x2.
Hypothesis ran3 : run3 (JObj [("api_spec", x2)]) = Ok x3.
Hypothesis ran4 : run4 (JObj [("typespec", x3)]) = Ok x4.
Hypothesis zod_payload : subscript x4 "zod_schema" = Ok zod.
Hypothesis db_payload : subscript x4 "db_schema" = Ok db.

(** The operators chain on the ids they return, and no approval is needed
    in between: in consistent tables, each generator run on the id returned
    by the one before succeeds although that artifact is still
    PENDING_APPROVAL.  The four runs leave five new artifacts under
    consecutive ids, each with the artifact it was derived from as parent,
    and eight approval requests, all PENDING. *)
Theorem generators_chain_without_approval :
  let n := next_artifact_id w in
  let r1 := PRDProcessorOperator.execute t1 artifact_id w in
  let r2 := APIGeneratorOperator.execute t2 n (snd r1) in
  let r3 := TypeSpecGeneratorOperator.execute t3 (n + 1) (snd r2) in
  let r4 := SchemaGeneratorOperator.execute t4 (n + 2) (snd r3) in
  let summary a := (a_id a, a_type a, a_parentId a, a_status a) in
  fst r1 = Ok n
  /\ fst r2 = Ok (n + 1)
  /\ fst r3 = Ok (n + 2)
  /\ fst r4 = Ok (SchemaGeneratorOperator.mkSchemaIds (n + 3) (n + 4))
  /\ map summary (artifacts (snd r4))
     = map summary (artifacts w)
       ++ [(n, "DDD_MODEL", Some artifact_id, "PENDING_APPROVAL");
           (n + 1, "API_SPEC", Some n, "PENDING_APPROVAL");
           (n + 2, "TYPESPEC", Some (n + 1), "PENDING_APPROVAL");
           (n + 3, "ZOD_SCHEMA", Some (n + 2), "PENDING_APPROVAL");
           (n + 4, "DB_SCHEMA", Some (n + 2), "PENDING_APPROVAL")]
  /\ map ap_status (approvals (snd r4))
     = map ap_status (approvals w) ++ repeat "PENDING" 8.
Proof.
  intros n r1 r2 r3 r4 summary.
  (* first run *)
  pose proof (prd_execute_eq t1 artifact_id w prd run1 x1 prd_found prd_is_prd
                script1 ran1) as E1.
  match type of E1 with _ = (_, ?W) => set (w1 := W) in E1 end.
  assert (Hc1 : consistent w1).
  { pose proof (spec_keeps _ (spec_prd_processor t1 artifact_id) w
                  tables_consistent) as H.
    now rewrite E1 in H. }
  assert (Ha1 : artifact_of w1 n
                = Some (mkArtifact n ("DDD Model for " ++ a_name prd)%string
                          "DDD_MODEL" x1 t1 (Some (a_id prd))
                          "PENDING_APPROVAL" None)).
  { subst w1. unfold artifact_of. cbn [artifacts].
    now apply appended_artifact_found. }
  (* second run *)
  pose proof (api_execute_eq t2 n w1 _ run2 x2 Ha1 eq_refl script2 ran2) as E2.
  match type of E2 with _ = (_, ?W) => set (w2 := W) in E2 end.
  assert (Hc2 : consistent w2).
  { pose proof (spec_keeps _ (spec_api_generator t2 n) w1 Hc1) as H.
    now rewrite E2 in H. }
  assert (Hn1 : next_artifact_id w1 = n + 1) by reflexivity.
  assert (Ha2 : artifact_of w2 (n + 1)
                = Some (mkArtifact (next_artifact_id w1)
                          ("API Specification for "
                             ++ ("DDD Model for " ++ a_name prd))%string
                          "API_SPEC" x2 t2 (Some n)
                          "PENDING_APPROVAL" None)).
  { rewrite <- Hn1. subst w2. unfold artifact_of. cbn [artifacts].
    now apply appended_artifact_found. }
  (* third run *)
  pose proof (typespec_execute_eq t3 (n + 1) w2 _ run3 x3 Ha2 eq_refl
                script3 ran3) as E3.
  match type of E3 with _ = (_, ?W) => set (w3 := W) in E3 end.
  assert (Hc3 : consistent w3).
  { pose proof (spec_keeps _ (spec_typespec_generator t3 (n + 1)) w2 Hc2) as H.
    now rewrite E3 in H. }
  assert (Hn2 : next_artifact_id w2 = n + 2)
    by (subst w2; cbn [next_artifact_id]; rewrite Hn1; lia).
  assert (Ha3 : artifact_of w3 (n + 2)
                = Some (mkArtifact (next_artifact_id w2)
                          ("TypeSpec for "
                             ++ ("API Specification for "
                                   ++ ("DDD Model for " ++ a_name prd)))%string
                          "TYPESPEC" x3 t3 (Some (next_artifact_id w1))
                          "PENDING_APPROVAL" None)).
  { rewrite <- Hn2. subst w3. unfold artifact_of. cbn [artifacts].
    now apply appended_artifact_found. }
  (* fourth run *)
  pose proof (schema_execute_eq t4 (n + 2) w3 _ run4 x4 zod db Ha3 eq_refl
                script4 ran4 zod_payload db_payload) as E4.
  assert (Hn3 : next_artifact_id w3 = n + 3)
    by (subst w3; cbn [next_artifact_id]; rewrite Hn2; lia).
  subst r1 r2 r3 r4. rewrite E1. cbn [fst snd]. rewrite E2. cbn [fst snd].
  rewrite E3. cbn [fst snd]. rewrite E4. cbn [fst snd artifacts approvals].
  rewrite Hn3, Hn2, Hn1.
  split; [reflexivity|]. split; [reflexivity|]. split; [reflexivity|].
  split; [do 2 f_equal; lia|].
  split.
  - subst w3 w2 w1. cbn [artifacts]. rewrite <- !app_assoc, map_app.
    subst summary n.
    cbn [app map a_id a_type a_parentId a_status next_artifact_id].
    rewrite (find_id_eq _ _ _ prd_found). f_equal.
    repeat match goal with
           | |- _ :: _ = _ :: _ => f_equal
           | |- (_, _) = (_, _) => f_equal
           | |- Some _ = Some _ => f_equal
           end; lia.
  - subst w3 w2 w1. cbn [approvals]. rewrite <- !app_assoc, map_app.
    reflexivity.
Qed.

End Chain.

(** From the seeded PRD of [Sample.seeded] (artifact 1, not approved) to the
    two schema artifacts 5 and 6. *)
Lemma generators_chain_without_approval_witness :
  fst (SchemaGeneratorOperator.execute "generate_schemas" 4
         (snd (TypeSpecGeneratorOperator.execute "generate_typespec" 3
                 (snd (APIGeneratorOperator.execute "generate_api" 2
                         (snd (PRDProcessorOperator.execute "process_prd" 1
                                 Sample.seeded)))))))
  = Ok (SchemaGeneratorOperator.mkSchemaIds 5 6).
Proof.
  pose (x1 := JObj [("from", JObj [("prd", Sample.checkout)])]).
  pose (x2 := JObj [("from", JObj [("ddd_model", x1)])]).
  pose (x3 := JObj [("from", JObj [("api_spec", x2)])]).
  exact (proj1 (proj2 (proj2 (proj2
           (generators_chain_without_approval
              "process_prd" "generate_api" "generate_typespec"
              "generate_schemas" 1 Sample.seeded Sample.prd
              Sample.echo Sample.echo Sample.echo (fun _ => Ok Sample.schemas)
              x1 x2 x3 Sample.schemas
              (JStr "z.object({})") (JStr "CREATE TABLE t ()")
              consistent_seeded eq_refl eq_refl eq_refl eq_refl eq_refl
              eq_refl eq_refl eq_refl eq_refl eq_refl eq_refl eq_refl))))).
Defined.

(** * C5: one approval record per (artifact, stakeholder) pair *)


(** What a run of a generating operator does to the approval table: nothing
    when it raises, and when it returns, the rows of the hard-coded
    approvers, appended for the artifacts the run has just created. *)



(** *** Counting the rows of a pair *)





















